(** * meshtastic-bridge: the plugin pipeline of [plugins.py]

    A shallow embedding of the stages ("plugins") that the bridge applies to
    every packet, and the properties its specification states about them.

    Python objects are embedded as the inductive type [value]; a [dict] is an
    association list in insertion order, because the code iterates over
    [items()] and serialises mappings.  An exception is the [Raise] branch of
    [result]; the distinguished "no value" a stage returns to drop a packet is
    [VNone].  The libraries the code calls ([json], [re], [haversine],
    [jwcrypto], the broker and radio clients, ...) are the fields of a record
    [world]: a theorem stated for every [world] holds whatever they compute.

    The embedding comes first, stage by stage in the order of [plugins.py];
    the properties follow. *)

From Stdlib Require Import ZArith QArith List String Ascii Bool Lia DecimalString.
Import ListNotations.
Local Open Scope string_scope.
Local Open Scope list_scope.
Local Open Scope Z_scope.
Set Warnings "-register-all".

(** ** Python values *)

(** A float is represented by the rational it denotes (comparisons of ints and
    floats are exact in Python); NaN and the infinities are left out.  A [str]
    is kept as its UTF-8 text and [bytes] as they are, so iteration and
    indexing of a [str] count bytes, which are the characters of ASCII text.
    The keys of a [dict] are strings, as in a packet and in a configuration. *)
Inductive value : Type :=
| VNone
| VBool (b : bool)
| VInt (n : Z)
| VFloat (x : Q)
| VStr (s : string)
| VBytes (b : string)
| VList (l : list value)
| VDict (d : list (string * value)).

Definition dict : Type := list (string * value).

Inductive exn : Type :=
| KeyError
| TypeError
| ValueError
| IndexError
| AttributeError
| ZeroDivisionError
| LibraryError (name : string).

Inductive result (A : Type) : Type :=
| Ok (a : A)
| Raise (e : exn).
Arguments Ok {A} a.
Arguments Raise {A} e.

Definition bind {A B : Type} (m : result A) (f : A -> result B) : result B :=
  match m with
  | Ok a => f a
  | Raise e => Raise e
  end.

Declare Scope py_scope.
Delimit Scope py_scope with py.
Notation "x <- m ;; k" := (bind m (fun x => k))
  (at level 100, m at next level, right associativity) : py_scope.
Local Open Scope py_scope.

(** [a and b] and [a or b] on tests that may raise: the right operand is
    evaluated only when the left one does not decide. *)
Definition and_then (a : result bool) (b : result bool) : result bool :=
  x <- a ;; if x then b else Ok false.

Definition or_else (a : result bool) (b : result bool) : result bool :=
  x <- a ;; if x then Ok true else b.

Definition is_ok {A : Type} (r : result A) : bool :=
  match r with Ok _ => true | Raise _ => false end.

Definition exn_eqb (a b : exn) : bool :=
  match a, b with
  | KeyError, KeyError | TypeError, TypeError | ValueError, ValueError
  | IndexError, IndexError | AttributeError, AttributeError
  | ZeroDivisionError, ZeroDivisionError => true
  | LibraryError x, LibraryError y => String.eqb x y
  | _, _ => false
  end.

(** [try: m except e: h] *)
Definition try_except {A : Type} (m : result A) (e : exn) (h : result A) : result A :=
  match m with
  | Raise e' => if exn_eqb e e' then h else Raise e'
  | _ => m
  end.

(** ** Dictionaries *)

Fixpoint dict_get (k : string) (d : dict) : option value :=
  match d with
  | [] => None
  | (k', v) :: r => if String.eqb k k' then Some v else dict_get k r
  end.

Definition dict_mem (k : string) (d : dict) : bool :=
  match dict_get k d with Some _ => true | None => false end.

(** [d[k] = v]: an existing key keeps its place, a new one goes last. *)
Fixpoint dict_set (k : string) (v : value) (d : dict) : dict :=
  match d with
  | [] => [(k, v)]
  | (k', v') :: r =>
      if String.eqb k k' then (k, v) :: r else (k', v') :: dict_set k v r
  end.

(** [del d[k]] *)
Fixpoint dict_del (k : string) (d : dict) : dict :=
  match d with
  | [] => []
  | (k', v) :: r => if String.eqb k k' then dict_del k r else (k', v) :: dict_del k r
  end.

Definition dict_map_values (f : value -> value) (d : dict) : dict :=
  map (fun kv => (fst kv, f (snd kv))) d.

Definition is_dict (v : value) : bool :=
  match v with VDict _ => true | _ => false end.

Definition is_str (v : value) : bool :=
  match v with VStr _ => true | _ => false end.

(** [v is None] *)
Definition is_none (v : value) : bool :=
  match v with VNone => true | _ => false end.

(** ** Operators *)

(** Truth value of an object, as [if x] and [not x] test it. *)
Definition truthy (v : value) : bool :=
  match v with
  | VNone => false
  | VBool b => b
  | VInt n => negb (n =? 0)
  | VFloat x => negb (Qeq_bool x 0)
  | VStr s => negb (String.eqb s "")
  | VBytes b => negb (String.eqb b "")
  | VList l => match l with [] => false | _ => true end
  | VDict d => match d with [] => false | _ => true end
  end.

(** The number a numeric object stands for ([True] is 1). *)
Definition num_of (v : value) : option Q :=
  match v with
  | VBool b => Some (inject_Z (if b then 1 else 0))
  | VInt n => Some (inject_Z n)
  | VFloat x => Some x
  | _ => None
  end.

Definition Qlt_bool (x y : Q) : bool := negb (Qle_bool y x).

(** [a == b] *)
Fixpoint py_eqb (a b : value) : bool :=
  match a, b with
  | VNone, VNone => true
  | VStr s, VStr t => String.eqb s t
  | VBytes s, VBytes t => String.eqb s t
  | VList l, VList m =>
      (fix all2 (l : list value) (m : list value) : bool :=
         match l, m with
         | [], [] => true
         | x :: l', y :: m' => py_eqb x y && all2 l' m'
         | _, _ => false
         end) l m
  | VDict d, VDict e =>
      (List.length d =? List.length e)%nat &&
      (fix sub (d : dict) : bool :=
         match d with
         | [] => true
         | (k, v) :: d' =>
             match dict_get k e with
             | Some w => py_eqb v w && sub d'
             | None => false
             end
         end) d
  | _, _ =>
      match num_of a, num_of b with
      | Some x, Some y => Qeq_bool x y
      | _, _ => false
      end
  end.

(** [needle in s] on strings. *)
Fixpoint str_contains (needle s : string) : bool :=
  prefix needle s ||
  match s with
  | EmptyString => false
  | String _ r => str_contains needle r
  end.

(** [x in c] *)
Definition py_in (x c : value) : result bool :=
  match c with
  | VDict d =>
      match x with
      | VStr k => Ok (dict_mem k d)
      | VList _ | VDict _ => Raise TypeError
      | _ => Ok false
      end
  | VList l => Ok (existsb (py_eqb x) l)
  | VStr s =>
      match x with
      | VStr n => Ok (str_contains n s)
      | _ => Raise TypeError
      end
  | VBytes s =>
      match x with
      | VBytes n => Ok (str_contains n s)
      | VInt n =>
          if (0 <=? n) && (n <? 256)
          then Ok (str_contains (String (ascii_of_N (Z.to_N n)) "") s)
          else Raise ValueError
      | _ => Raise TypeError
      end
  | _ => Raise TypeError
  end.

(** ["k" in c] with a literal key. *)
Definition contains (k : string) (c : value) : result bool := py_in (VStr k) c.

(** [c[k]] with a string key. *)
Definition getitem (c : value) (k : string) : result value :=
  match c with
  | VDict d =>
      match dict_get k d with
      | Some v => Ok v
      | None => Raise KeyError
      end
  | _ => Raise TypeError
  end.

(** [c[k] = v] with a string key; the result is the updated container. *)
Definition setitem (c : value) (k : string) (v : value) : result value :=
  match c with
  | VDict d => Ok (VDict (dict_set k v d))
  | _ => Raise TypeError
  end.

(** The elements [for x in c] visits. *)
Definition py_iter (c : value) : result (list value) :=
  match c with
  | VList l => Ok l
  | VDict d => Ok (map (fun kv => VStr (fst kv)) d)
  | VStr s => Ok (map (fun a => VStr (String a "")) (list_ascii_of_string s))
  | VBytes s => Ok (map (fun a => VInt (Z.of_N (N_of_ascii a))) (list_ascii_of_string s))
  | _ => Raise TypeError
  end.

(** [a > b] and [a < b] where one operand is a number, as it is wherever the
    code compares: anything but a number on the other side is a [TypeError]. *)
Definition py_gt (a b : value) : result bool :=
  match num_of a, num_of b with
  | Some x, Some y => Ok (Qlt_bool y x)
  | _, _ => Raise TypeError
  end.

Definition py_lt (a b : value) : result bool := py_gt b a.

(** Induction over values that reaches the items of lists and the values of
    mappings. *)
Section ValueInduction.
Variable P : value -> Prop.
Hypothesis HNone : P VNone.
Hypothesis HBool : forall b, P (VBool b).
Hypothesis HInt : forall n, P (VInt n).
Hypothesis HFloat : forall x, P (VFloat x).
Hypothesis HStr : forall s, P (VStr s).
Hypothesis HBytes : forall b, P (VBytes b).
Hypothesis HList : forall l, Forall P l -> P (VList l).
Hypothesis HDict : forall d, Forall (fun kv => P (snd kv)) d -> P (VDict d).

Fixpoint value_nested_ind (v : value) : P v :=
  match v with
  | VNone => HNone
  | VBool b => HBool b
  | VInt n => HInt n
  | VFloat x => HFloat x
  | VStr s => HStr s
  | VBytes b => HBytes b
  | VList l =>
      HList l
        ((fix items (l : list value) : Forall P l :=
            match l with
            | [] => Forall_nil P
            | x :: r => Forall_cons x (value_nested_ind x) (items r)
            end) l)
  | VDict d =>
      HDict d
        ((fix items (d : dict) : Forall (fun kv => P (snd kv)) d :=
            match d with
            | [] => Forall_nil _
            | kv :: r => Forall_cons kv (value_nested_ind (snd kv)) (items r)
            end) d)
  end.
End ValueInduction.

(** [c[i]] with an integer index. *)
Definition py_index (c : value) (i : Z) : result value :=
  let at_ {A : Type} (l : list A) : option A :=
    let n := Z.of_nat (List.length l) in
    let j := if i <? 0 then i + n else i in
    if (0 <=? j) && (j <? n) then nth_error l (Z.to_nat j) else None in
  match c with
  | VList l =>
      match at_ l with Some v => Ok v | None => Raise IndexError end
  | VStr s =>
      match at_ (list_ascii_of_string s) with
      | Some a => Ok (VStr (String a ""))
      | None => Raise IndexError
      end
  | VBytes s =>
      match at_ (list_ascii_of_string s) with
      | Some a => Ok (VInt (Z.of_N (N_of_ascii a)))
      | None => Raise IndexError
      end
  | VDict _ => Raise KeyError
  | _ => Raise TypeError
  end.

(** [c[k]] with a key computed at run time. *)
Definition subscript (c k : value) : result value :=
  match k with
  | VStr s => getitem c s
  | VInt i => py_index c i
  | VBool b => py_index c (if b then 1 else 0)
  | VList _ | VDict _ => Raise TypeError
  | _ => match c with VDict _ => Raise KeyError | _ => Raise TypeError end
  end.

(** [a + b] where the code concatenates strings. *)
Definition str_add (a b : value) : result value :=
  match a, b with
  | VStr s, VStr t => Ok (VStr (s ++ t))
  | _, _ => Raise TypeError
  end.

(** [a / b] *)
Definition truediv (a b : value) : result value :=
  match num_of a, num_of b with
  | Some x, Some y =>
      if Qeq_bool y 0 then Raise ZeroDivisionError else Ok (VFloat (Qred (x / y)))
  | _, _ => Raise TypeError
  end.

(** [s.replace(old, new)] on strings: the occurrences of [old] are replaced
    from left to right; [skip] counts the characters of a replaced occurrence
    still to be passed over. *)
Fixpoint replace_from (old new : string) (skip : nat) (s : string) : string :=
  match s with
  | EmptyString => EmptyString
  | String c r =>
      match skip with
      | S n => replace_from old new n r
      | O =>
          if prefix old s
          then new ++ replace_from old new (String.length old - 1) r
          else String c (replace_from old new O r)
      end
  end.

Definition str_replace (old new s : string) : string :=
  if String.eqb old ""
  then new ++ concat "" (map (fun a => String a new) (list_ascii_of_string s))
  else replace_from old new O s.

(** [recv.replace(old, new)]: the method is looked up on the receiver, then
    the argument [new] is evaluated, then the call checks its type. *)
Definition replace_method (recv : value) (old : string) (new : result value) : result value :=
  match recv with
  | VStr s =>
      n <- new ;;
      match n with
      | VStr t => Ok (VStr (str_replace old t s))
      | _ => Raise TypeError
      end
  | VBytes _ => _ <- new ;; Raise TypeError
  | _ => Raise AttributeError
  end.

(** [base64.b64encode(b).decode("utf-8")]: three bytes make four characters
    of the alphabet, and [=] pads the last group. *)
Definition base64_alphabet : string :=
  "ABCDEFGHIJKLMNOPQRSTUVWXYZabcdefghijklmnopqrstuvwxyz0123456789+/".

Definition sextet (n : N) : string :=
  match get (N.to_nat n) base64_alphabet with
  | Some c => String c ""
  | None => ""
  end.

Fixpoint b64encode_bytes (l : list N) : string :=
  match l with
  | [] => ""
  | [a] => sextet (a / 4) ++ sextet (a mod 4 * 16) ++ "=="
  | [a; b] =>
      sextet (a / 4) ++ sextet (a mod 4 * 16 + b / 16) ++ sextet (b mod 16 * 4) ++ "="
  | a :: b :: c :: r =>
      sextet (a / 4) ++ sextet (a mod 4 * 16 + b / 16)
      ++ sextet (b mod 16 * 4 + c / 64) ++ sextet (c mod 64) ++ b64encode_bytes r
  end%N%string.

Definition b64encode (b : string) : string :=
  b64encode_bytes (map N_of_ascii (list_ascii_of_string b)).

(** ** Collaborators *)

(** A connected mesh device or the directly attached radio interface: what
    [getMyNodeInfo()] returns and the node directory [nodesByNum]. *)
Record mesh_interface : Type := {
  getMyNodeInfo : value;
  nodesByNum : list (Z * value)
}.

(** A broker client of [mqtt_servers]. *)
Record mqtt_client : Type := {
  is_connected : bool
}.

(** A call on a collaborator that has an effect outside the process. *)
Inductive call : Type :=
| MqttPublish (server : value) (topic message : value)
| MqttWaitForPublish (server : value)
| HttpPost (url headers payload : value)
| AprsSendall (packet : value)
| SendText (device : value) (text destinationId : value)
| SendPosition (device : value) (latitude longitude altitude destinationId : value)
| SendPacket (device : value) (meshPacket destinationId : value)
| NostrOpen (relays : list value)
| NostrPublish (event : value)
| NostrClose.

(** The libraries and the process environment the stages call.  Objects of a
    library (keys, envelopes) are values the code only passes on. *)
Record world : Type := {
  (** [json.loads(s)] *)
  json_loads : value -> result value;
  (** [json.dumps(obj)] *)
  json_dumps : value -> result string;
  (** [base64.b64decode(s)] *)
  b64decode : value -> result string;
  (** [re.search(pattern, text)], as the truth value of the match *)
  re_search : value -> value -> result bool;
  (** [haversine(p, q)] on pairs (latitude, longitude) *)
  haversine : value * value -> value * value -> result value;
  (** [str(obj)] for a float or a container *)
  py_str : value -> string;
  (** [os.environ.items()] *)
  environ : list (string * string);
  (** [int((datetime.now() - timedelta(hours=2)).timestamp())] *)
  two_hours_ago_ts : Z;
  (** [time.sleep(secs)] *)
  sleep : value -> result unit;
  (** [jwk.JWK.from_pem(open(path, "rb").read())] *)
  jwk_from_pem_file : value -> result value;
  (** a fresh [JWK] importing [key.export_public()] *)
  jwk_public : value -> result value;
  (** [key.thumbprint()] *)
  jwk_thumbprint : value -> result value;
  (** [jwe.JWE(plaintext, recipient=key, protected=header)] *)
  jwe_encrypt : string -> value -> value -> result value;
  (** [token.serialize()] *)
  jwe_serialize : value -> result string;
  (** [t = jwe.JWE(); t.deserialize(text, key=key); t.payload] *)
  jwe_decrypt : string -> value -> result string;
  (** the template of [parse_aprs_data] matched against a long name: the
      [groupdict()] of the match, or [VNone] when there is none *)
  aprs_name_match : value -> value -> result value;
  (** [PrivateKey.from_nsec], [PublicKey.from_npub(...).hex()] *)
  nostr_private_key : value -> result value;
  nostr_public_key_hex : value -> result value;
  (** [private_key.sign_event(Event(content, public_key))] *)
  nostr_signed_event : value -> value -> value -> result value;
  (** a [mesh_pb2.MeshPacket] with the given payload bytes and port number *)
  mesh_packet : string -> value -> result value;
  (** what a call on a collaborator returns ([response.ok] for a request,
      [VNone] where the code uses no result), or the exception it raises *)
  respond : call -> result value
}.

(** A stage object: the attributes [configure] sets, the telemetry counter of
    the APRS stage, and the calls made so far.  A configuration is a mapping. *)
Record plugin : Type := {
  config : dict;
  devices : list (string * mesh_interface);
  mqtt_servers : list (string * mqtt_client);
  interface : option mesh_interface;
  telemetry_seq : Z;
  calls : list call
}.

Definition with_config (c : dict) (self : plugin) : plugin :=
  {| config := c; devices := devices self; mqtt_servers := mqtt_servers self;
     interface := interface self; telemetry_seq := telemetry_seq self;
     calls := calls self |}.

Definition with_telemetry_seq (n : Z) (self : plugin) : plugin :=
  {| config := config self; devices := devices self; mqtt_servers := mqtt_servers self;
     interface := interface self; telemetry_seq := n; calls := calls self |}.

Definition with_call (c : call) (self : plugin) : plugin :=
  {| config := config self; devices := devices self; mqtt_servers := mqtt_servers self;
     interface := interface self; telemetry_seq := telemetry_seq self;
     calls := calls self ++ [c] |}.

(** Lookup in a registry keyed by name ([self.devices], [self.mqtt_servers]). *)
Fixpoint assoc {A : Type} (k : string) (l : list (string * A)) : option A :=
  match l with
  | [] => None
  | (k', a) :: r => if String.eqb k k' then Some a else assoc k r
  end.

(** [name in registry] and [registry[name]] for a name computed at run time. *)
Definition registry_has {A : Type} (name : value) (l : list (string * A)) : result bool :=
  match name with
  | VStr k => Ok (match assoc k l with Some _ => true | None => false end)
  | VList _ | VDict _ => Raise TypeError
  | _ => Ok false
  end.

Definition registry_get {A : Type} (name : value) (l : list (string * A)) : result A :=
  match name with
  | VStr k => match assoc k l with Some a => Ok a | None => Raise KeyError end
  | VList _ | VDict _ => Raise TypeError
  | _ => Raise KeyError
  end.

(** [nodesByNum[num]]: the directory is keyed by node number. *)
Definition node_get (num : value) (nodes : list (Z * value)) : result value :=
  match num with
  | VList _ | VDict _ => Raise TypeError
  | _ =>
      match num_of num with
      | Some q =>
          match find (fun kv => Qeq_bool (inject_Z (fst kv)) q) nodes with
          | Some kv => Ok (snd kv)
          | None => Raise KeyError
          end
      | None => Raise KeyError
      end
  end.

(** ** Stages with effects: a state and exception monad over the stage object *)

Definition M (A : Type) : Type := plugin -> result A * plugin.

Definition ret {A : Type} (a : A) : M A := fun self => (Ok a, self).

Definition bindM {A B : Type} (m : M A) (f : A -> M B) : M B :=
  fun self =>
    match m self with
    | (Ok a, self') => f a self'
    | (Raise e, self') => (Raise e, self')
    end.

(** A computation that only reads the stage object. *)
Definition reading {A : Type} (f : plugin -> result A) : M A :=
  fun self => (f self, self).

Definition lift {A : Type} (r : result A) : M A := fun self => (r, self).

Definition get_config : M dict := fun self => (Ok (config self), self).

Definition put_config (c : dict) : M unit := fun self => (Ok tt, with_config c self).

Definition get_self : M plugin := fun self => (Ok self, self).

Definition put_telemetry_seq (n : Z) : M unit :=
  fun self => (Ok tt, with_telemetry_seq n self).

(** [str(obj)]: a string is its own text, an integer its decimal numeral; the
    text of a float or of a container is the library's. *)
Definition str_of (w : world) (obj : value) : string :=
  match obj with
  | VStr s => s
  | VInt n => NilZero.string_of_int (Z.to_int n)
  | VBool b => if b then "True" else "False"
  | VNone => "None"
  | _ => py_str w obj
  end.

(** A call on a collaborator: it is recorded, and returns or raises as the
    world decides. *)
Definition perform (w : world) (c : call) : M value :=
  fun self => (respond w c, with_call c self).

Declare Scope stage_scope.
Delimit Scope stage_scope with stage.
Notation "x <~ m ;; k" := (bindM m (fun x => k))
  (at level 100, m at next level, right associativity) : stage_scope.
Notation "m ;;> k" := (bindM m (fun _ => k))
  (at level 100, right associativity) : stage_scope.

(** [for x in l: body x], stopping at the first exception. *)
Fixpoint for_each {A : Type} (l : list A) (body : A -> M unit) : M unit :=
  match l with
  | [] => ret tt
  | x :: r => bindM (body x) (fun _ => for_each r body)
  end.

(** ** Packet normalizer ([PacketFilter]) *)
Module PacketFilter.

(** [strip_raw]: a value that is not a [dict] is returned as it is; in a
    [dict] the key ["raw"] is deleted and every remaining value is replaced by
    its stripped form. *)
Fixpoint strip_raw (data : value) : value :=
  match data with
  | VDict d =>
      VDict
        ((fix items (d : dict) : dict :=
            match d with
            | [] => []
            | (k, v) :: r =>
                if String.eqb "raw" k then items r else (k, strip_raw v) :: items r
            end) d)
  | _ => data
  end.

Definition normalize (w : world) (dict_obj : value) : value :=
  let dict_obj :=
    if negb (is_dict dict_obj) then
      match json_loads w dict_obj with
      | Ok parsed => parsed
      | Raise _ => VDict [("decoded", VDict [("text", dict_obj)])]
      end
    else dict_obj in
  strip_raw dict_obj.

Definition do_action (w : world) (packet : value) : result value :=
  let packet := normalize w packet in
  has_payload <-
    and_then (contains "decoded" packet)
             (decoded <- getitem packet "decoded" ;; contains "payload" decoded) ;;
  if has_payload then
    decoded <- getitem packet "decoded" ;;
    payload <- getitem decoded "payload" ;;
    match payload with
    | VBytes text =>
        decoded' <- setitem decoded "payload" (VStr (b64encode text)) ;;
        setitem packet "decoded" decoded'
    | _ => Ok packet
    end
  else Ok packet.

(** A key ["raw"] in the value itself or in a mapping reached from it through
    the values of mappings. *)
Fixpoint has_raw_in_mappings (v : value) : bool :=
  match v with
  | VDict d =>
      dict_mem "raw" d ||
      (fix any (d : dict) : bool :=
         match d with
         | [] => false
         | (_, x) :: r => has_raw_in_mappings x || any r
         end) d
  | _ => false
  end.

(** A key ["raw"] at any nesting depth: through the values of mappings and
    through the items of sequences. *)
Fixpoint has_raw (v : value) : bool :=
  match v with
  | VDict d =>
      dict_mem "raw" d ||
      (fix any (d : dict) : bool :=
         match d with
         | [] => false
         | (_, x) :: r => has_raw x || any r
         end) d
  | VList l =>
      (fix any (l : list value) : bool :=
         match l with
         | [] => false
         | x :: r => has_raw x || any r
         end) l
  | _ => false
  end.

End PacketFilter.

(** ** [DebugFilter] *)
Module DebugFilter.

Definition do_action (packet : value) : result value := Ok packet.

End DebugFilter.

(** ** Identity enrichment ([AddUserInfoFilter]) *)
Module AddUserInfoFilter.

Definition do_action (self : plugin) (packet : value) : result value :=
  match interface self with
  | Some iface =>
      try_except
        (from_num <- getitem packet "from" ;;
         node <- node_get from_num (nodesByNum iface) ;;
         user <- getitem node "user" ;;
         setitem packet "fromUser" user)
        KeyError
        (Ok packet)
  | None => Ok packet
  end.

End AddUserInfoFilter.

(** ** Field and content filter ([MessageFilter]) *)
Module MessageFilter.

(** The loop [for regex in patterns: if not matches and re.search(regex,
    text): matches = True]. *)
Fixpoint search_any (w : world) (matches : bool) (patterns : list value) (text : value)
  : result bool :=
  match patterns with
  | [] => Ok matches
  | regex :: rest =>
      found <- (if negb matches then re_search w regex text else Ok false) ;;
      search_any w (matches || found) rest text
  end.

(** The block under [if text and "message" in self.config]: whether it drops. *)
Definition message_drops (w : world) (self : plugin) (text : value) : result bool :=
  message <- getitem (VDict (config self)) "message" ;;
  has_allow <- contains "allow" message ;;
  dropped <-
    (if has_allow then
       allow <- getitem message "allow" ;;
       patterns <- py_iter allow ;;
       matches <- search_any w false patterns text ;;
       Ok (negb matches)
     else Ok false) ;;
  if dropped then Ok true
  else
    has_disallow <- contains "disallow" message ;;
    if has_disallow then
      disallow <- getitem message "disallow" ;;
      patterns <- py_iter disallow ;;
      search_any w false patterns text
    else Ok false.

(** The body of [for filter_key, value in filters.items()]: whether it drops. *)
Definition attribute_drops (self : plugin) (filter_key : string) (value : value)
  : result bool :=
  if dict_mem filter_key (config self) then
    filter_val <- getitem (VDict (config self)) filter_key ;;
    not_allowed <-
      and_then (contains "allow" filter_val)
        (and_then (allow <- getitem filter_val "allow" ;; Ok (truthy allow))
                  (allow <- getitem filter_val "allow" ;;
                   found <- py_in value allow ;; Ok (negb found))) ;;
    if not_allowed then Ok true
    else
      and_then (contains "disallow" filter_val)
        (and_then (disallow <- getitem filter_val "disallow" ;; Ok (truthy disallow))
                  (disallow <- getitem filter_val "disallow" ;; py_in value disallow))
  else Ok false.

Fixpoint filters_drop (self : plugin) (filters : list (string * value)) : result bool :=
  match filters with
  | [] => Ok false
  | (filter_key, value) :: rest =>
      dropped <- attribute_drops self filter_key value ;;
      if dropped then Ok true else filters_drop self rest
  end.

Definition do_action (w : world) (self : plugin) (packet : value) : result value :=
  if negb (truthy packet) then Ok packet
  else
    decoded <- getitem packet "decoded" ;;
    has_text <- contains "text" decoded ;;
    text <- (if has_text then getitem decoded "text" else Ok VNone) ;;
    dropped <-
      (if truthy text && dict_mem "message" (config self)
       then message_drops w self text else Ok false) ;;
    if dropped then Ok VNone
    else
      portnum <- getitem decoded "portnum" ;;
      fromId <- getitem packet "fromId" ;;
      toId <- getitem packet "toId" ;;
      let filters := [("app", portnum); ("from", fromId); ("to", toId)] in
      dropped <- filters_drop self filters ;;
      if dropped then Ok VNone else Ok packet.

End MessageFilter.

(** ** Geofence filter ([LocationFilter]) *)
Module LocationFilter.

(** The position of the configured device, when there is one. *)
Definition device_position (self : plugin) : result (option (value * value)) :=
  if dict_mem "device" (config self) then
    device <- getitem (VDict (config self)) "device" ;;
    known <- registry_has device (devices self) ;;
    if known then
      dev <- registry_get device (devices self) ;;
      let nodeInfo := getMyNodeInfo dev in
      position <- getitem nodeInfo "position" ;;
      latitude <- getitem position "latitude" ;;
      position <- getitem nodeInfo "position" ;;
      longitude <- getitem position "longitude" ;;
      Ok (Some (latitude, longitude))
    else Ok None
  else Ok None.

(** The position the packet carries, when it has both coordinates. *)
Definition packet_position (packet : value) : result (option (value * value)) :=
  has_position <-
    and_then (contains "decoded" packet)
      (and_then (decoded <- getitem packet "decoded" ;; contains "position" decoded)
         (and_then
            (decoded <- getitem packet "decoded" ;;
             position <- getitem decoded "position" ;; contains "latitude" position)
            (decoded <- getitem packet "decoded" ;;
             position <- getitem decoded "position" ;; contains "longitude" position))) ;;
  if has_position then
    decoded <- getitem packet "decoded" ;;
    position <- getitem decoded "position" ;;
    latitude <- getitem position "latitude" ;;
    longitude <- getitem position "longitude" ;;
    Ok (Some (latitude, longitude))
  else Ok None.

(** The static reference position overrides the device's. *)
Definition reference_position (self : plugin) (current : option (value * value))
  : result (option (value * value)) :=
  if dict_mem "compare_latitude" (config self) && dict_mem "compare_longitude" (config self)
  then
    latitude <- getitem (VDict (config self)) "compare_latitude" ;;
    longitude <- getitem (VDict (config self)) "compare_longitude" ;;
    Ok (Some (latitude, longitude))
  else Ok current.

(** The distance check: whether the packet is dropped. *)
Definition distance_drops (w : world) (self : plugin)
  (message_source_position current_local_position : option (value * value)) : result bool :=
  match message_source_position, current_local_position with
  | Some source, Some current =>
      distance_km <- haversine w source current ;;
      comparison <-
        (if dict_mem "comparison" (config self)
         then getitem (VDict (config self)) "comparison" else Ok (VStr "within")) ;;
      limited <-
        and_then (Ok (dict_mem "max_distance_km" (config self)))
          (limit <- getitem (VDict (config self)) "max_distance_km" ;; py_gt limit (VInt 0)) ;;
      if limited then
        acceptable_distance <- getitem (VDict (config self)) "max_distance_km" ;;
        too_far <-
          and_then (Ok (py_eqb comparison (VStr "within")))
                   (py_gt distance_km acceptable_distance) ;;
        if too_far then Ok true
        else
          and_then (Ok (py_eqb comparison (VStr "outside")))
                   (py_lt distance_km acceptable_distance)
      else Ok false
  | _, _ => Ok false
  end.

(** [packet["decoded"]["position"][field] = v] *)
Definition set_position (packet : value) (field : string) (v : value) : result value :=
  decoded <- getitem packet "decoded" ;;
  position <- getitem decoded "position" ;;
  position' <- setitem position field v ;;
  decoded' <- setitem decoded "position" position' ;;
  setitem packet "decoded" decoded'.

(** The overwriting of the reported coordinates with the configured ones. *)
Definition mask_position (self : plugin) (packet : value) : result value :=
  packet <-
    (if dict_mem "latitude" (config self) then
       latitude <- getitem (VDict (config self)) "latitude" ;;
       set_position packet "latitude" latitude
     else Ok packet) ;;
  if dict_mem "longitude" (config self) then
    longitude <- getitem (VDict (config self)) "longitude" ;;
    set_position packet "longitude" longitude
  else Ok packet.

Definition do_action (w : world) (self : plugin) (packet : value) : result value :=
  current_local_position <- device_position self ;;
  message_source_position <- packet_position packet ;;
  current_local_position <- reference_position self current_local_position ;;
  dropped <- distance_drops w self message_source_position current_local_position ;;
  if dropped then Ok VNone else mask_position self packet.

End LocationFilter.

Local Open Scope stage_scope.

(** [try: m except e: handler] for a stage computation: what the body did to
    the stage object before it raised stays done. *)
Definition try_exceptM {A : Type} (m : M A) (e : exn) (handler : M A) : M A :=
  fun self =>
    match m self with
    | (Raise e', self') => if exn_eqb e e' then handler self' else (Raise e', self')
    | r => r
    end.

(** [d.items()] *)
Definition py_items (d : value) : result (list (string * value)) :=
  match d with
  | VDict l => Ok l
  | _ => Raise AttributeError
  end.

(** The loop over [os.environ.items()] that replaces every [{NAME}] found in
    [v] by the value of the environment variable [NAME]. *)
Fixpoint substitute_environ (env : list (string * string)) (v : value) : result value :=
  match env with
  | [] => Ok v
  | (ek, ev) :: rest =>
      let needle := ("{" ++ ek ++ "}")%string in
      found <- py_in (VStr needle) v ;;
      v <- (if found then replace_method v needle (Ok (VStr ev)) else Ok v) ;;
      substitute_environ rest v
  end.

(** ** Webhook dispatcher ([WebhookPlugin]) *)
Module WebhookPlugin.

(** [for macro, value in macros.items(): body = body.replace(macro, str(value))] *)
Fixpoint expand_macros (w : world) (macros : list (string * value)) (body : value)
  : result value :=
  match macros with
  | [] => Ok body
  | (macro, value) :: rest =>
      body <- replace_method body macro (Ok (VStr (str_of w value))) ;;
      expand_macros w rest body
  end.

(** [headers[k] = v], where [headers] is the object [self.config["headers"]]. *)
Definition set_header (k : string) (v : value) : M unit :=
  cfg <~ get_config ;;
  headers <~ lift (getitem (VDict cfg) "headers") ;;
  headers <~ lift (setitem headers k v) ;;
  put_config (dict_set "headers" headers cfg).

Definition do_action (w : world) (packet : value) : M value :=
  cfg <~ get_config ;;
  let self_config := VDict cfg in
  inactive <~ lift (and_then (contains "active" self_config)
                      (active <- getitem self_config "active" ;; Ok (negb (truthy active)))) ;;
  if inactive then ret packet
  else if negb (dict_mem "body" cfg) then ret packet
  else
    decoded <~ lift (getitem packet "decoded") ;;
    has_position <~ lift (contains "position" decoded) ;;
    position <~ lift (if has_position then getitem decoded "position" else Ok VNone) ;;
    has_text <~ lift (contains "text" decoded) ;;
    text <~ lift (if has_text then getitem decoded "text" else Ok VNone) ;;
    lat <~ lift (if truthy position then getitem position "latitude" else Ok (VStr "")) ;;
    lng <~ lift (if truthy position then getitem position "longitude" else Ok (VStr "")) ;;
    msg <~ lift (if dict_mem "message" cfg then getitem self_config "message" else Ok text) ;;
    fid <~ lift (getitem packet "fromId") ;;
    tid <~ lift (getitem packet "toId") ;;
    let macros :=
      [("{LAT}", lat); ("{LNG}", lng); ("{MSG}", msg); ("{FID}", fid); ("{TID}", tid)] in
    body <~ lift (getitem self_config "body") ;;
    body <~ lift (expand_macros w macros body) ;;
    payload <~ lift (json_loads w body) ;;
    _ <~ lift (getitem self_config "url") ;;
    headers <~ lift (if dict_mem "headers" cfg
                     then getitem self_config "headers" else Ok (VDict [])) ;;
    items <~ lift (py_items headers) ;;
    for_each items (fun kv =>
      v <~ lift (substitute_environ (environ w) (snd kv)) ;;
      set_header (fst kv) v) ;;>
    cfg <~ get_config ;;
    headers <~ lift (if dict_mem "headers" cfg
                     then getitem (VDict cfg) "headers" else Ok (VDict [])) ;;
    url <~ lift (getitem (VDict cfg) "url") ;;
    _ <~ perform w (HttpPost url headers payload) ;;
    ret packet.

End WebhookPlugin.

(** [for option in required_options: if option not in self.config: return] *)
Definition missing_option (required_options : list string) (cfg : dict) : bool :=
  existsb (fun option => negb (dict_mem option cfg)) required_options.

(** ** Broker publisher ([MQTTPlugin]) *)
Module MQTTPlugin.

Definition do_action (w : world) (packet : value) : M value :=
  self <~ get_self ;;
  let self_config := VDict (config self) in
  if missing_option ["name"; "topic"] (config self) then ret packet
  else
    name <~ lift (getitem self_config "name") ;;
    established <~ lift (registry_has name (mqtt_servers self)) ;;
    if negb established then ret packet
    else
      mqtt_server <~ lift (registry_get name (mqtt_servers self)) ;;
      if negb (is_connected mqtt_server) then ret VNone
      else
        packet_message <~ lift (json_dumps w packet) ;;
        message <~ lift
          (if dict_mem "message" (config self) then
             template <- getitem self_config "message" ;;
             replace_method template "{MSG}"
               (decoded <- getitem packet "decoded" ;; getitem decoded "text")
           else Ok (VStr packet_message)) ;;
        topic <~ lift (getitem self_config "topic") ;;
        _ <~ perform w (MqttPublish name topic message) ;;
        _ <~ perform w (MqttWaitForPublish name) ;;
        ret packet.

End MQTTPlugin.

(** ** Position publisher ([OwntracksPlugin]) *)
Module OwntracksPlugin.

(** The branch for a packet received from the radio. *)
Definition from_radio (packet : value) : result bool :=
  and_then (contains "decoded" packet)
    (and_then (decoded <- getitem packet "decoded" ;; contains "position" decoded)
       (and_then
          (decoded <- getitem packet "decoded" ;;
           position <- getitem decoded "position" ;; contains "latitude" position)
          (decoded <- getitem packet "decoded" ;;
           position <- getitem decoded "position" ;;
           latitude <- getitem position "latitude" ;;
           Ok (negb (py_eqb latitude (VInt 0)))))).

(** The branch for a packet received from the broker. *)
Definition from_mqtt (packet : value) : result bool :=
  and_then (contains "type" packet)
    (and_then (type <- getitem packet "type" ;; Ok (py_eqb type (VStr "position")))
       (and_then (contains "payload" packet)
          (and_then (payload <- getitem packet "payload" ;; contains "latitude_i" payload)
             (payload <- getitem packet "payload" ;;
              latitude_i <- getitem payload "latitude_i" ;;
              Ok (negb (py_eqb latitude_i (VInt 0))))))).

Definition radio_message (packet : value) (message : dict) : result dict :=
  decoded <- getitem packet "decoded" ;;
  position <- getitem decoded "position" ;;
  lat <- getitem position "latitude" ;;
  let message := dict_set "lat" lat message in
  lon <- getitem position "longitude" ;;
  let message := dict_set "lon" lon message in
  tst <- getitem position "time" ;;
  let message := dict_set "tst" tst message in
  created_at <- getitem packet "rxTime" ;;
  let message := dict_set "created_at" created_at message in
  has_altitude <- contains "altitude" position ;;
  if has_altitude then
    alt <- getitem position "altitude" ;;
    Ok (dict_set "alt" alt message)
  else Ok message.

Definition mqtt_message (packet : value) (message : dict) : result dict :=
  payload <- getitem packet "payload" ;;
  latitude_i <- getitem payload "latitude_i" ;;
  lat <- truediv latitude_i (VInt 10000000) ;;
  let message := dict_set "lat" lat message in
  longitude_i <- getitem payload "longitude_i" ;;
  lon <- truediv longitude_i (VInt 10000000) ;;
  let message := dict_set "lon" lon message in
  tst <- getitem packet "timestamp" ;;
  let message := dict_set "tst" tst message in
  has_time <- contains "time" payload ;;
  created_at <- (if has_time then getitem payload "time" else getitem packet "timestamp") ;;
  let message := dict_set "created_at" created_at message in
  has_altitude <- contains "altitude" payload ;;
  if has_altitude then
    alt <- getitem payload "altitude" ;;
    Ok (dict_set "alt" alt message)
  else Ok message.

Definition do_action (w : world) (packet : value) : M value :=
  self <~ get_self ;;
  let self_config := VDict (config self) in
  if missing_option ["tid_table"; "server_name"] (config self) then ret packet
  else
    tid_table <~ lift (getitem self_config "tid_table") ;;
    has_from <~ lift (contains "from" packet) ;;
    if negb has_from then ret packet
    else
      from <~ lift (getitem packet "from") ;;
      let from_str := str_of w from in
      known <~ lift (py_in (VStr from_str) tid_table) ;;
      if negb known then ret packet
      else
        entry <~ lift (getitem tid_table from_str) ;;
        tid <~ lift (py_index entry 1) ;;
        let message :=
          dict_set "tid" tid [("_type", VStr "location"); ("bs", VInt 0)] in
        radio <~ lift (from_radio packet) ;;
        mqtt <~ lift (if radio then Ok false else from_mqtt packet) ;;
        if negb radio && negb mqtt then ret packet
        else
          message <~ lift (if radio then radio_message packet message
                           else mqtt_message packet message) ;;
          server_name <~ lift (getitem self_config "server_name") ;;
          established <~ lift (registry_has server_name (mqtt_servers self)) ;;
          if negb established then ret packet
          else
            mqtt_server <~ lift (registry_get server_name (mqtt_servers self)) ;;
            if negb (is_connected mqtt_server) then ret VNone
            else
              entry <~ lift (getitem tid_table from_str) ;;
              user <~ lift (py_index entry 0) ;;
              topic <~ lift (str_add (VStr "owntracks/user/") user) ;;
              text <~ lift (json_dumps w (VDict message)) ;;
              _ <~ perform w (MqttPublish server_name topic (VStr text)) ;;
              ret packet.

End OwntracksPlugin.

(** ** APRS beacons and telemetry ([AprsPlugin]) *)
Module AprsPlugin.

(** The value of the class attribute [telemetry_seq] at startup. *)
Definition initial_telemetry_seq : Z := -1.

(** UTF-8 bytes of a code point: a Python [str] is kept as its UTF-8 text. *)
Definition utf8 (i : Z) : string :=
  let byte (b : Z) : ascii := ascii_of_N (Z.to_N b) in
  let cont (b : Z) : ascii := byte (128 + b mod 64) in
  if i <? 128 then String (byte i) ""
  else if i <? 2048 then String (byte (192 + i / 64)) (String (cont i) "")
  else if i <? 65536 then
    String (byte (224 + i / 4096)) (String (cont (i / 64)) (String (cont i) ""))
  else
    String (byte (240 + i / 262144))
      (String (cont (i / 4096)) (String (cont (i / 64)) (String (cont i) ""))).

(** [chr(i)] *)
Definition chr (i : Z) : result string :=
  if (i <? 0) || (1114111 <? i) then Raise ValueError else Ok (utf8 i).

Definition base91_encode (value : Z) : result string :=
  let d1 := value / 91 in
  let d2 := value mod 91 in
  c1 <- chr (d1 + 33) ;;
  c2 <- chr (d2 + 33) ;;
  Ok (c1 ++ c2)%string.

(** The list comprehension [[self.base91_encode(v) for v in values]]. *)
Fixpoint encode_all (values : list Z) : result (list string) :=
  match values with
  | [] => Ok []
  | v :: rest =>
      e <- base91_encode v ;;
      es <- encode_all rest ;;
      Ok (e :: es)
  end.

Definition encode_igate_telemetry (values : list Z) : M string :=
  self <~ get_self ;;
  let seq := (telemetry_seq self + 1) mod 1000 in
  _ <~ put_telemetry_seq seq ;;
  encoded <~ lift (encode_all (seq :: values)) ;;
  ret ("|" ++ concat "" encoded ++ "|")%string.

(** [sum(1 for n in nodes if n.get("lastHeard", 0) > two_hours_ago_ts)] *)
Fixpoint online_count (w : world) (nodes : list value) : result Z :=
  match nodes with
  | [] => Ok 0
  | n :: rest =>
      lastHeard <-
        match n with
        | VDict d =>
            Ok (match dict_get "lastHeard" d with Some t => t | None => VInt 0 end)
        | _ => Raise AttributeError
        end ;;
      online <- py_gt lastHeard (VInt (two_hours_ago_ts w)) ;;
      cnt <- online_count w rest ;;
      Ok ((if online then 1 else 0) + cnt)
  end.

Definition get_igate_telemetry (w : world) (iface : mesh_interface) : result (list Z) :=
  let nodes := map snd (nodesByNum iface) in
  online_cnt <- online_count w nodes ;;
  let nodes_cnt := Z.of_nat (List.length nodes) in
  Ok [online_cnt; nodes_cnt].

Definition is_position_packet (packet : value) : result bool :=
  try_except
    (and_then
       (decoded <- getitem packet "decoded" ;;
        portnum <- getitem decoded "portnum" ;;
        Ok (py_eqb portnum (VStr "POSITION_APP")))
       (and_then
          (decoded <- getitem packet "decoded" ;;
           position <- getitem decoded "position" ;;
           latitude <- getitem position "latitude" ;;
           Ok (negb (is_none latitude)))
          (decoded <- getitem packet "decoded" ;;
           position <- getitem decoded "position" ;;
           longitude <- getitem position "longitude" ;;
           Ok (negb (is_none longitude)))))
    KeyError
    (Ok false).

Definition report_self_position (w : world) (iface : mesh_interface) (position : value)
  : M unit :=
  self <~ get_self ;;
  let self_config := VDict (config self) in
  _ <~ (if telemetry_seq self =? -1 then
          callsign <~ lift (getitem self_config "callsign") ;;
          callsign' <~ lift (getitem self_config "callsign") ;;
          let body := (":" ++ str_of w callsign' ++ ":PARM.OnlineCnt,NodesCnt")%string in
          let telemetry_meta_beacon :=
            VDict [("fromcall", callsign); ("tocall", VStr "APLMB0"); ("body", VStr body)] in
          perform w (AprsSendall telemetry_meta_beacon)
        else ret VNone) ;;
  values <~ lift (get_igate_telemetry w iface) ;;
  telemetry_base91 <~ encode_igate_telemetry values ;;
  callsign <~ lift (getitem self_config "callsign") ;;
  latitude <~ lift (getitem position "latitude") ;;
  longitude <~ lift (getitem position "longitude") ;;
  igate <~ lift (getitem self_config "igate") ;;
  comment <~ lift (getitem igate "comment") ;;
  comment <~ lift (str_add comment (VStr telemetry_base91)) ;;
  let igate_beacon :=
    VDict [("fromcall", callsign); ("tocall", VStr "APLMB0"); ("symbol_table", VStr "L");
           ("symbol", VStr "&"); ("latitude", latitude); ("longitude", longitude);
           ("comment", comment)] in
  _ <~ perform w (AprsSendall igate_beacon) ;;
  ret tt.

Definition report_position (w : world) (aprs_data position : value) : M unit :=
  self <~ get_self ;;
  let self_config := VDict (config self) in
  _ <~ lift (getitem aprs_data "callsign") ;;
  fromcall <~ lift (getitem aprs_data "callsign") ;;
  callsign <~ lift (getitem self_config "callsign") ;;
  symbol <~ lift (getitem aprs_data "symbol") ;;
  symbol_table <~ lift (py_index symbol 0) ;;
  symbol <~ lift (getitem aprs_data "symbol") ;;
  symbol <~ lift (py_index symbol 1) ;;
  latitude <~ lift (getitem position "latitude") ;;
  longitude <~ lift (getitem position "longitude") ;;
  comment <~ lift (getitem aprs_data "comment") ;;
  let node_beacon :=
    VDict [("fromcall", fromcall); ("tocall", VStr "APLMB0");
           ("path", VList [VStr "WIDE1-1"; VStr "qAR"; callsign]);
           ("symbol_table", symbol_table); ("symbol", symbol);
           ("latitude", latitude); ("longitude", longitude); ("comment", comment)] in
  _ <~ perform w (AprsSendall node_beacon) ;;
  ret tt.

(** [num in nodesByNum] *)
Definition node_known (num : value) (nodes : list (Z * value)) : result bool :=
  match node_get num nodes with
  | Ok _ => Ok true
  | Raise KeyError => Ok false
  | Raise e => Raise e
  end.

Definition parse_aprs_data (w : world) (self : plugin) (iface : mesh_interface)
  (packet : value) : result value :=
  from_num <- getitem packet "from" ;;
  undefined <-
    or_else (known <- node_known from_num (nodesByNum iface) ;; Ok (negb known))
      (or_else
         (node <- node_get from_num (nodesByNum iface) ;;
          has_user <- contains "user" node ;; Ok (negb has_user))
         (node <- node_get from_num (nodesByNum iface) ;;
          user <- getitem node "user" ;;
          has_name <- contains "longName" user ;; Ok (negb has_name))) ;;
  if undefined then Raise ValueError
  else
    node <- node_get from_num (nodesByNum iface) ;;
    user <- getitem node "user" ;;
    long_name <- getitem user "longName" ;;
    let device_name_format :=
      match dict_get "device_name_format" (config self) with
      | Some f => f
      | None => VStr "{CALLSIGN} +CBAPRS{SYMBOL}{COMMENT}"
      end in
    aprs_data_matches <- aprs_name_match w device_name_format long_name ;;
    if is_none aprs_data_matches then Raise ValueError
    else
      let aprs_data := aprs_data_matches in
      incomplete <-
        or_else (c <- contains "callsign" aprs_data ;; Ok (negb c))
                (s <- contains "symbol" aprs_data ;; Ok (negb s)) ;;
      if incomplete then Raise ValueError else Ok aprs_data.

Definition do_action (w : world) (packet : value) : M value :=
  self <~ get_self ;;
  match interface self with
  | None => ret packet
  | Some iface =>
      own <~ lift
        (and_then (is_position_packet packet)
           (from <- getitem packet "from" ;;
            num <- getitem (getMyNodeInfo iface) "num" ;;
            Ok (py_eqb from num))) ;;
      if own then
        decoded <~ lift (getitem packet "decoded") ;;
        position <~ lift (getitem decoded "position") ;;
        _ <~ report_self_position w iface position ;;
        ret packet
      else
        is_position <~ lift (is_position_packet packet) ;;
        _ <~ (if is_position then
                try_exceptM
                  (aprs_data <~ lift (parse_aprs_data w self iface packet) ;;
                   decoded <~ lift (getitem packet "decoded") ;;
                   position <~ lift (getitem decoded "position") ;;
                   report_position w aprs_data position)
                  ValueError
                  (ret tt)
              else ret tt) ;;
        ret packet
  end.

End AprsPlugin.

(** ** Envelope encryption ([EncryptFilter]) *)
Module EncryptFilter.

Definition do_action (w : world) (self : plugin) (packet : value) : result value :=
  if negb (dict_mem "key" (config self)) then Ok VNone
  else
    path <- getitem (VDict (config self)) "key" ;;
    encrypt_key <- jwk_from_pem_file w path ;;
    public_key <- jwk_public w encrypt_key ;;
    kid <- jwk_thumbprint w public_key ;;
    let protected_header :=
      VDict [("alg", VStr "RSA-OAEP-256"); ("enc", VStr "A256CBC-HS512");
             ("typ", VStr "JWE"); ("kid", kid)] in
    message <- json_dumps w packet ;;
    jwetoken <- jwe_encrypt w message public_key protected_header ;;
    _ <- getitem packet "id" ;;
    serialized <- jwe_serialize w jwetoken ;;
    Ok (VStr serialized).

End EncryptFilter.

(** ** Envelope decryption ([DecryptFilter]) *)
Module DecryptFilter.

Definition do_action (w : world) (self : plugin) (packet : value) : result value :=
  if negb (dict_mem "key" (config self)) then Ok packet
  else
    match packet with
    | VStr text =>
        path <- getitem (VDict (config self)) "key" ;;
        private_key <- jwk_from_pem_file w path ;;
        payload <- jwe_decrypt w text private_key ;;
        packet <- json_loads w (VBytes payload) ;;
        _ <- getitem packet "id" ;;
        Ok packet
    | _ => Ok packet
    end.

End DecryptFilter.

(** ** Mesh re-transmitter ([RadioMessagePlugin]) *)
Module RadioMessagePlugin.

(** The destination, by priority: the configuration, then the packet. *)
Definition destination (self : plugin) (packet : value) : result value :=
  let self_config := VDict (config self) in
  if dict_mem "to" (config self) then getitem self_config "to"
  else if dict_mem "toId" (config self) then getitem self_config "toId"
  else
    mapped <- and_then (Ok (dict_mem "node_mapping" (config self))) (contains "to" packet) ;;
    if mapped then
      node_mapping <- getitem self_config "node_mapping" ;;
      to <- getitem packet "to" ;;
      subscript node_mapping to
    else
      has_to <- contains "to" packet ;;
      if has_to then getitem packet "to"
      else
        has_toId <- contains "toId" packet ;;
        if has_toId then getitem packet "toId" else Ok VNone.

Definition do_action (w : world) (packet : value) : M value :=
  self <~ get_self ;;
  let self_config := VDict (config self) in
  device_name <~ lift (getitem self_config "device") ;;
  known <~ lift (registry_has device_name (devices self)) ;;
  if negb known then ret packet
  else
    destinationId <~ lift (destination self packet) ;;
    if negb (truthy destinationId) then ret packet
    else
      device_name <~ lift (getitem self_config "device") ;;
      _ <~ lift (registry_get device_name (devices self)) ;;
      is_text <~ lift
        (and_then (contains "decoded" packet)
           (and_then (decoded <- getitem packet "decoded" ;; contains "text" decoded)
                     (has_from <- contains "from" packet ;; Ok (negb has_from)))) ;;
      if is_text then
        decoded <~ lift (getitem packet "decoded") ;;
        text <~ lift (getitem decoded "text") ;;
        _ <~ perform w (SendText device_name text destinationId) ;;
        ret packet
      else
        is_position <~ lift
          (and_then (Ok (dict_mem "lat" (config self)))
             (and_then (lat <- getitem self_config "lat" ;; py_gt lat (VInt 0))
                (and_then (Ok (dict_mem "lng" (config self)))
                          (lng <- getitem self_config "lng" ;; py_gt lng (VInt 0))))) ;;
        if is_position then
          lat <~ lift (getitem self_config "lat") ;;
          lng <~ lift (getitem self_config "lng") ;;
          altitude <~ lift (if dict_mem "alt" (config self)
                            then getitem self_config "alt" else Ok (VInt 0)) ;;
          _ <~ perform w (SendPosition device_name lat lng altitude destinationId) ;;
          ret packet
        else
          is_payload <~ lift
            (and_then (contains "decoded" packet)
               (and_then (decoded <- getitem packet "decoded" ;; contains "payload" decoded)
                         (decoded <- getitem packet "decoded" ;; contains "portnum" decoded))) ;;
          if is_payload then
            decoded <~ lift (getitem packet "decoded") ;;
            payload <~ lift (getitem decoded "payload") ;;
            payload <~ lift (b64decode w payload) ;;
            portnum <~ lift (getitem decoded "portnum") ;;
            meshPacket <~ lift (mesh_packet w payload portnum) ;;
            _ <~ perform w (SendPacket device_name meshPacket destinationId) ;;
            ret packet
          else ret packet.

End RadioMessagePlugin.

(** ** Relay-network publisher ([NoStrPlugin]) *)
Module NoStrPlugin.

(** One turn of the loop over [os.environ.items()]: the private key kept in
    the configuration is overwritten when it holds the placeholder. *)
Definition use_environment_variable (ek ev : string) : M unit :=
  let needle := ("{" ++ ek ++ "}")%string in
  cfg <~ get_config ;;
  private_key <~ lift (getitem (VDict cfg) "private_key") ;;
  found <~ lift (py_in (VStr needle) private_key) ;;
  if found then
    private_key <~ lift (getitem (VDict cfg) "private_key") ;;
    replaced <~ lift (replace_method private_key needle (Ok (VStr ev))) ;;
    put_config (dict_set "private_key" replaced cfg)
  else ret tt.

Definition do_action (w : world) (packet : value) : M value :=
  cfg <~ get_config ;;
  let self_config := VDict cfg in
  let relays := [VStr "wss://nostr-pub.wellorder.net"; VStr "wss://relay.damus.io"] in
  if missing_option ["private_key"; "public_key"] cfg then ret packet
  else
    relays <~ lift
      (if dict_mem "relays" cfg then
         configured <- getitem self_config "relays" ;;
         more <- py_iter configured ;;
         Ok (relays ++ more)
       else Ok relays) ;;
    _ <~ perform w (NostrOpen relays) ;;
    startup_wait <~ lift (if dict_mem "startup_wait" cfg
                          then getitem self_config "startup_wait"
                          else Ok (VFloat (5 # 4))) ;;
    _ <~ lift (sleep w startup_wait) ;;
    for_each (environ w) (fun kv => use_environment_variable (fst kv) (snd kv)) ;;>
    cfg <~ get_config ;;
    let self_config := VDict cfg in
    nsec <~ lift (getitem self_config "private_key") ;;
    private_key <~ lift (nostr_private_key w nsec) ;;
    npub <~ lift (getitem self_config "public_key") ;;
    public_key <~ lift (nostr_public_key_hex w npub) ;;
    message <~ lift
      (if dict_mem "message" cfg then
         template <- getitem self_config "message" ;;
         replace_method template "{MSG}"
           (decoded <- getitem packet "decoded" ;; getitem decoded "text")
       else decoded <- getitem packet "decoded" ;; getitem decoded "text") ;;
    event <~ lift (nostr_signed_event w message public_key private_key) ;;
    _ <~ perform w (NostrPublish event) ;;
    publish_wait <~ lift (if dict_mem "publish_wait" cfg
                          then getitem self_config "publish_wait" else Ok (VInt 1)) ;;
    _ <~ lift (sleep w publish_wait) ;;
    _ <~ perform w NostrClose ;;
    ret packet.

End NoStrPlugin.

(** ** The registry [plugins] *)

Inductive stage : Type :=
| packet_filter
| debugger
| add_user_info
| message_filter
| location_filter
| webhook
| mqtt_plugin
| owntracks_plugin
| aprs_plugin
| encrypt_filter
| decrypt_filter
| radio_message_plugin
| nostr_plugin.

(** [plugins[name].do_action(packet)] on the stage object [self]. *)
Definition do_action (w : world) (s : stage) (packet : value) : M value :=
  match s with
  | packet_filter => reading (fun _ => PacketFilter.do_action w packet)
  | debugger => reading (fun _ => DebugFilter.do_action packet)
  | add_user_info => reading (fun self => AddUserInfoFilter.do_action self packet)
  | message_filter => reading (fun self => MessageFilter.do_action w self packet)
  | location_filter => reading (fun self => LocationFilter.do_action w self packet)
  | webhook => WebhookPlugin.do_action w packet
  | mqtt_plugin => MQTTPlugin.do_action w packet
  | owntracks_plugin => OwntracksPlugin.do_action w packet
  | aprs_plugin => AprsPlugin.do_action w packet
  | encrypt_filter => reading (fun self => EncryptFilter.do_action w self packet)
  | decrypt_filter => reading (fun self => DecryptFilter.do_action w self packet)
  | radio_message_plugin => RadioMessagePlugin.do_action w packet
  | nostr_plugin => NoStrPlugin.do_action w packet
  end.

(** ** Notions the specification uses *)

(** The decoding of a base-91 pair, as the specification words it: the first
    character counts 91s and the second units, both offset by 33. *)
Definition base91_decode (pair : string) : option Z :=
  match pair with
  | String c1 (String c2 EmptyString) =>
      Some ((Z.of_N (N_of_ascii c1) - 33) * 91 + (Z.of_N (N_of_ascii c2) - 33))
  | _ => None
  end.

(** The stage object after successive telemetry encodings, one per list of
    values. *)
Fixpoint encode_successively (telemetry : list (list Z)) (self : plugin) : plugin :=
  match telemetry with
  | [] => self
  | values :: rest =>
      encode_successively rest (snd (AprsPlugin.encode_igate_telemetry values self))
  end.

(** The keys of its configuration a stage assigns to. *)
Definition rewritten_keys (s : stage) : list string :=
  match s with
  | webhook => ["headers"]
  | nostr_plugin => ["private_key"]
  | _ => []
  end.

(** Two configurations hold the same value under every key outside [keys]. *)
Definition agree_except (keys : list string) (before after : dict) : Prop :=
  forall k, ~ In k keys -> dict_get k after = dict_get k before.

(** A stage computation that leaves the configuration as it is. *)
Definition keeps_config {A : Type} (m : M A) : Prop :=
  forall self, config (snd (m self)) = config self.

(** A stage computation that assigns in the configuration to [keys] at most. *)
Definition assigns_only {A : Type} (keys : list string) (m : M A) : Prop :=
  forall self, agree_except keys (config self) (config (snd (m self))).

(** A valid asymmetric key pair: the public key file and the private key file
    load, and an envelope addressed to the public key opens under the private
    key to the plaintext that was sealed. *)
Definition valid_key_pair (w : world) (public_path private_path : value) : Prop :=
  exists encrypt_key public_key kid private_key,
    jwk_from_pem_file w public_path = Ok encrypt_key /\
    jwk_public w encrypt_key = Ok public_key /\
    jwk_thumbprint w public_key = Ok kid /\
    jwk_from_pem_file w private_path = Ok private_key /\
    forall message header, exists token envelope,
      jwe_encrypt w message public_key header = Ok token /\
      jwe_serialize w token = Ok envelope /\
      jwe_decrypt w envelope private_key = Ok message.

(** A packet that serialisation to text and back leaves as it is. *)
Definition json_faithful (w : world) (packet : value) : Prop :=
  exists text, json_dumps w packet = Ok text /\ json_loads w (VBytes text) = Ok packet.

(** The comparison mode of the geofence: [within] unless configured. *)
Definition comparison_mode (self : plugin) : value :=
  match dict_get "comparison" (config self) with
  | Some c => c
  | None => VStr "within"
  end.


(** The numeric threshold [max_distance_km] of the geofence, when configured. *)
Definition threshold (self : plugin) (t : Q) : Prop :=
  exists limit,
    dict_get "max_distance_km" (config self) = Some limit /\ num_of limit = Some t.

(** The cases of a distance [d] for which the specification says that the
    geofence does not drop: [d] equal to a positive threshold, under any
    comparison mode; [d] zero under [within] with a positive threshold; no
    threshold; a threshold that is zero or negative. *)
Inductive passing_distance (self : plugin) (d : Q) : Prop :=
| at_threshold (t : Q) :
    threshold self t -> (0 < t)%Q -> (d == t)%Q -> passing_distance self d
| zero_within (t : Q) :
    threshold self t -> (0 < t)%Q -> (d == 0)%Q ->
    comparison_mode self = VStr "within" -> passing_distance self d
| no_threshold :
    dict_get "max_distance_km" (config self) = None -> passing_distance self d
| nonpositive_threshold (t : Q) :
    threshold self t -> (t <= 0)%Q -> passing_distance self d.

(** ** Example objects *)
Module Examples.

Definition dq : string := String (ascii_of_nat 34) "".

(** A stage object with the given configuration, no device, no broker, no
    radio interface, at startup. *)
Definition configured (cfg : dict) : plugin :=
  {| config := cfg; devices := []; mqtt_servers := []; interface := None;
     telemetry_seq := AprsPlugin.initial_telemetry_seq; calls := [] |}.

(** The text message of the end-to-end scenarios. *)
Definition hello_packet : value :=
  VDict [("fromId", VStr "!a"); ("toId", VStr "!b");
         ("decoded", VDict [("portnum", VStr "TEXT_MESSAGE_APP"); ("text", VStr "hello")])].

(** The same message with the packet identifier the radio assigns. *)
Definition hello_packet_with_id : value :=
  VDict [("id", VInt 7); ("fromId", VStr "!a"); ("toId", VStr "!b");
         ("decoded", VDict [("portnum", VStr "TEXT_MESSAGE_APP"); ("text", VStr "hello")])].

Definition hello_packet_with_id_json : string :=
  ("{" ++ dq ++ "id" ++ dq ++ ": 7, " ++ dq ++ "fromId" ++ dq ++ ": " ++ dq ++ "!a" ++ dq
   ++ ", " ++ dq ++ "toId" ++ dq ++ ": " ++ dq ++ "!b" ++ dq ++ ", " ++ dq ++ "decoded" ++ dq
   ++ ": {" ++ dq ++ "portnum" ++ dq ++ ": " ++ dq ++ "TEXT_MESSAGE_APP" ++ dq ++ ", "
   ++ dq ++ "text" ++ dq ++ ": " ++ dq ++ "hello" ++ dq ++ "}}")%string.

Definition hello_packet_json : string :=
  ("{" ++ dq ++ "fromId" ++ dq ++ ": " ++ dq ++ "!a" ++ dq
   ++ ", " ++ dq ++ "toId" ++ dq ++ ": " ++ dq ++ "!b" ++ dq ++ ", " ++ dq ++ "decoded" ++ dq
   ++ ": {" ++ dq ++ "portnum" ++ dq ++ ": " ++ dq ++ "TEXT_MESSAGE_APP" ++ dq ++ ", "
   ++ dq ++ "text" ++ dq ++ ": " ++ dq ++ "hello" ++ dq ++ "}}")%string.

(** A packet as the radio delivers it, with its payload in bytes. *)
Definition bytes_packet : value :=
  VDict [("id", VInt 7); ("fromId", VStr "!a"); ("toId", VStr "!b");
         ("decoded", VDict [("portnum", VStr "TEXT_MESSAGE_APP"); ("payload", VBytes "hello")])].

(** What the normalizer makes of a text that is no serialized object. *)
Definition raw_text_packet : value :=
  VDict [("decoded", VDict [("text", VStr "hello")])].

(** A position report at (0, 0). *)
Definition position_packet : value :=
  VDict [("fromId", VStr "!a"); ("toId", VStr "!b");
         ("decoded", VDict [("portnum", VStr "POSITION_APP");
                            ("position", VDict [("latitude", VInt 0); ("longitude", VInt 0)])])].

(** A packet whose debug field sits in a mapping inside a sequence. *)
Definition raw_in_list_packet : value :=
  VDict [("decoded", VDict [("text", VStr "hello"); ("raw", VStr "debug")]);
         ("hops", VList [VDict [("raw", VStr "debug")]])].

(** The documents the JSON codec of the example world knows, each with the
    object it stands for. *)
Definition json_documents : list (string * value) :=
  [ ("5", VInt 5);
    ("{}", VDict []);
    (hello_packet_json, hello_packet);
    (hello_packet_with_id_json, hello_packet_with_id) ].

(** The two objects are the same object of the embedding. *)
Fixpoint same (a b : value) : bool :=
  match a, b with
  | VNone, VNone => true
  | VBool x, VBool y => Bool.eqb x y
  | VInt x, VInt y => x =? y
  | VFloat x, VFloat y => (Qnum x =? Qnum y) && (Qden x =? Qden y)%positive
  | VStr x, VStr y => String.eqb x y
  | VBytes x, VBytes y => String.eqb x y
  | VList l, VList m =>
      (fix all2 (l m : list value) : bool :=
         match l, m with
         | [], [] => true
         | x :: l', y :: m' => same x y && all2 l' m'
         | _, _ => false
         end) l m
  | VDict d, VDict e =>
      (fix all2 (d e : dict) : bool :=
         match d, e with
         | [], [] => true
         | (k, x) :: d', (k', y) :: e' => String.eqb k k' && same x y && all2 d' e'
         | _, _ => false
         end) d e
  | _, _ => false
  end.

Definition document_of (v : value) : option string :=
  option_map fst (find (fun doc => same v (snd doc)) json_documents).

(** [s] without its prefix [p], when it has it. *)
Fixpoint without_prefix (p s : string) : option string :=
  match p, s with
  | EmptyString, _ => Some s
  | String a p', String b s' => if Ascii.eqb a b then without_prefix p' s' else None
  | _, _ => None
  end.

(** The length of one degree of longitude on the equator, to 10 m. *)
Definition equator_degree_km : Q := 11119 # 100.

(** An example world.  Its JSON codec is defined on [json_documents], its
    pattern matcher on the patterns of the scenarios and its distance on the
    positions (0, 0) and (0, 1); they fail elsewhere.  Its stand-in for the
    envelope prefixes the plaintext; the process environment holds one secret;
    every call on a collaborator returns. *)
Definition example_world : world :=
  {| json_loads := fun v =>
       match v with
       | VStr s | VBytes s =>
           match assoc s json_documents with
           | Some obj => Ok obj
           | None => Raise (LibraryError "JSONDecodeError")
           end
       | _ => Raise TypeError
       end;
     json_dumps := fun v =>
       match document_of v with
       | Some text => Ok text
       | None => Raise TypeError
       end;
     b64decode := fun _ => Raise (LibraryError "binascii.Error");
     re_search := fun pattern text =>
       if same text (VStr "hello") && (same pattern (VStr "^hello") || same pattern (VStr "ell"))
       then Ok true
       else Raise (LibraryError "re.error");
     haversine := fun p q =>
       if same (fst p) (VInt 0) && same (snd p) (VInt 0)
          && same (fst q) (VInt 0) && same (snd q) (VInt 1)
       then Ok (VFloat equator_degree_km)
       else Raise TypeError;
     py_str := fun _ => "";
     environ := [("TOKEN", "s3cret")];
     two_hours_ago_ts := 1700000000;
     sleep := fun _ => Ok tt;
     jwk_from_pem_file := fun path => Ok path;
     jwk_public := fun key => Ok (VStr "public");
     jwk_thumbprint := fun _ => Ok (VStr "thumbprint");
     jwe_encrypt := fun message _ _ => Ok (VStr message);
     jwe_serialize := fun token =>
       match token with
       | VStr message => Ok ("sealed:" ++ message)%string
       | _ => Raise TypeError
       end;
     jwe_decrypt := fun envelope _ =>
       match without_prefix "sealed:" envelope with
       | Some message => Ok message
       | None => Raise (LibraryError "InvalidJWEData")
       end;
     aprs_name_match := fun _ _ => Ok VNone;
     nostr_private_key := fun k => Ok k;
     nostr_public_key_hex := fun k => Ok k;
     nostr_signed_event := fun message _ _ => Ok message;
     mesh_packet := fun _ _ => Raise TypeError;
     respond := fun _ => Ok VNone |}.

(** A content filter whose list of allowed patterns is empty. *)
Definition empty_message_allow : plugin :=
  configured [("message", VDict [("allow", VList [])])].

(** A geofence that masks the latitude. *)
Definition masking_latitude : plugin := configured [("latitude", VInt 1)].

(** A geofence around (0, 1). *)
Definition geofence (max_distance_km : value) (comparison : string) : plugin :=
  configured [("compare_latitude", VInt 0); ("compare_longitude", VInt 1);
              ("max_distance_km", max_distance_km); ("comparison", VStr comparison)].

(** A webhook stage whose header names a secret of the environment. *)
Definition webhook_plugin : plugin :=
  configured [("url", VStr "https://example.org/hook"); ("body", VStr "{}");
              ("headers", VDict [("Authorization", VStr "Bearer {TOKEN}")])].

(** A relay-network stage whose private key names a secret of the environment. *)
Definition nostr_stage : plugin :=
  configured [("private_key", VStr "{TOKEN}"); ("public_key", VStr "npub1")].

(** A broker stage whose broker connection is established but down. *)
Definition broker_down : plugin :=
  {| config := [("name", VStr "external"); ("topic", VStr "mesh/out")];
     devices := [];
     mqtt_servers := [("external", {| is_connected := false |})];
     interface := None;
     telemetry_seq := AprsPlugin.initial_telemetry_seq;
     calls := [] |}.

(** A position-publishing stage whose broker connection is established but
    down, and a position packet of a known sender. *)
Definition owntracks_down : plugin :=
  {| config := [("server_name", VStr "external");
                ("tid_table", VDict [("1234", VList [VStr "alice"; VStr "al"])])];
     devices := [];
     mqtt_servers := [("external", {| is_connected := false |})];
     interface := None;
     telemetry_seq := AprsPlugin.initial_telemetry_seq;
     calls := [] |}.

(** A radio interface whose own node is 1 and that has heard node 2. *)
Definition radio : mesh_interface :=
  {| getMyNodeInfo := VDict [("num", VInt 1)];
     nodesByNum :=
       [(1, VDict [("lastHeard", VInt 1700000001)]);
        (2, VDict [("user", VDict [("longName", VStr "Backpack")])])] |}.

(** An APRS stage on that interface. *)
Definition aprs_stage : plugin :=
  {| config := [("callsign", VStr "N0CALL"); ("igate", VDict [("comment", VStr "gw")])];
     devices := [];
     mqtt_servers := [];
     interface := Some radio;
     telemetry_seq := AprsPlugin.initial_telemetry_seq;
     calls := [] |}.

(** A position report of node 2. *)
Definition neighbour_position : value :=
  VDict [("from", VInt 2);
         ("decoded", VDict [("portnum", VStr "POSITION_APP");
                            ("position", VDict [("latitude", VInt 52); ("longitude", VInt 13)])])].

Definition owntracks_packet : value :=
  VDict [("from", VInt 1234); ("rxTime", VInt 1700000000);
         ("decoded", VDict [("portnum", VStr "POSITION_APP");
                            ("position", VDict [("latitude", VInt 52); ("longitude", VInt 13);
                                                ("time", VInt 1700000000)])])].

End Examples.

(** A stage computation that, when it returns, returns a value in [P]. *)
Definition returns_only (P : value -> Prop) (m : M value) : Prop :=
  forall self r, fst (m self) = Ok r -> P r.

(** A stage computation that leaves the configuration [c] as it is. *)
Definition keeps_config_at {A : Type} (c : dict) (m : M A) : Prop :=
  forall self, config self = c -> config (snd (m self)) = c.

(** A stage computation that keeps the calls made so far and adds calls in
    [P] only. *)
Definition emits {A : Type} (P : call -> Prop) (m : M A) : Prop :=
  forall self, exists l, calls (snd (m self)) = calls self ++ l /\ Forall P l.

(** The calls a stage makes: each stage calls its own collaborator. *)
Definition call_of (s : stage) (c : call) : Prop :=
  match s, c with
  | webhook, HttpPost _ _ _ => True
  | mqtt_plugin, MqttPublish _ _ _ => True
  | mqtt_plugin, MqttWaitForPublish _ => True
  | owntracks_plugin, MqttPublish _ _ _ => True
  | aprs_plugin, AprsSendall _ => True
  | radio_message_plugin, SendText _ _ _ => True
  | radio_message_plugin, SendPosition _ _ _ _ _ => True
  | radio_message_plugin, SendPacket _ _ _ => True
  | nostr_plugin, NostrOpen _ => True
  | nostr_plugin, NostrPublish _ => True
  | nostr_plugin, NostrClose => True
  | _, _ => False
  end.

(** ** Further scenarios *)
Module Scenarios.

(** The location record the position publisher makes of [owntracks_packet]. *)
Definition location_record : value :=
  VDict [("_type", VStr "location"); ("bs", VInt 0); ("tid", VStr "al");
         ("lat", VInt 52); ("lon", VInt 13); ("tst", VInt 1700000000);
         ("created_at", VInt 1700000000)].

Definition location_record_json : string :=
  let dq := Examples.dq in
  ("{" ++ dq ++ "_type" ++ dq ++ ": " ++ dq ++ "location" ++ dq ++ ", " ++ dq ++ "bs" ++ dq
   ++ ": 0, " ++ dq ++ "tid" ++ dq ++ ": " ++ dq ++ "al" ++ dq ++ ", " ++ dq ++ "lat" ++ dq
   ++ ": 52, " ++ dq ++ "lon" ++ dq ++ ": 13, " ++ dq ++ "tst" ++ dq ++ ": 1700000000, "
   ++ dq ++ "created_at" ++ dq ++ ": 1700000000}")%string.

(** The example world with a JSON codec that also knows the location record
    and a name template that reads a callsign and a symbol off the long name
    [N0CALL +CBAPRS/>hi]. *)
Definition world_with_records : world :=
  {| json_loads := json_loads Examples.example_world;
     json_dumps := fun v =>
       if Examples.same v location_record then Ok location_record_json
       else json_dumps Examples.example_world v;
     b64decode := b64decode Examples.example_world;
     re_search := re_search Examples.example_world;
     haversine := haversine Examples.example_world;
     py_str := py_str Examples.example_world;
     environ := environ Examples.example_world;
     two_hours_ago_ts := two_hours_ago_ts Examples.example_world;
     sleep := sleep Examples.example_world;
     jwk_from_pem_file := jwk_from_pem_file Examples.example_world;
     jwk_public := jwk_public Examples.example_world;
     jwk_thumbprint := jwk_thumbprint Examples.example_world;
     jwe_encrypt := jwe_encrypt Examples.example_world;
     jwe_serialize := jwe_serialize Examples.example_world;
     jwe_decrypt := jwe_decrypt Examples.example_world;
     aprs_name_match := fun _ long_name =>
       if Examples.same long_name (VStr "N0CALL +CBAPRS/>hi")
       then Ok (VDict [("callsign", VStr "N0CALL"); ("symbol", VStr "/>");
                       ("comment", VStr "hi")])
       else Ok VNone;
     nostr_private_key := nostr_private_key Examples.example_world;
     nostr_public_key_hex := nostr_public_key_hex Examples.example_world;
     nostr_signed_event := nostr_signed_event Examples.example_world;
     mesh_packet := mesh_packet Examples.example_world;
     respond := respond Examples.example_world |}.

(** A position-publishing stage whose broker connection is up. *)
Definition owntracks_up : plugin :=
  {| config := [("server_name", VStr "external");
                ("tid_table", VDict [("1234", VList [VStr "alice"; VStr "al"])])];
     devices := [];
     mqtt_servers := [("external", {| is_connected := true |})];
     interface := None;
     telemetry_seq := AprsPlugin.initial_telemetry_seq;
     calls := [] |}.

(** A radio interface whose own node is 1 and that has heard node 2, whose
    long name follows the name template. *)
Definition radio_with_tracker : mesh_interface :=
  {| getMyNodeInfo := VDict [("num", VInt 1)];
     nodesByNum :=
       [(1, VDict [("lastHeard", VInt 1700000001)]);
        (2, VDict [("user", VDict [("longName", VStr "N0CALL +CBAPRS/>hi")])])] |}.

(** An APRS stage on that interface. *)
Definition aprs_with_tracker : plugin :=
  {| config := [("callsign", VStr "GW0CALL"); ("igate", VDict [("comment", VStr "gw")])];
     devices := [];
     mqtt_servers := [];
     interface := Some radio_with_tracker;
     telemetry_seq := AprsPlugin.initial_telemetry_seq;
     calls := [] |}.

(** A position report of node 1234 without a fix. *)
Definition no_fix_packet : value :=
  VDict [("from", VInt 1234);
         ("decoded", VDict [("portnum", VStr "POSITION_APP");
                            ("position", VDict [("latitude", VInt 0)])])].

End Scenarios.

(** * Properties *)

#[local] Arguments String.eqb : simpl never.
#[local] Arguments str_contains : simpl never.
#[local] Arguments Qlt_bool : simpl never.
#[local] Arguments py_eqb : simpl never.

(** ** Dictionaries and the error monad *)

Lemma dict_get_del_same k d : dict_get k (dict_del k d) = None.
Proof.
  induction d as [|[k' v] r IH]; simpl; auto.
  destruct (String.eqb k k') eqn:E; simpl; auto.
  now rewrite E.
Qed.

Lemma dict_get_map_values f k d :
  dict_get k (dict_map_values f d) = option_map f (dict_get k d).
Proof.
  induction d as [|[k' v] r IH]; simpl; auto.
  destruct (String.eqb k k'); simpl; auto.
Qed.

Lemma dict_mem_del_same k d : dict_mem k (dict_del k d) = false.
Proof. unfold dict_mem. now rewrite dict_get_del_same. Qed.

Lemma dict_del_absent k d : dict_mem k d = false -> dict_del k d = d.
Proof.
  unfold dict_mem. induction d as [|[k' v] r IH]; simpl; auto.
  destruct (String.eqb k k') eqn:E; [discriminate|].
  intros H. now rewrite IH.
Qed.

Lemma dict_get_set_same k v d : dict_get k (dict_set k v d) = Some v.
Proof.
  induction d as [|[k' v'] r IH]; simpl.
  - now rewrite String.eqb_refl.
  - destruct (String.eqb k k') eqn:E; simpl.
    + now rewrite String.eqb_refl.
    + now rewrite E.
Qed.

Lemma dict_get_set_other k k' v d :
  k <> k' -> dict_get k' (dict_set k v d) = dict_get k' d.
Proof.
  intros Hne. induction d as [|[k0 v0] r IH]; simpl.
  - destruct (String.eqb k' k) eqn:E; auto.
    apply String.eqb_eq in E. congruence.
  - destruct (String.eqb k k0) eqn:E; simpl.
    + apply String.eqb_eq in E. subst k0.
      destruct (String.eqb k' k) eqn:E'; auto.
      apply String.eqb_eq in E'. congruence.
    + destruct (String.eqb k' k0); auto.
Qed.

Lemma getitem_dict_some d k v : dict_get k d = Some v -> getitem (VDict d) k = Ok v.
Proof. intros H. simpl. now rewrite H. Qed.

Lemma getitem_ok_inv c k v :
  getitem c k = Ok v -> exists d, c = VDict d /\ dict_get k d = Some v.
Proof.
  destruct c; simpl; try discriminate.
  destruct (dict_get k d) eqn:E; [|discriminate].
  intros H. injection H as ->. eauto.
Qed.

(** ** The normalizer *)

Lemma strip_raw_dict d :
  PacketFilter.strip_raw (VDict d)
  = VDict (dict_map_values PacketFilter.strip_raw (dict_del "raw" d)).
Proof.
  simpl. f_equal.
  induction d as [|[k v] r IH]; simpl; auto.
  destruct (String.eqb "raw" k); simpl; now rewrite IH.
Qed.

Lemma has_raw_in_mappings_dict d :
  PacketFilter.has_raw_in_mappings (VDict d)
  = dict_mem "raw" d || existsb (fun kv => PacketFilter.has_raw_in_mappings (snd kv)) d.
Proof.
  simpl. f_equal.
  induction d as [|[k v] r IH]; simpl; auto.
  now rewrite IH.
Qed.

Lemma strip_raw_is_dict v : is_dict (PacketFilter.strip_raw v) = is_dict v.
Proof. destruct v; reflexivity. Qed.

(** No mapping that [strip_raw] visits keeps a key ["raw"]. *)
Lemma strip_raw_clears_mappings v :
  PacketFilter.has_raw_in_mappings (PacketFilter.strip_raw v) = false.
Proof.
  induction v as [| | | | | | l _ | d IH] using value_nested_ind; try reflexivity.
  rewrite strip_raw_dict, has_raw_in_mappings_dict.
  apply orb_false_iff. split.
  - unfold dict_mem. rewrite dict_get_map_values, dict_get_del_same. reflexivity.
  - induction d as [|[k v] r IHr]; simpl; auto.
    inversion IH as [|? ? Hv Hr]; subst.
    destruct (String.eqb "raw" k); simpl; auto.
    simpl in Hv. rewrite Hv. simpl. auto.
Qed.

(** Stripping a stripped value changes nothing. *)
Lemma strip_raw_idempotent v :
  PacketFilter.strip_raw (PacketFilter.strip_raw v) = PacketFilter.strip_raw v.
Proof.
  induction v as [| | | | | | l _ | d IH] using value_nested_ind; try reflexivity.
  rewrite strip_raw_dict. rewrite strip_raw_dict. f_equal.
  rewrite dict_del_absent
    by (unfold dict_mem; rewrite dict_get_map_values, dict_get_del_same; reflexivity).
  induction d as [|[k v] r IHr]; simpl; auto.
  inversion IH as [|? ? Hv Hr]; subst.
  destruct (String.eqb "raw" k); simpl; auto.
  simpl in Hv. rewrite Hv. f_equal. auto.
Qed.

Lemma normalize_dict w d :
  PacketFilter.normalize w (VDict d) = PacketFilter.strip_raw (VDict d).
Proof. reflexivity. Qed.

(** What [normalize] returns is a stripped value. *)
Lemma normalize_is_stripped w p :
  exists v, PacketFilter.normalize w p = PacketFilter.strip_raw v.
Proof. unfold PacketFilter.normalize. eauto. Qed.

(** C1, as amended: for every input and whatever [json.loads] computes, the
    result of [normalize] has no key ["raw"] in itself or in any mapping nested
    in it through the values of mappings; [normalize] applied to a result that
    is a mapping returns that result; and the result is a mapping when the
    input is one, when [json.loads] raises on the input, and when it decodes
    the input to a mapping. *)
Theorem normalize_strips_mappings_and_is_idempotent_on_them (w : world) (p : value) :
  PacketFilter.has_raw_in_mappings (PacketFilter.normalize w p) = false /\
  (is_dict (PacketFilter.normalize w p) = true ->
   PacketFilter.normalize w (PacketFilter.normalize w p) = PacketFilter.normalize w p) /\
  (is_dict p = true \/ is_ok (json_loads w p) = false \/
   (exists d, json_loads w p = Ok (VDict d)) ->
   is_dict (PacketFilter.normalize w p) = true).
Proof.
  split; [|split].
  - destruct (normalize_is_stripped w p) as [v ->]. apply strip_raw_clears_mappings.
  - destruct (normalize_is_stripped w p) as [v ->].
    intros Hd. destruct (PacketFilter.strip_raw v) as [| | | | | | |d] eqn:E;
      try discriminate.
    rewrite normalize_dict, <- E. apply strip_raw_idempotent.
  - unfold PacketFilter.normalize. rewrite strip_raw_is_dict.
    destruct (is_dict p) eqn:Ep; cbn [negb]; [intros _; exact Ep|].
    intros [Hp | [Hraise | [d Hd]]].
    + discriminate.
    + destruct (json_loads w p); [discriminate | reflexivity].
    + rewrite Hd. reflexivity.
Qed.

Lemma normalize_strips_mappings_and_is_idempotent_on_them_witness :
  PacketFilter.has_raw_in_mappings
    (PacketFilter.normalize Examples.example_world Examples.raw_in_list_packet) = false /\
  PacketFilter.normalize Examples.example_world
    (PacketFilter.normalize Examples.example_world Examples.raw_in_list_packet)
  = PacketFilter.normalize Examples.example_world Examples.raw_in_list_packet /\
  is_dict (PacketFilter.normalize Examples.example_world (VStr "hello")) = true.
Proof.
  destruct (normalize_strips_mappings_and_is_idempotent_on_them
              Examples.example_world Examples.raw_in_list_packet) as (H1 & H2 & _).
  destruct (normalize_strips_mappings_and_is_idempotent_on_them
              Examples.example_world (VStr "hello")) as (_ & _ & H3).
  split; [exact H1 | split; [apply H2; reflexivity | apply H3; right; left; reflexivity]].
Defined.

(** C1, as stated, fails twice.  The debug field of a mapping inside a sequence
    survives [normalize], whatever [json.loads] computes; and for a text that
    [json.loads] decodes to an object that is no mapping (the text 5, decoded to
    the integer 5, on which [json.loads] raises), a second [normalize] wraps
    what the first returned. *)
Lemma normalize_keeps_raw_in_sequences_and_rewraps_scalars :
  ~ (exists w : world,
       PacketFilter.has_raw (PacketFilter.normalize w Examples.raw_in_list_packet) = false) /\
  ~ (exists w : world,
       json_loads w (VStr "5") = Ok (VInt 5) /\
       is_ok (json_loads w (VInt 5)) = false /\
       PacketFilter.normalize w (PacketFilter.normalize w (VStr "5"))
       = PacketFilter.normalize w (VStr "5")).
Proof.
  split.
  - intros [w H]. vm_compute in H. discriminate.
  - intros [w (H5 & Hraise & Hidem)].
    unfold PacketFilter.normalize in Hidem. simpl in Hidem.
    rewrite H5 in Hidem. simpl in Hidem.
    destruct (json_loads w (VInt 5)); [discriminate|].
    simpl in Hidem. discriminate.
Qed.

(** ** Envelope stages: gating by the configured key *)

(** C3: without a ["key"] entry the Encrypt stage returns the dropped marker
    and the Decrypt stage returns its input, for every input; the Decrypt stage
    also returns every input that is not a text as it is. *)
Theorem crypto_key_gating (w : world) (self : plugin) (packet : value) :
  (dict_mem "key" (config self) = false ->
   EncryptFilter.do_action w self packet = Ok VNone /\
   DecryptFilter.do_action w self packet = Ok packet) /\
  (is_str packet = false -> DecryptFilter.do_action w self packet = Ok packet).
Proof.
  unfold EncryptFilter.do_action, DecryptFilter.do_action. split.
  - intros Hkey. rewrite Hkey. simpl. auto.
  - intros Hstr. destruct (negb (dict_mem "key" (config self))); auto.
    destruct packet; try reflexivity. discriminate.
Qed.

Lemma crypto_key_gating_witness :
  (EncryptFilter.do_action Examples.example_world (Examples.configured [])
     Examples.hello_packet = Ok VNone /\
   DecryptFilter.do_action Examples.example_world (Examples.configured [])
     Examples.hello_packet = Ok Examples.hello_packet) /\
  DecryptFilter.do_action Examples.example_world (Examples.configured [])
    Examples.hello_packet = Ok Examples.hello_packet.
Proof.
  destruct (crypto_key_gating Examples.example_world (Examples.configured [])
              Examples.hello_packet) as [H1 H2].
  split; [apply H1; reflexivity | apply H2; reflexivity].
Defined.

(** ** Field and content filter *)

Lemma getitem_ok_contains c k v : getitem c k = Ok v -> contains k c = Ok true.
Proof.
  intros H. apply getitem_ok_inv in H as (d & -> & Hd).
  unfold contains, py_in, dict_mem. now rewrite Hd.
Qed.

Lemma getitem_ok_truthy c k v : getitem c k = Ok v -> truthy c = true.
Proof.
  intros H. apply getitem_ok_inv in H as (d & -> & Hd).
  destruct d; [discriminate | reflexivity].
Qed.

(** C4, where the code departs from it: a packet with a non-empty text is
    dropped by a content filter whose list [message.allow] is empty, whatever
    [re.search] computes (it is never called). *)
Theorem message_filter_drops_on_empty_allow_list
  (w : world) (self : plugin) (packet decoded text message : value) :
  getitem packet "decoded" = Ok decoded ->
  getitem decoded "text" = Ok text ->
  truthy text = true ->
  dict_get "message" (config self) = Some message ->
  getitem message "allow" = Ok (VList []) ->
  MessageFilter.do_action w self packet = Ok VNone.
Proof.
  intros Hd Ht Htext Hm Ha. unfold MessageFilter.do_action.
  rewrite (getitem_ok_truthy _ _ _ Hd). cbn [negb].
  rewrite Hd. cbn [bind]. rewrite (getitem_ok_contains _ _ _ Ht). cbn [bind].
  rewrite Ht. cbn [bind]. rewrite Htext. unfold dict_mem at 1. rewrite Hm. cbn [andb].
  unfold MessageFilter.message_drops.
  rewrite (getitem_dict_some _ _ _ Hm). cbn [bind].
  rewrite (getitem_ok_contains _ _ _ Ha). cbn [bind]. rewrite Ha. reflexivity.
Qed.

Lemma message_filter_drops_on_empty_allow_list_witness :
  MessageFilter.do_action Examples.example_world Examples.empty_message_allow
    Examples.hello_packet = Ok VNone.
Proof.
  apply (message_filter_drops_on_empty_allow_list Examples.example_world
           Examples.empty_message_allow Examples.hello_packet
           (VDict [("portnum", VStr "TEXT_MESSAGE_APP"); ("text", VStr "hello")])
           (VStr "hello") (VDict [("allow", VList [])]));
    reflexivity.
Defined.

(** C5, where the code departs from it: on a packet whose [decoded] mapping
    has no [portnum] the content filter raises [KeyError], when the packet has
    no text and also when no [message] filter is configured; so it does on
    the packet the normalizer makes of a raw text, under an empty
    configuration. *)
Theorem message_filter_raises_without_attributes
  (w : world) (self : plugin) (pd dd : dict) :
  dict_get "decoded" pd = Some (VDict dd) ->
  dict_get "portnum" dd = None ->
  dict_get "text" dd = None \/ dict_mem "message" (config self) = false ->
  MessageFilter.do_action w self (VDict pd) = Raise KeyError.
Proof.
  intros Hd Hp Hcase. unfold MessageFilter.do_action.
  rewrite (getitem_ok_truthy _ _ _ (getitem_dict_some _ _ _ Hd)). cbn [negb].
  rewrite (getitem_dict_some _ _ _ Hd). cbn [bind].
  unfold contains, py_in, dict_mem. cbn [bind].
  destruct Hcase as [Ht | Hm].
  - rewrite Ht. cbn. now rewrite Hp.
  - destruct (dict_get "text" dd) as [text|] eqn:Et; cbn [bind].
    + rewrite (getitem_dict_some _ _ _ Et). cbn [bind].
      unfold dict_mem in Hm. rewrite Hm. rewrite andb_false_r. cbn. now rewrite Hp.
    + cbn. now rewrite Hp.
Qed.

Lemma message_filter_raises_without_attributes_witness :
  MessageFilter.do_action Examples.example_world (Examples.configured [])
    Examples.raw_text_packet
  = Raise KeyError.
Proof.
  apply (message_filter_raises_without_attributes Examples.example_world
           (Examples.configured []) _ [("text", VStr "hello")]);
    [reflexivity | reflexivity | right; reflexivity].
Defined.

(** ** Broker adapters *)

(** C6, where the code departs from it: with the named broker established
    and not connected, the broker publisher returns the dropped marker on
    every packet, and so does the position publisher on a position packet
    received from the radio whose sender is in the table; neither makes a call
    on the broker nor changes the stage object. *)
Theorem broker_adapters_drop_when_not_connected
  (w : world) (self : plugin) (packet : value) (name : string) (client : mqtt_client) :
  assoc name (mqtt_servers self) = Some client ->
  is_connected client = false ->
  (dict_get "name" (config self) = Some (VStr name) ->
   dict_mem "topic" (config self) = true ->
   MQTTPlugin.do_action w packet self = (Ok VNone, self)) /\
  (forall (tid_table from entry tid : value) (message : dict),
     dict_get "server_name" (config self) = Some (VStr name) ->
     dict_get "tid_table" (config self) = Some tid_table ->
     getitem packet "from" = Ok from ->
     getitem tid_table (str_of w from) = Ok entry ->
     py_index entry 1 = Ok tid ->
     OwntracksPlugin.from_radio packet = Ok true ->
     OwntracksPlugin.radio_message packet
       (dict_set "tid" tid [("_type", VStr "location"); ("bs", VInt 0)]) = Ok message ->
     OwntracksPlugin.do_action w packet self = (Ok VNone, self)).
Proof.
  intros Hserver Hdown. split.
  - intros Hname Htopic.
    unfold MQTTPlugin.do_action, bindM, get_self, lift, ret, missing_option.
    cbn [existsb]. unfold dict_mem at 1. rewrite Hname, Htopic. cbn [negb orb].
    rewrite (getitem_dict_some _ _ _ Hname).
    unfold registry_has, registry_get. rewrite Hserver. cbn [negb].
    rewrite Hdown. reflexivity.
  - intros tid_table from entry tid message Hname Htable Hfrom Hentry Htid Hradio Hmessage.
    unfold OwntracksPlugin.do_action, bindM, get_self, lift, ret, missing_option.
    cbn [existsb]. unfold dict_mem. rewrite Hname, Htable. cbn [negb orb].
    rewrite (getitem_dict_some _ _ _ Htable).
    rewrite (getitem_ok_contains _ _ _ Hfrom). cbn [negb]. rewrite Hfrom.
    pose proof (getitem_ok_contains _ _ _ Hentry) as Hknown.
    unfold contains in Hknown. rewrite Hknown. cbn [negb].
    rewrite Hentry, Htid, Hradio. cbn [negb andb]. rewrite Hmessage.
    rewrite (getitem_dict_some _ _ _ Hname).
    unfold registry_has, registry_get. rewrite Hserver. cbn [negb].
    rewrite Hdown. reflexivity.
Qed.

Lemma broker_adapters_drop_when_not_connected_witness :
  MQTTPlugin.do_action Examples.example_world Examples.hello_packet Examples.broker_down
  = (Ok VNone, Examples.broker_down) /\
  OwntracksPlugin.do_action Examples.example_world Examples.owntracks_packet
    Examples.owntracks_down
  = (Ok VNone, Examples.owntracks_down).
Proof.
  split.
  - apply (broker_adapters_drop_when_not_connected Examples.example_world
             Examples.broker_down Examples.hello_packet "external"
             {| is_connected := false |});
      reflexivity.
  - eapply (broker_adapters_drop_when_not_connected Examples.example_world
              Examples.owntracks_down Examples.owntracks_packet "external"
              {| is_connected := false |});
      reflexivity.
Defined.

(** ** Geofence *)

Lemma bind_ok_inv {A B : Type} (m : result A) (f : A -> result B) (b : B) :
  bind m f = Ok b -> exists a, m = Ok a /\ f a = Ok b.
Proof. destruct m; simpl; [eauto | discriminate]. Qed.

Lemma and_then_true_inv (a b : result bool) :
  and_then a b = Ok true -> a = Ok true /\ b = Ok true.
Proof.
  unfold and_then. intros H. apply bind_ok_inv in H as [x [Ha Hb]].
  destruct x; [auto | discriminate].
Qed.

(** A packet whose position resolves carries it in [decoded.position]. *)
Lemma packet_position_resolved packet latitude longitude :
  LocationFilter.packet_position packet = Ok (Some (latitude, longitude)) ->
  exists pd dd posd,
    packet = VDict pd /\
    dict_get "decoded" pd = Some (VDict dd) /\
    dict_get "position" dd = Some (VDict posd) /\
    dict_get "latitude" posd = Some latitude /\
    dict_get "longitude" posd = Some longitude.
Proof.
  unfold LocationFilter.packet_position. intros H.
  apply bind_ok_inv in H as [has [Hhas H]].
  destruct has; [|discriminate].
  apply bind_ok_inv in H as [decoded [Hd H]].
  apply bind_ok_inv in H as [position [Hp H]].
  apply bind_ok_inv in H as [lat [Hlat H]].
  apply bind_ok_inv in H as [lon [Hlon H]].
  injection H as -> ->.
  apply getitem_ok_inv in Hd as [pd [-> Hd]].
  apply getitem_ok_inv in Hp as [dd [-> Hp]].
  apply getitem_ok_inv in Hlat as [posd [-> Hlat]].
  apply getitem_ok_inv in Hlon as [posd' [Heq Hlon]].
  injection Heq as <-.
  exists pd, dd, posd. auto.
Qed.

Lemma set_position_resolved pd dd posd field v :
  dict_get "decoded" pd = Some (VDict dd) ->
  dict_get "position" dd = Some (VDict posd) ->
  LocationFilter.set_position (VDict pd) field v
  = Ok (VDict (dict_set "decoded"
                 (VDict (dict_set "position" (VDict (dict_set field v posd)) dd)) pd)).
Proof.
  intros Hd Hp. unfold LocationFilter.set_position.
  simpl. rewrite Hd. simpl. rewrite Hp. reflexivity.
Qed.

(** Masking succeeds on a packet that has a mapping [decoded.position], and
    returns a mapping. *)
Lemma mask_position_resolved self pd dd posd :
  dict_get "decoded" pd = Some (VDict dd) ->
  dict_get "position" dd = Some (VDict posd) ->
  exists pd' dd' posd',
    LocationFilter.mask_position self (VDict pd) = Ok (VDict pd') /\
    dict_get "decoded" pd' = Some (VDict dd') /\
    dict_get "position" dd' = Some (VDict posd') /\
    (forall v, dict_get "latitude" (config self) = Some v ->
               dict_get "latitude" posd' = Some v) /\
    (forall v, dict_get "longitude" (config self) = Some v ->
               dict_get "longitude" posd' = Some v).
Proof.
  intros Hd Hp. unfold LocationFilter.mask_position, dict_mem.
  assert (Hne : "longitude" <> "latitude") by discriminate.
  destruct (dict_get "latitude" (config self)) as [lat|] eqn:Elat;
    destruct (dict_get "longitude" (config self)) as [lon|] eqn:Elon.
  - rewrite (getitem_dict_some _ _ _ Elat). cbn [bind].
    rewrite (set_position_resolved _ _ _ _ _ Hd Hp). cbn [bind].
    rewrite (getitem_dict_some _ _ _ Elon). cbn [bind].
    erewrite set_position_resolved by apply dict_get_set_same.
    do 3 eexists. split; [reflexivity|].
    repeat split; try apply dict_get_set_same.
    + intros v Hv. injection Hv as <-.
      rewrite dict_get_set_other by exact Hne. apply dict_get_set_same.
    + intros v Hv. injection Hv as <-. apply dict_get_set_same.
  - rewrite (getitem_dict_some _ _ _ Elat). cbn [bind].
    rewrite (set_position_resolved _ _ _ _ _ Hd Hp). cbn [bind].
    do 3 eexists. split; [reflexivity|].
    repeat split; try apply dict_get_set_same.
    + intros v Hv. injection Hv as <-. apply dict_get_set_same.
    + discriminate.
  - cbn [bind]. rewrite (getitem_dict_some _ _ _ Elon). cbn [bind].
    rewrite (set_position_resolved _ _ _ _ _ Hd Hp).
    do 3 eexists. split; [reflexivity|].
    repeat split; try apply dict_get_set_same.
    + discriminate.
    + intros v Hv. injection Hv as <-. apply dict_get_set_same.
  - cbn [bind]. exists pd, dd, posd. repeat split; auto; discriminate.
Qed.

Lemma Qlt_bool_false_of_le (x y : Q) : (y <= x)%Q -> Qlt_bool x y = false.
Proof.
  intros H. unfold Qlt_bool. apply negb_false_iff. now apply Qle_bool_iff.
Qed.

Lemma Qlt_bool_true_of_lt (x y : Q) : (x < y)%Q -> Qlt_bool x y = true.
Proof.
  intros H. unfold Qlt_bool. apply negb_true_iff.
  destruct (Qle_bool y x) eqn:E; auto.
  apply Qle_bool_iff in E. exfalso. exact (Qlt_not_le _ _ H E).
Qed.

(** The distance check with both positions resolved, a numeric distance [d]
    and a numeric threshold [t]: it drops exactly when [t] is positive and
    either the mode is [within] and [d > t], or the mode is [outside] and
    [d < t]. *)
Lemma distance_drops_with_threshold w self source current distance_km d limit t :
  haversine w source current = Ok distance_km ->
  num_of distance_km = Some d ->
  dict_get "max_distance_km" (config self) = Some limit ->
  num_of limit = Some t ->
  LocationFilter.distance_drops w self (Some source) (Some current)
  = Ok (Qlt_bool 0 t &&
        ((py_eqb (comparison_mode self) (VStr "within") && Qlt_bool t d) ||
         (py_eqb (comparison_mode self) (VStr "outside") && Qlt_bool d t))).
Proof.
  intros Hh Hd Hl Ht. unfold LocationFilter.distance_drops.
  rewrite Hh. cbn [bind].
  assert (Hmode : (if dict_mem "comparison" (config self)
                   then getitem (VDict (config self)) "comparison"
                   else Ok (VStr "within")) = Ok (comparison_mode self)).
  { unfold comparison_mode, dict_mem. simpl.
    destruct (dict_get "comparison" (config self)); reflexivity. }
  rewrite Hmode. cbn [bind].
  unfold dict_mem. rewrite Hl. rewrite (getitem_dict_some _ _ _ Hl).
  unfold and_then, py_lt, py_gt. cbn [bind].
  rewrite Hd, Ht. simpl. change (inject_Z 0) with 0%Q.
  destruct (Qlt_bool 0 t); simpl; [|reflexivity].
  destruct (py_eqb (comparison_mode self) (VStr "within")); simpl.
  - destruct (Qlt_bool t d); simpl; [reflexivity|].
    destruct (py_eqb (comparison_mode self) (VStr "outside")); reflexivity.
  - destruct (py_eqb (comparison_mode self) (VStr "outside")); reflexivity.
Qed.

Lemma distance_drops_without_threshold w self source current distance_km :
  haversine w source current = Ok distance_km ->
  dict_get "max_distance_km" (config self) = None ->
  LocationFilter.distance_drops w self (Some source) (Some current) = Ok false.
Proof.
  intros Hh Hl. unfold LocationFilter.distance_drops.
  rewrite Hh. cbn [bind].
  destruct (dict_mem "comparison" (config self)) eqn:Ec.
  - unfold dict_mem in Ec. simpl.
    destruct (dict_get "comparison" (config self)); [|discriminate].
    simpl. unfold dict_mem. now rewrite Hl.
  - simpl. unfold dict_mem. now rewrite Hl.
Qed.

(** In every case of [passing_distance] the distance check does not drop. *)
Lemma passing_distance_not_dropped w self source current distance_km d :
  haversine w source current = Ok distance_km ->
  num_of distance_km = Some d ->
  passing_distance self d ->
  LocationFilter.distance_drops w self (Some source) (Some current) = Ok false.
Proof.
  intros Hh Hd Hcase.
  destruct Hcase as [t [limit [Hl Ht]] Hpos Heq
                    | t [limit [Hl Ht]] Hpos Hzero Hmode
                    | Habsent
                    | t [limit [Hl Ht]] Hneg].
  - rewrite (distance_drops_with_threshold _ _ _ _ _ _ _ _ Hh Hd Hl Ht).
    rewrite (Qlt_bool_false_of_le t d), (Qlt_bool_false_of_le d t).
    + now rewrite !andb_false_r.
    + rewrite Heq. apply Qle_refl.
    + rewrite Heq. apply Qle_refl.
  - rewrite (distance_drops_with_threshold _ _ _ _ _ _ _ _ Hh Hd Hl Ht).
    rewrite Hmode. rewrite (Qlt_bool_false_of_le t d).
    + simpl. now rewrite andb_false_r.
    + rewrite Hzero. now apply Qlt_le_weak.
  - eapply distance_drops_without_threshold; eauto.
  - rewrite (distance_drops_with_threshold _ _ _ _ _ _ _ _ Hh Hd Hl Ht).
    now rewrite (Qlt_bool_false_of_le 0 t).
Qed.

(** The geofence with both positions resolved, a numeric distance [d] and a
    numeric threshold [t]. *)
Lemma geofence_decision w self packet device source current distance_km d t :
  LocationFilter.device_position self = Ok device ->
  LocationFilter.packet_position packet = Ok (Some source) ->
  LocationFilter.reference_position self device = Ok (Some current) ->
  haversine w source current = Ok distance_km ->
  num_of distance_km = Some d ->
  threshold self t ->
  LocationFilter.do_action w self packet
  = if Qlt_bool 0 t &&
       ((py_eqb (comparison_mode self) (VStr "within") && Qlt_bool t d) ||
        (py_eqb (comparison_mode self) (VStr "outside") && Qlt_bool d t))
    then Ok VNone
    else LocationFilter.mask_position self packet.
Proof.
  intros Hdev Hsrc Hcur Hh Hd (limit & Hl & Ht).
  unfold LocationFilter.do_action.
  rewrite Hdev. cbn [bind]. rewrite Hsrc. cbn [bind]. rewrite Hcur. cbn [bind].
  rewrite (distance_drops_with_threshold _ _ _ _ _ _ _ _ Hh Hd Hl Ht). reflexivity.
Qed.

(** C7: with both positions resolved and a numeric distance [d], the geofence
    with a numeric threshold [t] drops the packet exactly when [t] is positive
    and either the mode is [within] and [d > t] or the mode is [outside] and
    [d < t]; so it does not drop when [d] equals a positive threshold (under
    [within] as under [outside]), when [d] is zero under [within] with a
    positive threshold, or when the threshold is absent or not positive.  A
    packet that is not dropped is returned masked as configured, and that is a
    mapping. *)
Theorem geofence_boundary_is_strict
  (w : world) (self : plugin) (packet : value)
  (device : option (value * value)) (source current : value * value)
  (distance_km : value) (d : Q) :
  LocationFilter.device_position self = Ok device ->
  LocationFilter.packet_position packet = Ok (Some source) ->
  LocationFilter.reference_position self device = Ok (Some current) ->
  haversine w source current = Ok distance_km ->
  num_of distance_km = Some d ->
  (forall t : Q, threshold self t ->
     LocationFilter.do_action w self packet
     = if Qlt_bool 0 t &&
          ((py_eqb (comparison_mode self) (VStr "within") && Qlt_bool t d) ||
           (py_eqb (comparison_mode self) (VStr "outside") && Qlt_bool d t))
       then Ok VNone
       else LocationFilter.mask_position self packet) /\
  (passing_distance self d ->
   LocationFilter.do_action w self packet = LocationFilter.mask_position self packet) /\
  (exists masked, LocationFilter.mask_position self packet = Ok (VDict masked)).
Proof.
  intros Hdev Hsrc Hcur Hh Hd.
  split; [|split].
  - intros t Ht. now apply (geofence_decision w self packet device source current distance_km d).
  - intros Hcase. unfold LocationFilter.do_action.
    rewrite Hdev. cbn [bind]. rewrite Hsrc. cbn [bind]. rewrite Hcur. cbn [bind].
    rewrite (passing_distance_not_dropped _ _ _ _ _ _ Hh Hd Hcase). reflexivity.
  - destruct source as [latitude longitude].
    destruct (packet_position_resolved _ _ _ Hsrc) as (pd & dd & posd & -> & Hdd & Hpp & _).
    destruct (mask_position_resolved self _ _ _ Hdd Hpp) as (pd' & dd' & posd' & Hm & _).
    eauto.
Qed.

Lemma geofence_boundary_is_strict_witness :
  LocationFilter.do_action Examples.example_world
    (Examples.geofence (VFloat Examples.equator_degree_km) "outside") Examples.position_packet
  = LocationFilter.mask_position
      (Examples.geofence (VFloat Examples.equator_degree_km) "outside")
      Examples.position_packet /\
  exists masked,
    LocationFilter.mask_position
      (Examples.geofence (VFloat Examples.equator_degree_km) "outside")
      Examples.position_packet
    = Ok (VDict masked).
Proof.
  destruct (geofence_boundary_is_strict Examples.example_world
              (Examples.geofence (VFloat Examples.equator_degree_km) "outside")
              Examples.position_packet
              None (VInt 0, VInt 0) (VInt 0, VInt 1)
              (VFloat Examples.equator_degree_km) Examples.equator_degree_km)
    as (_ & Hpass & Hmasked); try reflexivity.
  split; [|exact Hmasked].
  apply Hpass. apply (at_threshold _ _ Examples.equator_degree_km).
  - exists (VFloat Examples.equator_degree_km). split; reflexivity.
  - reflexivity.
  - reflexivity.
Defined.

(** C8, where the code departs from it: on a packet that carries no
    position, so that the distance check is skipped, a geofence configured to
    mask a coordinate raises [KeyError]. *)
Theorem geofence_masking_raises_without_position
  (w : world) (self : plugin) (pd dd : dict) :
  dict_mem "device" (config self) = false ->
  dict_get "decoded" pd = Some (VDict dd) ->
  dict_get "position" dd = None ->
  dict_mem "latitude" (config self) || dict_mem "longitude" (config self) = true ->
  LocationFilter.do_action w self (VDict pd) = Raise KeyError.
Proof.
  intros Hdev Hd Hp Hmask. unfold LocationFilter.do_action.
  unfold LocationFilter.device_position. rewrite Hdev. cbn [bind].
  unfold LocationFilter.packet_position, and_then, contains, py_in, dict_mem.
  rewrite Hd. cbn [bind]. rewrite (getitem_dict_some _ _ _ Hd). cbn [bind].
  rewrite Hp. cbn [bind].
  assert (Href : exists current,
             LocationFilter.reference_position self None = Ok current).
  { unfold LocationFilter.reference_position, dict_mem.
    destruct (dict_get "compare_latitude" (config self)) as [lat|] eqn:Elat;
      destruct (dict_get "compare_longitude" (config self)) as [lon|] eqn:Elon;
      cbn [andb]; eauto.
    rewrite (getitem_dict_some _ _ _ Elat), (getitem_dict_some _ _ _ Elon). cbn. eauto. }
  destruct Href as [current ->]. cbn [bind LocationFilter.distance_drops].
  unfold LocationFilter.mask_position, LocationFilter.set_position, dict_mem in *.
  destruct (dict_get "latitude" (config self)) as [lat|] eqn:Elat.
  - rewrite (getitem_dict_some _ _ _ Elat). cbn [bind].
    rewrite (getitem_dict_some _ _ _ Hd). cbn. now rewrite Hp.
  - cbn [bind].
    destruct (dict_get "longitude" (config self)) as [lon|] eqn:Elon; [|discriminate].
    rewrite (getitem_dict_some _ _ _ Elon). cbn [bind].
    rewrite (getitem_dict_some _ _ _ Hd). cbn. now rewrite Hp.
Qed.

Lemma geofence_masking_raises_without_position_witness :
  LocationFilter.do_action Examples.example_world Examples.masking_latitude
    Examples.raw_text_packet
  = Raise KeyError.
Proof.
  apply (geofence_masking_raises_without_position Examples.example_world
           Examples.masking_latitude _ [("text", VStr "hello")]);
    reflexivity.
Defined.

(** ** APRS telemetry *)

Lemma chr_ascii (i : Z) :
  0 <= i < 128 -> AprsPlugin.chr i = Ok (String (ascii_of_N (Z.to_N i)) "").
Proof.
  intros [Hlo Hhi]. unfold AprsPlugin.chr, AprsPlugin.utf8.
  destruct (Z.ltb_spec i 0); [lia|].
  destruct (Z.ltb_spec 1114111 i); [lia|].
  destruct (Z.ltb_spec i 128); [|lia].
  reflexivity.
Qed.

Lemma ord_chr_ascii (i : Z) :
  0 <= i < 128 -> Z.of_N (N_of_ascii (ascii_of_N (Z.to_N i))) = i.
Proof.
  intros H. rewrite N_ascii_embedding by lia. lia.
Qed.

(** The pair [base91_encode] produces for a value of the range. *)
Lemma base91_encode_in_range (v : Z) :
  0 <= v <= 8280 ->
  AprsPlugin.base91_encode v
  = Ok (String (ascii_of_N (Z.to_N (v / 91 + 33)))
          (String (ascii_of_N (Z.to_N (v mod 91 + 33))) "")).
Proof.
  intros H. unfold AprsPlugin.base91_encode.
  assert (H1 : 0 <= v / 91 < 91).
  { split; [apply Z.div_pos; lia | apply Z.div_lt_upper_bound; lia]. }
  assert (H2 : 0 <= v mod 91 < 91) by (apply Z.mod_pos_bound; lia).
  rewrite !chr_ascii by lia. reflexivity.
Qed.

(** Encoding moves the counter to its successor modulo 1000, also when a
    value cannot be encoded. *)
Lemma encode_igate_telemetry_counter (values : list Z) (self : plugin) :
  telemetry_seq (snd (AprsPlugin.encode_igate_telemetry values self))
  = (telemetry_seq self + 1) mod 1000.
Proof.
  unfold AprsPlugin.encode_igate_telemetry, bindM, get_self, put_telemetry_seq, lift, ret.
  destruct (AprsPlugin.encode_all _); reflexivity.
Qed.

Lemma encode_successively_counter (telemetry : list (list Z)) (self : plugin) :
  0 <= telemetry_seq self + 1 ->
  telemetry_seq (encode_successively telemetry self)
  = (telemetry_seq self + Z.of_nat (List.length telemetry)) mod 1000
    \/ telemetry = [].
Proof.
  revert self. induction telemetry as [|values rest IH]; intros self Hs; [now right|].
  left. simpl encode_successively.
  assert (Hs' : 0 <= telemetry_seq (snd (AprsPlugin.encode_igate_telemetry values self)) + 1).
  { rewrite encode_igate_telemetry_counter.
    pose proof (Z.mod_pos_bound (telemetry_seq self + 1) 1000). lia. }
  destruct (IH _ Hs') as [H | ->].
  - rewrite H, encode_igate_telemetry_counter.
    rewrite Zplus_mod_idemp_l. f_equal. simpl List.length. lia.
  - simpl. rewrite encode_igate_telemetry_counter. reflexivity.
Qed.

(** C9: for every integer [v] from 0 to 8280 the pair [base91_encode]
    produces is the character of code [v // 91 + 33] followed by the one of
    code [v % 91 + 33], and decodes to [v]; every encoding moves the sequence
    counter to its successor modulo 1000 (by one below 999, from 999 to 0),
    the first encoding after startup leaves it at 0 and sends 0, and after
    [n] encodings since startup it is [(n - 1) mod 1000]. *)
Theorem aprs_telemetry_encoding :
  (forall v : Z, 0 <= v <= 8280 ->
     exists pair,
       AprsPlugin.base91_encode v = Ok pair /\
       pair = String (ascii_of_N (Z.to_N (v / 91 + 33)))
                (String (ascii_of_N (Z.to_N (v mod 91 + 33))) "") /\
       base91_decode pair = Some v) /\
  (forall (values : list Z) (self : plugin),
     let self' := snd (AprsPlugin.encode_igate_telemetry values self) in
     telemetry_seq self' = (telemetry_seq self + 1) mod 1000 /\
     (0 <= telemetry_seq self < 999 -> telemetry_seq self' = telemetry_seq self + 1) /\
     (telemetry_seq self = 999 -> telemetry_seq self' = 0) /\
     (telemetry_seq self = AprsPlugin.initial_telemetry_seq -> telemetry_seq self' = 0)) /\
  (forall (online_cnt nodes_cnt : Z) (self : plugin),
     telemetry_seq self = AprsPlugin.initial_telemetry_seq ->
     0 <= online_cnt <= 8280 -> 0 <= nodes_cnt <= 8280 ->
     exists c1 c2,
       AprsPlugin.base91_encode online_cnt = Ok c1 /\
       AprsPlugin.base91_encode nodes_cnt = Ok c2 /\
       fst (AprsPlugin.encode_igate_telemetry [online_cnt; nodes_cnt] self)
       = Ok ("|" ++ "!!" ++ c1 ++ c2 ++ "|")%string) /\
  (forall (telemetry : list (list Z)) (self : plugin),
     telemetry_seq self = AprsPlugin.initial_telemetry_seq ->
     telemetry <> [] ->
     telemetry_seq (encode_successively telemetry self)
     = (Z.of_nat (List.length telemetry) - 1) mod 1000).
Proof.
  repeat split.
  - intros v Hv. eexists. split; [apply base91_encode_in_range; exact Hv|].
    split; [reflexivity|].
    assert (H1 : 0 <= v / 91 < 91).
    { split; [apply Z.div_pos; lia | apply Z.div_lt_upper_bound; lia]. }
    assert (H2 : 0 <= v mod 91 < 91) by (apply Z.mod_pos_bound; lia).
    unfold base91_decode. rewrite !ord_chr_ascii by lia. f_equal.
    pose proof (Z.div_mod v 91). lia.
  - apply encode_igate_telemetry_counter.
  - intros Hs. rewrite encode_igate_telemetry_counter. apply Z.mod_small. lia.
  - intros Hs. rewrite encode_igate_telemetry_counter, Hs. reflexivity.
  - intros Hs. rewrite encode_igate_telemetry_counter, Hs. reflexivity.
  - intros online_cnt nodes_cnt self Hs Ho Hn.
    exists (String (ascii_of_N (Z.to_N (online_cnt / 91 + 33)))
              (String (ascii_of_N (Z.to_N (online_cnt mod 91 + 33))) "")),
           (String (ascii_of_N (Z.to_N (nodes_cnt / 91 + 33)))
              (String (ascii_of_N (Z.to_N (nodes_cnt mod 91 + 33))) "")).
    rewrite <- !base91_encode_in_range by assumption.
    split; [reflexivity|]. split; [reflexivity|].
    unfold AprsPlugin.encode_igate_telemetry, bindM, get_self, put_telemetry_seq, lift, ret.
    rewrite Hs. simpl AprsPlugin.encode_all.
    rewrite !base91_encode_in_range by assumption. reflexivity.
  - intros telemetry self Hs Hne.
    assert (H0 : 0 <= telemetry_seq self + 1)
      by (rewrite Hs; unfold AprsPlugin.initial_telemetry_seq; lia).
    destruct (encode_successively_counter telemetry self H0) as [H | H].
    + rewrite H, Hs. f_equal. unfold AprsPlugin.initial_telemetry_seq. lia.
    + contradiction.
Qed.

Lemma aprs_telemetry_encoding_witness :
  (exists pair,
     AprsPlugin.base91_encode 8280 = Ok pair /\
     pair = "{{" /\ base91_decode pair = Some 8280) /\
  telemetry_seq
    (snd (AprsPlugin.encode_igate_telemetry [3; 10]
            (with_telemetry_seq 999 (Examples.configured [])))) = 0 /\
  telemetry_seq
    (encode_successively [[3; 10]; [3; 11]; [4; 11]] (Examples.configured [])) = 2.
Proof.
  destruct aprs_telemetry_encoding as (Hpair & Hseq & _ & Hrun).
  split; [| split].
  - apply (Hpair 8280). lia.
  - destruct (Hseq [3; 10] (with_telemetry_seq 999 (Examples.configured [])))
      as (_ & _ & Hwrap & _).
    apply Hwrap. reflexivity.
  - apply (Hrun [[3; 10]; [3; 11]; [4; 11]] (Examples.configured []));
      [reflexivity | discriminate].
Defined.

(** ** Envelope stages: the round trip *)

(** C2, as amended: with a valid key pair configured, a packet that
    serialisation leaves as it is and that has an ["id"] entry comes back from
    Encrypt followed by Decrypt. *)
Theorem crypto_round_trip
  (w : world) (encrypt decrypt : plugin) (packet public_path private_path : value) :
  dict_get "key" (config encrypt) = Some public_path ->
  dict_get "key" (config decrypt) = Some private_path ->
  valid_key_pair w public_path private_path ->
  json_faithful w packet ->
  is_ok (getitem packet "id") = true ->
  bind (EncryptFilter.do_action w encrypt packet) (DecryptFilter.do_action w decrypt)
  = Ok packet.
Proof.
  intros Hpub Hpriv (encrypt_key & public_key & kid & private_key
                     & Hpem & Hpublic & Hkid & Hpem' & Hjwe)
         (text & Hdumps & Hloads) Hid.
  destruct (Hjwe text
              (VDict [("alg", VStr "RSA-OAEP-256"); ("enc", VStr "A256CBC-HS512");
                      ("typ", VStr "JWE"); ("kid", kid)]))
    as (token & envelope & Henc & Hser & Hdec).
  destruct (getitem packet "id") as [id|] eqn:Eid; [|discriminate].
  unfold EncryptFilter.do_action, dict_mem. rewrite Hpub. cbn [negb].
  rewrite (getitem_dict_some _ _ _ Hpub). cbn [bind].
  rewrite Hpem. cbn [bind]. rewrite Hpublic. cbn [bind]. rewrite Hkid. cbn [bind].
  rewrite Hdumps. cbn [bind]. rewrite Henc. cbn [bind]. rewrite Eid. cbn [bind].
  rewrite Hser. cbn [bind].
  unfold DecryptFilter.do_action, dict_mem. rewrite Hpriv. cbn [negb].
  rewrite (getitem_dict_some _ _ _ Hpriv). cbn [bind].
  rewrite Hpem'. cbn [bind]. rewrite Hdec. cbn [bind]. rewrite Hloads. cbn [bind].
  rewrite Eid. reflexivity.
Qed.

Lemma crypto_round_trip_witness :
  bind (EncryptFilter.do_action Examples.example_world
          (Examples.configured [("key", VStr "public.pem")]) Examples.hello_packet_with_id)
       (DecryptFilter.do_action Examples.example_world
          (Examples.configured [("key", VStr "private.pem")]))
  = Ok Examples.hello_packet_with_id.
Proof.
  apply (crypto_round_trip Examples.example_world _ _ _
           (VStr "public.pem") (VStr "private.pem")); try reflexivity.
  - exists (VStr "public.pem"), (VStr "public"), (VStr "thumbprint"), (VStr "private.pem").
    repeat (split; [reflexivity|]).
    intros message header. exists (VStr message), ("sealed:" ++ message)%string.
    repeat (split; [reflexivity|]). reflexivity.
  - exists Examples.hello_packet_with_id_json. split; reflexivity.
Defined.

(** C2, as stated, fails on a packet without an ["id"] entry, such as the text
    message of the scenarios: whatever the keys and the libraries, Encrypt
    followed by Decrypt does not return it, and with the example key pair
    Encrypt raises [KeyError].  It also fails on a packet that [json.dumps]
    rejects, such as one with a payload in bytes. *)
Lemma crypto_round_trip_needs_id :
  ~ (exists (w : world) (encrypt decrypt : plugin),
       bind (EncryptFilter.do_action w encrypt Examples.hello_packet)
            (DecryptFilter.do_action w decrypt)
       = Ok Examples.hello_packet) /\
  EncryptFilter.do_action Examples.example_world
    (Examples.configured [("key", VStr "public.pem")]) Examples.hello_packet
  = Raise KeyError /\
  EncryptFilter.do_action Examples.example_world
    (Examples.configured [("key", VStr "public.pem")]) Examples.bytes_packet
  = Raise TypeError.
Proof.
  split; [|split; reflexivity].
  intros (w & encrypt & decrypt & H).
  apply bind_ok_inv in H as (sealed & Henc & Hdec).
  unfold EncryptFilter.do_action in Henc.
  destruct (negb (dict_mem "key" (config encrypt))).
  - injection Henc as <-. unfold DecryptFilter.do_action in Hdec.
    destruct (negb (dict_mem "key" (config decrypt))); discriminate.
  - repeat (apply bind_ok_inv in Henc as (? & ? & Henc)).
    match goal with
    | Hid : getitem Examples.hello_packet "id" = Ok _ |- _ => discriminate Hid
    end.
Qed.

(** ** The configuration under the stages *)

Lemma keeps_ret {A : Type} (a : A) : keeps_config (ret a).
Proof. intros self. reflexivity. Qed.

Lemma keeps_lift {A : Type} (r : result A) : keeps_config (lift r).
Proof. intros self. reflexivity. Qed.

Lemma keeps_reading {A : Type} (f : plugin -> result A) : keeps_config (reading f).
Proof. intros self. reflexivity. Qed.

Lemma keeps_get_self : keeps_config get_self.
Proof. intros self. reflexivity. Qed.

Lemma keeps_get_config : keeps_config get_config.
Proof. intros self. reflexivity. Qed.

Lemma keeps_put_telemetry_seq (n : Z) : keeps_config (put_telemetry_seq n).
Proof. intros self. reflexivity. Qed.

Lemma keeps_perform (w : world) (c : call) : keeps_config (perform w c).
Proof. intros self. reflexivity. Qed.

Lemma keeps_bind {A B : Type} (m : M A) (f : A -> M B) :
  keeps_config m -> (forall a, keeps_config (f a)) -> keeps_config (bindM m f).
Proof.
  intros Hm Hf self. unfold bindM. specialize (Hm self).
  destruct (m self) as [[a|e] self']; simpl in *.
  - now rewrite Hf.
  - exact Hm.
Qed.

Lemma keeps_try {A : Type} (m : M A) (e : exn) (handler : M A) :
  keeps_config m -> keeps_config handler -> keeps_config (try_exceptM m e handler).
Proof.
  intros Hm Hh self. unfold try_exceptM. specialize (Hm self).
  destruct (m self) as [[a|e'] self']; simpl in *; auto.
  destruct (exn_eqb e e'); simpl; auto.
  now rewrite Hh.
Qed.

Lemma agree_except_refl keys c : agree_except keys c c.
Proof. intros k _. reflexivity. Qed.

Lemma agree_except_trans keys c1 c2 c3 :
  agree_except keys c1 c2 -> agree_except keys c2 c3 -> agree_except keys c1 c3.
Proof. intros H12 H23 k Hk. now rewrite H23, H12. Qed.

Lemma agree_except_set k v keys c : In k keys -> agree_except keys c (dict_set k v c).
Proof.
  intros Hin k' Hk'. apply dict_get_set_other. intros ->. contradiction.
Qed.

Lemma assigns_of_keeps {A : Type} keys (m : M A) : keeps_config m -> assigns_only keys m.
Proof. intros H self. rewrite H. apply agree_except_refl. Qed.

Lemma assigns_bind {A B : Type} keys (m : M A) (f : A -> M B) :
  assigns_only keys m -> (forall a, assigns_only keys (f a)) ->
  assigns_only keys (bindM m f).
Proof.
  intros Hm Hf self. unfold bindM. specialize (Hm self).
  destruct (m self) as [[a|e] self']; simpl in *; auto.
  eapply agree_except_trans; [exact Hm | apply Hf].
Qed.

Lemma assigns_for_each {A : Type} keys (l : list A) (body : A -> M unit) :
  (forall a, assigns_only keys (body a)) -> assigns_only keys (for_each l body).
Proof.
  intros Hb. induction l as [|a r IH]; simpl.
  - apply assigns_of_keeps, keeps_ret.
  - apply assigns_bind; auto.
Qed.

Lemma assigns_put_config keys k v :
  In k keys ->
  assigns_only keys (bindM get_config (fun cfg => put_config (dict_set k v cfg))).
Proof. intros Hin self. simpl. now apply agree_except_set. Qed.

(** Reduction of the goal [keeps_config m] along the structure of [m]. *)
Ltac keeps :=
  repeat first
    [ apply keeps_ret | apply keeps_lift | apply keeps_reading | apply keeps_get_self
    | apply keeps_get_config | apply keeps_put_telemetry_seq | apply keeps_perform
    | apply keeps_bind; [| intros ?] | apply keeps_try
    | match goal with
      | |- keeps_config (if ?b then _ else _) => destruct b
      | |- keeps_config (match ?x with _ => _ end) => destruct x
      end ].

Lemma mqtt_keeps_config w packet : keeps_config (MQTTPlugin.do_action w packet).
Proof. unfold MQTTPlugin.do_action. keeps. Qed.

Lemma owntracks_keeps_config w packet : keeps_config (OwntracksPlugin.do_action w packet).
Proof. unfold OwntracksPlugin.do_action. keeps. Qed.

Lemma encode_igate_telemetry_keeps_config values :
  keeps_config (AprsPlugin.encode_igate_telemetry values).
Proof. unfold AprsPlugin.encode_igate_telemetry. keeps. Qed.

Lemma aprs_keeps_config w packet : keeps_config (AprsPlugin.do_action w packet).
Proof.
  unfold AprsPlugin.do_action, AprsPlugin.report_self_position, AprsPlugin.report_position.
  keeps; apply encode_igate_telemetry_keeps_config.
Qed.

Lemma radio_keeps_config w packet : keeps_config (RadioMessagePlugin.do_action w packet).
Proof. unfold RadioMessagePlugin.do_action. keeps. Qed.

Lemma set_header_assigns k v : assigns_only ["headers"] (WebhookPlugin.set_header k v).
Proof.
  intros self. unfold WebhookPlugin.set_header, bindM, get_config, lift, put_config.
  destruct (getitem (VDict (config self)) "headers") as [headers|]; simpl;
    [|apply agree_except_refl].
  destruct (setitem headers k v); simpl; [|apply agree_except_refl].
  apply agree_except_set. now left.
Qed.

Lemma use_environment_variable_assigns ek ev :
  assigns_only ["private_key"] (NoStrPlugin.use_environment_variable ek ev).
Proof.
  intros self.
  unfold NoStrPlugin.use_environment_variable, bindM, get_config, lift, put_config, ret.
  destruct (getitem (VDict (config self)) "private_key") as [private_key|]; simpl;
    [|apply agree_except_refl].
  destruct (py_in _ private_key) as [[|]|]; simpl; try apply agree_except_refl.
  destruct (replace_method private_key _ _); simpl; [|apply agree_except_refl].
  apply agree_except_set. now left.
Qed.

(** Reduction of the goal [assigns_only keys m] along the structure of [m]. *)
Ltac assigns :=
  repeat first
    [ apply set_header_assigns | apply use_environment_variable_assigns
    | apply assigns_for_each; intros ?
    | apply assigns_bind; [| intros ?]
    | apply assigns_of_keeps; solve [keeps]
    | match goal with
      | |- assigns_only _ (if ?b then _ else _) => destruct b
      | |- assigns_only _ (match ?x with _ => _ end) => destruct x
      end ].

Lemma webhook_assigns_headers w packet :
  assigns_only ["headers"] (WebhookPlugin.do_action w packet).
Proof. unfold WebhookPlugin.do_action. assigns. Qed.

Lemma nostr_assigns_private_key w packet :
  assigns_only ["private_key"] (NoStrPlugin.do_action w packet).
Proof. unfold NoStrPlugin.do_action. assigns. Qed.

(** C10, as amended: applying a stage leaves every entry of its configuration
    as it was, except that the webhook stage assigns to ["headers"] and the
    relay-network stage to ["private_key"]; a stage other than these two
    leaves its configuration unchanged. *)
Theorem stages_assign_only_rewritten_keys
  (w : world) (s : stage) (packet : value) (self : plugin) :
  agree_except (rewritten_keys s) (config self) (config (snd (do_action w s packet self))) /\
  (rewritten_keys s = [] -> config (snd (do_action w s packet self)) = config self).
Proof.
  destruct s; simpl rewritten_keys; simpl do_action;
    try (split; [apply assigns_of_keeps | intros _];
         first [ apply keeps_reading | apply mqtt_keeps_config
               | apply owntracks_keeps_config | apply aprs_keeps_config
               | apply radio_keeps_config ]).
  - split; [apply webhook_assigns_headers | discriminate].
  - split; [apply nostr_assigns_private_key | discriminate].
Qed.

Lemma stages_assign_only_rewritten_keys_witness :
  dict_get "url"
    (config (snd (do_action Examples.example_world webhook Examples.hello_packet
                    Examples.webhook_plugin)))
  = dict_get "url" (config Examples.webhook_plugin) /\
  config (snd (do_action Examples.example_world mqtt_plugin Examples.hello_packet
                 Examples.broker_down))
  = config Examples.broker_down.
Proof.
  split.
  - apply (stages_assign_only_rewritten_keys Examples.example_world webhook
             Examples.hello_packet Examples.webhook_plugin).
    simpl. intros [H | []]. discriminate H.
  - apply (stages_assign_only_rewritten_keys Examples.example_world mqtt_plugin
             Examples.hello_packet Examples.broker_down).
    reflexivity.
Defined.

(** C10, as stated, fails for the webhook stage and for the relay-network
    stage: each overwrites an entry of its configuration with the value in
    which the secrets of the environment are substituted. *)
Lemma webhook_and_nostr_rewrite_their_configuration :
  config (snd (do_action Examples.example_world webhook Examples.hello_packet
                 Examples.webhook_plugin))
  = [("url", VStr "https://example.org/hook"); ("body", VStr "{}");
     ("headers", VDict [("Authorization", VStr "Bearer s3cret")])] /\
  config (snd (do_action Examples.example_world webhook Examples.hello_packet
                 Examples.webhook_plugin))
  <> config Examples.webhook_plugin /\
  config (snd (do_action Examples.example_world nostr_plugin Examples.hello_packet
                 Examples.nostr_stage))
  <> config Examples.nostr_stage.
Proof.
  split; [reflexivity|]. split; vm_compute; discriminate.
Qed.

(** ** Further properties of the filters *)



(** The content filter on a packet that has its three attributes and whose
    text, if any, meets no [message] filter: the attribute filters decide. *)
Lemma message_filter_attributes_decide w self pd dd portnum fromId toId :
  dict_get "decoded" pd = Some (VDict dd) ->
  dict_get "portnum" dd = Some portnum ->
  dict_get "fromId" pd = Some fromId ->
  dict_get "toId" pd = Some toId ->
  dict_get "text" dd = None \/ dict_mem "message" (config self) = false ->
  MessageFilter.do_action w self (VDict pd)
  = (dropped <- MessageFilter.filters_drop self
                  [("app", portnum); ("from", fromId); ("to", toId)] ;;
     if dropped then Ok VNone else Ok (VDict pd)).
Proof.
  intros Hd Hp Hf Ht Hcase. unfold MessageFilter.do_action.
  rewrite (getitem_ok_truthy _ _ _ (getitem_dict_some _ _ _ Hd)). cbn [negb].
  rewrite (getitem_dict_some _ _ _ Hd). cbn [bind].
  unfold contains, py_in, dict_mem. cbn [bind].
  assert (Hskip : forall text,
            (if truthy text &&
                match dict_get "message" (config self) with
                | Some _ => true | None => false end
             then MessageFilter.message_drops w self text else Ok false) = Ok false
            \/ dict_get "text" dd = None).
  { intros text. destruct Hcase as [Hc | Hc]; [now right | left].
    unfold dict_mem in Hc. rewrite Hc. now rewrite andb_false_r. }
  destruct (dict_get "text" dd) as [text|] eqn:Et.
  - rewrite (getitem_dict_some _ _ _ Et). cbn [bind].
    destruct (Hskip text) as [-> | Habs]; [|discriminate].
    cbn [bind]. rewrite (getitem_dict_some _ _ _ Hp). cbn [bind].
    rewrite (getitem_dict_some _ _ _ Hf). cbn [bind].
    rewrite (getitem_dict_some _ _ _ Ht). reflexivity.
  - cbn [bind truthy andb]. rewrite (getitem_dict_some _ _ _ Hp). cbn [bind].
    rewrite (getitem_dict_some _ _ _ Hf). cbn [bind].
    rewrite (getitem_dict_some _ _ _ Ht). reflexivity.
Qed.



(** The sender filter: for a packet with sender id [S], the configuration
    [{from: {disallow: [S]}}] drops, and so does [{from: {allow: [S2]}}] with
    [S2] different from [S]. *)
Theorem sender_filter_drops
  (w : world) (pd dd : dict) (portnum toId : value) (S S2 : string) :
  dict_get "decoded" pd = Some (VDict dd) ->
  dict_get "portnum" dd = Some portnum ->
  dict_get "fromId" pd = Some (VStr S) ->
  dict_get "toId" pd = Some toId ->
  S <> S2 ->
  MessageFilter.do_action w
    (Examples.configured [("from", VDict [("disallow", VList [VStr S])])]) (VDict pd)
  = Ok VNone /\
  MessageFilter.do_action w
    (Examples.configured [("from", VDict [("allow", VList [VStr S2])])]) (VDict pd)
  = Ok VNone.
Proof.
  intros Hd Hp Hf Ht Hne.
  rewrite !(message_filter_attributes_decide w _ pd dd portnum (VStr S) toId)
    by (try assumption; right; reflexivity).
  assert (Hsame : py_eqb (VStr S) (VStr S) = true) by apply String.eqb_refl.
  assert (Hdiff : py_eqb (VStr S) (VStr S2) = false)
    by (apply String.eqb_neq; exact Hne).
  split; cbv -[py_eqb]; [rewrite Hsame | rewrite Hdiff]; reflexivity.
Qed.

Lemma sender_filter_drops_witness :
  MessageFilter.do_action Examples.example_world
    (Examples.configured [("from", VDict [("disallow", VList [VStr "!a"])])])
    Examples.hello_packet
  = Ok VNone /\
  MessageFilter.do_action Examples.example_world
    (Examples.configured [("from", VDict [("allow", VList [VStr "!c"])])])
    Examples.hello_packet
  = Ok VNone.
Proof.
  apply (sender_filter_drops Examples.example_world _
           [("portnum", VStr "TEXT_MESSAGE_APP"); ("text", VStr "hello")]
           (VStr "TEXT_MESSAGE_APP") (VStr "!b") "!a" "!c");
    try reflexivity.
  discriminate.
Defined.

(** Scenarios A and B of the specification: the text message passes a content
    filter that allows [^hello] and is dropped by one that disallows [ell],
    when [re.search] finds these patterns in [hello]. *)
Theorem message_scenarios (w : world) :
  re_search w (VStr "^hello") (VStr "hello") = Ok true ->
  re_search w (VStr "ell") (VStr "hello") = Ok true ->
  MessageFilter.do_action w
    (Examples.configured [("message", VDict [("allow", VList [VStr "^hello"])])])
    Examples.hello_packet
  = Ok Examples.hello_packet /\
  MessageFilter.do_action w
    (Examples.configured [("message", VDict [("disallow", VList [VStr "ell"])])])
    Examples.hello_packet
  = Ok VNone.
Proof.
  intros Hallow Hdis. split.
  - cbv -[re_search]. rewrite Hallow. reflexivity.
  - cbv -[re_search]. rewrite Hdis. reflexivity.
Qed.

Lemma message_scenarios_witness :
  MessageFilter.do_action Examples.example_world
    (Examples.configured [("message", VDict [("allow", VList [VStr "^hello"])])])
    Examples.hello_packet
  = Ok Examples.hello_packet /\
  MessageFilter.do_action Examples.example_world
    (Examples.configured [("message", VDict [("disallow", VList [VStr "ell"])])])
    Examples.hello_packet
  = Ok VNone.
Proof. apply (message_scenarios Examples.example_world); reflexivity. Defined.

(** Scenario C of the specification: a position packet at (0, 0) against the
    reference (0, 1), at a distance between 50 and 200 km, is dropped within
    50 km and passes within 200 km. *)
Theorem geofence_scenario (w : world) (distance_km : value) (d : Q) :
  haversine w (VInt 0, VInt 0) (VInt 0, VInt 1) = Ok distance_km ->
  num_of distance_km = Some d ->
  (50 < d)%Q -> (d < 200)%Q ->
  LocationFilter.do_action w (Examples.geofence (VInt 50) "within") Examples.position_packet
  = Ok VNone /\
  LocationFilter.do_action w (Examples.geofence (VInt 200) "within") Examples.position_packet
  = Ok Examples.position_packet.
Proof.
  intros Hh Hd Hlo Hhi.
  split.
  - rewrite (geofence_decision w (Examples.geofence (VInt 50) "within")
               Examples.position_packet None (VInt 0, VInt 0) (VInt 0, VInt 1)
               distance_km d (inject_Z 50));
      try reflexivity; try assumption.
    + rewrite (Qlt_bool_true_of_lt (inject_Z 50) d) by exact Hlo. reflexivity.
    + exists (VInt 50). split; reflexivity.
  - rewrite (geofence_decision w (Examples.geofence (VInt 200) "within")
               Examples.position_packet None (VInt 0, VInt 0) (VInt 0, VInt 1)
               distance_km d (inject_Z 200));
      try reflexivity; try assumption.
    + rewrite (Qlt_bool_false_of_le (inject_Z 200) d) by (now apply Qlt_le_weak).
      reflexivity.
    + exists (VInt 200). split; reflexivity.
Qed.

Lemma geofence_scenario_witness :
  LocationFilter.do_action Examples.example_world (Examples.geofence (VInt 50) "within")
    Examples.position_packet
  = Ok VNone /\
  LocationFilter.do_action Examples.example_world (Examples.geofence (VInt 200) "within")
    Examples.position_packet
  = Ok Examples.position_packet.
Proof.
  apply (geofence_scenario Examples.example_world
           (VFloat Examples.equator_degree_km) Examples.equator_degree_km);
    reflexivity.
Defined.

(** Position masking where the packet has a mapping [decoded.position]: a
    geofence with no reference position returns the packet with the configured
    latitude and longitude written into that mapping, and does not fail. *)
Theorem geofence_masks_the_position
  (w : world) (self : plugin) (pd dd posd : dict) :
  dict_mem "device" (config self) = false ->
  dict_mem "compare_latitude" (config self) && dict_mem "compare_longitude" (config self)
  = false ->
  dict_get "decoded" pd = Some (VDict dd) ->
  dict_get "position" dd = Some (VDict posd) ->
  exists pd' dd' posd',
    LocationFilter.do_action w self (VDict pd) = Ok (VDict pd') /\
    dict_get "decoded" pd' = Some (VDict dd') /\
    dict_get "position" dd' = Some (VDict posd') /\
    (forall v, dict_get "latitude" (config self) = Some v ->
               dict_get "latitude" posd' = Some v) /\
    (forall v, dict_get "longitude" (config self) = Some v ->
               dict_get "longitude" posd' = Some v).
Proof.
  intros Hdev Hcmp Hd Hp.
  destruct (mask_position_resolved self pd dd posd Hd Hp)
    as (pd' & dd' & posd' & Hmask & Hrest).
  exists pd', dd', posd'. split; [|exact Hrest].
  unfold LocationFilter.do_action, LocationFilter.device_position.
  rewrite Hdev. cbn [bind].
  destruct (LocationFilter.packet_position (VDict pd)) as [source|e] eqn:Es.
  - cbn [bind]. unfold LocationFilter.reference_position. rewrite Hcmp. cbn [bind].
    destruct source; cbn [bind LocationFilter.distance_drops]; exact Hmask.
  - exfalso. revert Es.
    unfold LocationFilter.packet_position, and_then, contains, py_in, dict_mem.
    rewrite Hd. cbn [bind]. rewrite (getitem_dict_some _ _ _ Hd). cbn [bind].
    rewrite Hp. cbn [bind]. rewrite (getitem_dict_some _ _ _ Hp). cbn [bind].
    destruct (dict_get "latitude" posd) as [lat|] eqn:Elat; cbn [bind]; [|discriminate].
    destruct (dict_get "longitude" posd) as [lon|] eqn:Elon; cbn [bind]; [|discriminate].
    rewrite (getitem_dict_some _ _ _ Elat). cbn [bind].
    rewrite (getitem_dict_some _ _ _ Elon). discriminate.
Qed.

Lemma geofence_masks_the_position_witness :
  exists pd' dd' posd',
    LocationFilter.do_action Examples.example_world Examples.masking_latitude
      Examples.position_packet = Ok (VDict pd') /\
    dict_get "decoded" pd' = Some (VDict dd') /\
    dict_get "position" dd' = Some (VDict posd') /\
    (forall v, dict_get "latitude" (config Examples.masking_latitude) = Some v ->
               dict_get "latitude" posd' = Some v) /\
    (forall v, dict_get "longitude" (config Examples.masking_latitude) = Some v ->
               dict_get "longitude" posd' = Some v).
Proof.
  apply (geofence_masks_the_position Examples.example_world Examples.masking_latitude _
           [("portnum", VStr "POSITION_APP");
            ("position", VDict [("latitude", VInt 0); ("longitude", VInt 0)])]
           [("latitude", VInt 0); ("longitude", VInt 0)]);
    reflexivity.
Defined.

(** Missing prerequisites of the broker publisher: without a [name] or a
    [topic], or with a name under which no broker is established, the packet
    is returned as it is and the stage object is left as it was. *)
Theorem broker_publisher_passes_without_prerequisites
  (w : world) (self : plugin) (packet : value) :
  (missing_option ["name"; "topic"] (config self) = true ->
   MQTTPlugin.do_action w packet self = (Ok packet, self)) /\
  (forall name : string,
     dict_get "name" (config self) = Some (VStr name) ->
     dict_mem "topic" (config self) = true ->
     assoc name (mqtt_servers self) = None ->
     MQTTPlugin.do_action w packet self = (Ok packet, self)).
Proof.
  split.
  - intros Hmissing. unfold MQTTPlugin.do_action, bindM, get_self, ret.
    now rewrite Hmissing.
  - intros name Hname Htopic Hserver.
    unfold MQTTPlugin.do_action, bindM, get_self, lift, ret, missing_option.
    cbn [existsb]. unfold dict_mem at 1. rewrite Hname, Htopic. cbn [negb orb].
    rewrite (getitem_dict_some _ _ _ Hname).
    unfold registry_has. rewrite Hserver. reflexivity.
Qed.

Lemma broker_publisher_passes_without_prerequisites_witness :
  MQTTPlugin.do_action Examples.example_world Examples.hello_packet (Examples.configured [])
  = (Ok Examples.hello_packet, Examples.configured []) /\
  MQTTPlugin.do_action Examples.example_world Examples.hello_packet
    (Examples.configured [("name", VStr "external"); ("topic", VStr "mesh/out")])
  = (Ok Examples.hello_packet,
     Examples.configured [("name", VStr "external"); ("topic", VStr "mesh/out")]).
Proof.
  split.
  - apply (broker_publisher_passes_without_prerequisites Examples.example_world
             (Examples.configured []) Examples.hello_packet).
    reflexivity.
  - apply (broker_publisher_passes_without_prerequisites Examples.example_world
             (Examples.configured [("name", VStr "external"); ("topic", VStr "mesh/out")])
             Examples.hello_packet) with (name := "external");
      reflexivity.
Defined.

(** A packet without a position meets no distance constraint: a geofence
    with no device and no coordinate to mask returns it as it is, whatever
    threshold is configured. *)
Theorem geofence_skips_unresolved_position
  (w : world) (self : plugin) (packet : value) :
  dict_mem "device" (config self) = false ->
  LocationFilter.packet_position packet = Ok None ->
  dict_mem "latitude" (config self) || dict_mem "longitude" (config self) = false ->
  LocationFilter.do_action w self packet = Ok packet.
Proof.
  intros Hdev Hsrc Hmask. apply orb_false_iff in Hmask as [Hlat Hlon].
  unfold LocationFilter.do_action, LocationFilter.device_position.
  rewrite Hdev. cbn [bind]. rewrite Hsrc. cbn [bind].
  unfold LocationFilter.reference_position, dict_mem.
  destruct (dict_get "compare_latitude" (config self)) as [lat|] eqn:Elat;
    destruct (dict_get "compare_longitude" (config self)) as [lon|] eqn:Elon;
    cbn [andb];
    try rewrite (getitem_dict_some _ _ _ Elat);
    try rewrite (getitem_dict_some _ _ _ Elon);
    cbn [bind LocationFilter.distance_drops];
    unfold LocationFilter.mask_position; rewrite Hlat, Hlon; reflexivity.
Qed.

Lemma geofence_skips_unresolved_position_witness :
  LocationFilter.do_action Examples.example_world (Examples.geofence (VInt 50) "within")
    Examples.hello_packet
  = Ok Examples.hello_packet.
Proof.
  apply (geofence_skips_unresolved_position Examples.example_world
           (Examples.geofence (VInt 50) "within") Examples.hello_packet);
    reflexivity.
Defined.

(** The normalizer stage on an input whose normal form is a mapping with a
    mapping [decoded]: a payload in bytes is replaced by its base-64 text, and
    any other packet is returned in normal form. *)
Theorem packet_filter_encodes_the_payload (w : world) (p : value) (nd dd : dict) :
  PacketFilter.normalize w p = VDict nd ->
  dict_get "decoded" nd = Some (VDict dd) ->
  PacketFilter.do_action w p
  = Ok (match dict_get "payload" dd with
        | Some (VBytes b) =>
            VDict (dict_set "decoded"
                     (VDict (dict_set "payload" (VStr (b64encode b)) dd)) nd)
        | _ => VDict nd
        end).
Proof.
  intros Hn Hd. unfold PacketFilter.do_action. rewrite Hn.
  unfold and_then, contains, py_in, dict_mem. rewrite Hd. cbn [bind].
  rewrite (getitem_dict_some _ _ _ Hd). cbn [bind].
  destruct (dict_get "payload" dd) as [payload|] eqn:Ep; [|reflexivity].
  rewrite (getitem_dict_some _ _ _ Ep). cbn [bind].
  destruct payload; reflexivity.
Qed.

Lemma packet_filter_encodes_the_payload_witness :
  PacketFilter.do_action Examples.example_world Examples.bytes_packet
  = Ok (VDict [("id", VInt 7); ("fromId", VStr "!a"); ("toId", VStr "!b");
               ("decoded", VDict [("portnum", VStr "TEXT_MESSAGE_APP");
                                  ("payload", VStr "aGVsbG8=")])]).
Proof.
  apply (packet_filter_encodes_the_payload Examples.example_world Examples.bytes_packet
           [("id", VInt 7); ("fromId", VStr "!a"); ("toId", VStr "!b");
            ("decoded", VDict [("portnum", VStr "TEXT_MESSAGE_APP");
                               ("payload", VBytes "hello")])]
           [("portnum", VStr "TEXT_MESSAGE_APP"); ("payload", VBytes "hello")]);
    reflexivity.
Defined.

(** ** Further properties of the other stages *)

(** Identity enrichment is best effort: without a radio interface, without a
    sender in the packet, or with a sender the node directory does not know,
    the packet is returned as it is; on a hit the user record of the sender is
    attached as [fromUser]. *)
Theorem identity_enrichment_is_best_effort (self : plugin) (pd : dict) :
  (interface self = None ->
   AddUserInfoFilter.do_action self (VDict pd) = Ok (VDict pd)) /\
  (forall iface,
     interface self = Some iface -> dict_get "from" pd = None ->
     AddUserInfoFilter.do_action self (VDict pd) = Ok (VDict pd)) /\
  (forall iface from_num,
     interface self = Some iface -> dict_get "from" pd = Some from_num ->
     node_get from_num (nodesByNum iface) = Raise KeyError ->
     AddUserInfoFilter.do_action self (VDict pd) = Ok (VDict pd)) /\
  (forall iface from_num node user,
     interface self = Some iface -> dict_get "from" pd = Some from_num ->
     node_get from_num (nodesByNum iface) = Ok node ->
     getitem node "user" = Ok user ->
     AddUserInfoFilter.do_action self (VDict pd)
     = Ok (VDict (dict_set "fromUser" user pd))).
Proof.
  unfold AddUserInfoFilter.do_action. repeat split.
  - intros ->. reflexivity.
  - intros iface -> Hfrom. cbn [getitem]. rewrite Hfrom. reflexivity.
  - intros iface from_num -> Hfrom Hmiss. cbn [getitem]. rewrite Hfrom. cbn [bind].
    rewrite Hmiss. reflexivity.
  - intros iface from_num node user -> Hfrom Hnode Huser.
    cbn [getitem]. rewrite Hfrom. cbn [bind]. rewrite Hnode. cbn [bind].
    rewrite Huser. reflexivity.
Qed.

Lemma identity_enrichment_is_best_effort_witness :
  AddUserInfoFilter.do_action (Examples.configured []) Examples.hello_packet
  = Ok Examples.hello_packet.
Proof.
  destruct (identity_enrichment_is_best_effort (Examples.configured [])
              [("fromId", VStr "!a"); ("toId", VStr "!b");
               ("decoded", VDict [("portnum", VStr "TEXT_MESSAGE_APP");
                                  ("text", VStr "hello")])]) as (Hnone & _).
  apply Hnone. reflexivity.
Defined.

(** A display name that does not fit the APRS template is a skip, not a
    failure: for a position packet of another node whose APRS data cannot be
    parsed, the APRS stage returns the packet, sends nothing and leaves the
    stage object as it was. *)
Theorem aprs_skips_names_that_do_not_fit
  (w : world) (self : plugin) (iface : mesh_interface) (packet : value) :
  interface self = Some iface ->
  AprsPlugin.is_position_packet packet = Ok true ->
  (from <- getitem packet "from" ;;
   num <- getitem (getMyNodeInfo iface) "num" ;; Ok (py_eqb from num)) = Ok false ->
  AprsPlugin.parse_aprs_data w self iface packet = Raise ValueError ->
  AprsPlugin.do_action w packet self = (Ok packet, self).
Proof.
  intros Hi Hpos Hother Hparse.
  unfold AprsPlugin.do_action, bindM, get_self, lift, ret, try_exceptM, and_then.
  rewrite Hi, Hpos. cbn [bind]. rewrite Hother, Hparse. reflexivity.
Qed.

Lemma aprs_skips_names_that_do_not_fit_witness :
  AprsPlugin.do_action Examples.example_world Examples.neighbour_position
    Examples.aprs_stage
  = (Ok Examples.neighbour_position, Examples.aprs_stage).
Proof.
  apply (aprs_skips_names_that_do_not_fit Examples.example_world Examples.aprs_stage
           Examples.radio Examples.neighbour_position);
    reflexivity.
Defined.

(** ** More on the normalizer *)

Lemma dict_get_del_other k k' d : k <> k' -> dict_get k' (dict_del k d) = dict_get k' d.
Proof.
  intros Hne. induction d as [|[k0 v0] r IH]; simpl; auto.
  destruct (String.eqb k k0) eqn:E; simpl.
  - apply String.eqb_eq in E. subst k0.
    destruct (String.eqb k' k) eqn:E'; auto.
    apply String.eqb_eq in E'. congruence.
  - now rewrite IH.
Qed.

Lemma dict_del_keys k d :
  map fst (dict_del k d) = filter (fun k' => negb (String.eqb k k')) (map fst d).
Proof.
  induction d as [|[k0 v0] r IH]; simpl; auto.
  destruct (String.eqb k k0); simpl; now rewrite IH.
Qed.

Lemma dict_map_values_keys f d : map fst (dict_map_values f d) = map fst d.
Proof. unfold dict_map_values. rewrite map_map. reflexivity. Qed.

(** [strip_raw] on a mapping removes the entry ["raw"] and nothing else: every
    other key stays, in the same order, with the stripped form of its value. *)
Theorem strip_raw_keeps_the_other_entries (d : dict) :
  exists r,
    PacketFilter.strip_raw (VDict d) = VDict r /\
    dict_get "raw" r = None /\
    (forall k, k <> "raw" ->
       dict_get k r = option_map PacketFilter.strip_raw (dict_get k d)) /\
    map fst r = filter (fun k => negb (String.eqb "raw" k)) (map fst d).
Proof.
  exists (dict_map_values PacketFilter.strip_raw (dict_del "raw" d)).
  split; [apply strip_raw_dict|]. split; [|split].
  - rewrite dict_get_map_values, dict_get_del_same. reflexivity.
  - intros k Hk. rewrite dict_get_map_values, dict_get_del_other; auto.
  - rewrite dict_map_values_keys. apply dict_del_keys.
Qed.

(** The normalizer stage on an input that is no mapping.  An input that
    [json.loads] rejects comes back wrapped as the text of a packet, itself
    unchanged; an input that [json.loads] decodes to [None], a boolean or a
    number makes the stage raise [TypeError]. *)
Theorem packet_filter_on_what_is_no_mapping (w : world) (p : value) :
  is_dict p = false ->
  (is_ok (json_loads w p) = false ->
   PacketFilter.do_action w p = Ok (VDict [("decoded", VDict [("text", p)])])) /\
  (forall v, json_loads w p = Ok v -> v = VNone \/ num_of v <> None ->
             PacketFilter.do_action w p = Raise TypeError).
Proof.
  intros Hp. split.
  - intros Hraise. unfold PacketFilter.do_action, PacketFilter.normalize.
    rewrite Hp. cbn [negb].
    destruct (json_loads w p) as [v|e]; [discriminate|].
    assert (Hs : PacketFilter.strip_raw p = p) by (destruct p; try reflexivity; discriminate).
    cbn. rewrite Hs. reflexivity.
  - intros v Hv Hscalar. unfold PacketFilter.do_action, PacketFilter.normalize.
    rewrite Hp, Hv. cbn [negb].
    destruct Hscalar as [-> | Hnum]; [reflexivity|].
    destruct v; try reflexivity; cbn in Hnum; congruence.
Qed.

Lemma packet_filter_on_what_is_no_mapping_witness :
  PacketFilter.do_action Examples.example_world (VStr "hello")
  = Ok Examples.raw_text_packet /\
  PacketFilter.do_action Examples.example_world (VStr "5") = Raise TypeError.
Proof.
  destruct (packet_filter_on_what_is_no_mapping Examples.example_world (VStr "hello"))
    as [Hwrap _]; [reflexivity|].
  destruct (packet_filter_on_what_is_no_mapping Examples.example_world (VStr "5"))
    as [_ Hscalar]; [reflexivity|].
  split; [apply Hwrap; reflexivity|].
  apply (Hscalar (VInt 5)); [reflexivity | right; discriminate].
Defined.

(** ** More on the content filter *)

Lemma search_any_matched w patterns text :
  MessageFilter.search_any w true patterns text = Ok true.
Proof. induction patterns as [|p r IH]; simpl; auto. Qed.

(** The pattern loop stops calling [re.search] at the first match: the
    patterns after a matching one are not evaluated, so one that [re.search]
    would reject does no harm; and patterns that all fail to match give no
    match. *)
Theorem pattern_search_stops_at_the_first_match
  (w : world) (before after : list value) (pattern text : value) :
  (forall p, In p before -> re_search w p text = Ok false) ->
  (re_search w pattern text = Ok true ->
   MessageFilter.search_any w false (before ++ pattern :: after) text = Ok true) /\
  MessageFilter.search_any w false before text = Ok false.
Proof.
  intros Hbefore. induction before as [|p r IH]; simpl.
  - split; [|reflexivity]. intros ->. simpl. apply search_any_matched.
  - rewrite (Hbefore p) by now left. simpl. apply IH.
    intros q Hq. apply Hbefore. now right.
Qed.

Lemma pattern_search_stops_at_the_first_match_witness :
  MessageFilter.search_any Examples.example_world false
    [VStr "^hello"; VStr "(unbalanced"] (VStr "hello") = Ok true /\
  MessageFilter.search_any Examples.example_world false [] (VStr "hello") = Ok false.
Proof.
  destruct (pattern_search_stops_at_the_first_match Examples.example_world
              [] [VStr "(unbalanced"] (VStr "^hello") (VStr "hello")) as [Hmatch Hnone].
  - intros p [].
  - split; [apply Hmatch; reflexivity | exact Hnone].
Defined.

(** Disallow wins over allow: a text that matches a pattern of [message.allow]
    and a pattern of [message.disallow] is dropped. *)
Theorem message_disallow_wins_over_allow
  (w : world) (self : plugin) (packet decoded text message : value)
  (allow disallow : list value) :
  getitem packet "decoded" = Ok decoded ->
  getitem decoded "text" = Ok text ->
  truthy text = true ->
  dict_get "message" (config self) = Some message ->
  getitem message "allow" = Ok (VList allow) ->
  getitem message "disallow" = Ok (VList disallow) ->
  MessageFilter.search_any w false allow text = Ok true ->
  MessageFilter.search_any w false disallow text = Ok true ->
  MessageFilter.do_action w self packet = Ok VNone.
Proof.
  intros Hd Ht Htext Hm Ha Hdis Hallowed Hdenied. unfold MessageFilter.do_action.
  rewrite (getitem_ok_truthy _ _ _ Hd). cbn [negb].
  rewrite Hd. cbn [bind]. rewrite (getitem_ok_contains _ _ _ Ht). cbn [bind].
  rewrite Ht. cbn [bind]. rewrite Htext. unfold dict_mem at 1. rewrite Hm. cbn [andb].
  unfold MessageFilter.message_drops.
  rewrite (getitem_dict_some _ _ _ Hm). cbn [bind].
  rewrite (getitem_ok_contains _ _ _ Ha). cbn [bind]. rewrite Ha. cbn [bind py_iter].
  rewrite Hallowed. cbn [bind negb].
  rewrite (getitem_ok_contains _ _ _ Hdis). cbn [bind]. rewrite Hdis. cbn [bind py_iter].
  rewrite Hdenied. reflexivity.
Qed.

Lemma message_disallow_wins_over_allow_witness :
  MessageFilter.do_action Examples.example_world
    (Examples.configured
       [("message", VDict [("allow", VList [VStr "^hello"]);
                           ("disallow", VList [VStr "ell"])])])
    Examples.hello_packet
  = Ok VNone.
Proof.
  apply (message_disallow_wins_over_allow Examples.example_world _ Examples.hello_packet
           (VDict [("portnum", VStr "TEXT_MESSAGE_APP"); ("text", VStr "hello")])
           (VStr "hello")
           (VDict [("allow", VList [VStr "^hello"]); ("disallow", VList [VStr "ell"])])
           [VStr "^hello"] [VStr "ell"]);
    reflexivity.
Defined.

(** ** More on the geofence *)

(** A comparison mode that is neither [within] nor [outside] disables the
    distance check: with both positions resolved and a numeric threshold, the
    packet is not dropped at any distance. *)
Theorem geofence_unknown_mode_never_drops
  (w : world) (self : plugin) (packet : value)
  (device : option (value * value)) (source current : value * value)
  (distance_km : value) (d t : Q) :
  LocationFilter.device_position self = Ok device ->
  LocationFilter.packet_position packet = Ok (Some source) ->
  LocationFilter.reference_position self device = Ok (Some current) ->
  haversine w source current = Ok distance_km ->
  num_of distance_km = Some d ->
  threshold self t ->
  py_eqb (comparison_mode self) (VStr "within") = false ->
  py_eqb (comparison_mode self) (VStr "outside") = false ->
  LocationFilter.do_action w self packet = LocationFilter.mask_position self packet.
Proof.
  intros Hdev Hsrc Hcur Hh Hd Ht Hw Ho.
  rewrite (geofence_decision w self packet device source current distance_km d t)
    by assumption.
  rewrite Hw, Ho. cbn [andb orb]. now rewrite andb_false_r.
Qed.

Lemma geofence_unknown_mode_never_drops_witness :
  LocationFilter.do_action Examples.example_world (Examples.geofence (VInt 50) "inside")
    Examples.position_packet
  = LocationFilter.mask_position (Examples.geofence (VInt 50) "inside")
      Examples.position_packet.
Proof.
  apply (geofence_unknown_mode_never_drops Examples.example_world
           (Examples.geofence (VInt 50) "inside") Examples.position_packet
           None (VInt 0, VInt 0) (VInt 0, VInt 1)
           (VFloat Examples.equator_degree_km) Examples.equator_degree_km (inject_Z 50));
    try reflexivity.
  exists (VInt 50). split; reflexivity.
Defined.

Lemma dict_set_same_value k v d : dict_get k d = Some v -> dict_set k v d = d.
Proof.
  induction d as [|[k0 v0] r IH]; simpl; [discriminate|].
  destruct (String.eqb k k0) eqn:E.
  - apply String.eqb_eq in E. subst k0. intros H. injection H as ->. reflexivity.
  - intros H. now rewrite IH.
Qed.

Lemma set_position_ok_inv packet field v packet' :
  LocationFilter.set_position packet field v = Ok packet' ->
  exists pd dd posd,
    packet = VDict pd /\
    dict_get "decoded" pd = Some (VDict dd) /\
    dict_get "position" dd = Some (VDict posd) /\
    packet' = VDict (dict_set "decoded"
                       (VDict (dict_set "position" (VDict (dict_set field v posd)) dd)) pd).
Proof.
  unfold LocationFilter.set_position. intros H.
  apply bind_ok_inv in H as (decoded & Hd & H).
  apply bind_ok_inv in H as (position & Hp & H).
  apply getitem_ok_inv in Hd as (pd & -> & Hd).
  apply getitem_ok_inv in Hp as (dd & -> & Hp).
  destruct position; try discriminate.
  cbn in H. injection H as <-.
  exists pd, dd, d. auto.
Qed.

(** Masking a packet whose position is already the configured one changes
    nothing. *)
Lemma mask_position_fixed self pd dd posd :
  dict_get "decoded" pd = Some (VDict dd) ->
  dict_get "position" dd = Some (VDict posd) ->
  (forall v, dict_get "latitude" (config self) = Some v ->
             dict_get "latitude" posd = Some v) ->
  (forall v, dict_get "longitude" (config self) = Some v ->
             dict_get "longitude" posd = Some v) ->
  LocationFilter.mask_position self (VDict pd) = Ok (VDict pd).
Proof.
  intros Hd Hp Hlat Hlon.
  assert (Hset : forall field v, dict_get field posd = Some v ->
            LocationFilter.set_position (VDict pd) field v = Ok (VDict pd)).
  { intros field v Hv. rewrite (set_position_resolved _ _ _ _ _ Hd Hp).
    rewrite (dict_set_same_value field v posd Hv).
    rewrite (dict_set_same_value "position" _ dd Hp).
    now rewrite (dict_set_same_value "decoded" _ pd Hd). }
  unfold LocationFilter.mask_position, dict_mem.
  destruct (dict_get "latitude" (config self)) as [lat|] eqn:Elat.
  - rewrite (getitem_dict_some _ _ _ Elat). cbn [bind].
    rewrite (Hset _ _ (Hlat lat eq_refl)). cbn [bind].
    destruct (dict_get "longitude" (config self)) as [lon|] eqn:Elon; [|reflexivity].
    rewrite (getitem_dict_some _ _ _ Elon). cbn [bind].
    apply Hset, Hlon. reflexivity.
  - cbn [bind].
    destruct (dict_get "longitude" (config self)) as [lon|] eqn:Elon; [|reflexivity].
    rewrite (getitem_dict_some _ _ _ Elon). cbn [bind].
    apply Hset, Hlon. reflexivity.
Qed.

(** Position masking writes the coordinates and nothing else, and masking a
    masked packet changes nothing: on a packet with a mapping
    [decoded.position] the result differs from the packet at most in the
    entries [latitude] and [longitude] of that mapping, and masking the result
    returns it as it is. *)
Theorem position_masking_is_idempotent_and_local
  (self : plugin) (pd dd posd : dict) :
  dict_get "decoded" pd = Some (VDict dd) ->
  dict_get "position" dd = Some (VDict posd) ->
  exists pd' dd' posd',
    LocationFilter.mask_position self (VDict pd) = Ok (VDict pd') /\
    LocationFilter.mask_position self (VDict pd') = Ok (VDict pd') /\
    dict_get "decoded" pd' = Some (VDict dd') /\
    dict_get "position" dd' = Some (VDict posd') /\
    (forall k, k <> "decoded" -> dict_get k pd' = dict_get k pd) /\
    (forall k, k <> "position" -> dict_get k dd' = dict_get k dd) /\
    (forall k, k <> "latitude" -> k <> "longitude" -> dict_get k posd' = dict_get k posd).
Proof.
  intros Hd Hp.
  destruct (mask_position_resolved self pd dd posd Hd Hp)
    as (pd' & dd' & posd' & Hmask & Hd' & Hp' & Hlat & Hlon).
  exists pd', dd', posd'. split; [exact Hmask|].
  split; [now apply (mask_position_fixed self pd' dd' posd')|].
  split; [exact Hd'|]. split; [exact Hp'|].
  clear Hlat Hlon. revert Hmask Hd' Hp'.
  unfold LocationFilter.mask_position, dict_mem.
  assert (Hfield : forall field v p1 d1 q1,
            dict_get "decoded" p1 = Some (VDict d1) ->
            dict_get "position" d1 = Some (VDict q1) ->
            let p2 := dict_set "decoded"
                        (VDict (dict_set "position" (VDict (dict_set field v q1)) d1)) p1 in
            (forall k, k <> "decoded" -> dict_get k p2 = dict_get k p1) /\
            (forall k, k <> "position" ->
               dict_get k (dict_set "position" (VDict (dict_set field v q1)) d1)
               = dict_get k d1) /\
            (forall k, k <> field -> dict_get k (dict_set field v q1) = dict_get k q1)).
  { intros field v p1 d1 q1 _ _. cbn zeta.
    repeat split; intros k Hk; apply dict_get_set_other; congruence. }
  destruct (dict_get "latitude" (config self)) as [lat|] eqn:Elat;
    destruct (dict_get "longitude" (config self)) as [lon|] eqn:Elon.
  - rewrite (getitem_dict_some _ _ _ Elat). cbn [bind].
    rewrite (set_position_resolved _ _ _ _ _ Hd Hp). cbn [bind].
    rewrite (getitem_dict_some _ _ _ Elon). cbn [bind].
    erewrite set_position_resolved by apply dict_get_set_same.
    intros Hmask Hd' Hp'. injection Hmask as <-.
    rewrite dict_get_set_same in Hd'. injection Hd' as <-.
    rewrite dict_get_set_same in Hp'. injection Hp' as <-.
    repeat split; intros k; intros;
      repeat (rewrite dict_get_set_other by congruence); reflexivity.
  - rewrite (getitem_dict_some _ _ _ Elat). cbn [bind].
    rewrite (set_position_resolved _ _ _ _ _ Hd Hp). cbn [bind].
    intros Hmask Hd' Hp'. injection Hmask as <-.
    rewrite dict_get_set_same in Hd'. injection Hd' as <-.
    rewrite dict_get_set_same in Hp'. injection Hp' as <-.
    repeat split; intros k; intros;
      repeat (rewrite dict_get_set_other by congruence); reflexivity.
  - cbn [bind]. rewrite (getitem_dict_some _ _ _ Elon). cbn [bind].
    rewrite (set_position_resolved _ _ _ _ _ Hd Hp).
    intros Hmask Hd' Hp'. injection Hmask as <-.
    rewrite dict_get_set_same in Hd'. injection Hd' as <-.
    rewrite dict_get_set_same in Hp'. injection Hp' as <-.
    repeat split; intros k; intros;
      repeat (rewrite dict_get_set_other by congruence); reflexivity.
  - cbn [bind]. intros Hmask Hd' Hp'. injection Hmask as <-.
    rewrite Hd in Hd'. injection Hd' as <-.
    rewrite Hp in Hp'. injection Hp' as <-.
    repeat split; reflexivity.
Qed.

Lemma position_masking_is_idempotent_and_local_witness :
  exists pd' dd' posd',
    LocationFilter.mask_position Examples.masking_latitude Examples.position_packet
    = Ok (VDict pd') /\
    LocationFilter.mask_position Examples.masking_latitude (VDict pd') = Ok (VDict pd') /\
    dict_get "decoded" pd' = Some (VDict dd') /\
    dict_get "position" dd' = Some (VDict posd') /\
    (forall k, k <> "decoded" ->
       dict_get k pd'
       = dict_get k [("fromId", VStr "!a"); ("toId", VStr "!b");
                     ("decoded", VDict [("portnum", VStr "POSITION_APP");
                                        ("position", VDict [("latitude", VInt 0);
                                                            ("longitude", VInt 0)])])]) /\
    (forall k, k <> "position" ->
       dict_get k dd'
       = dict_get k [("portnum", VStr "POSITION_APP");
                     ("position", VDict [("latitude", VInt 0); ("longitude", VInt 0)])]) /\
    (forall k, k <> "latitude" -> k <> "longitude" ->
       dict_get k posd' = dict_get k [("latitude", VInt 0); ("longitude", VInt 0)]).
Proof.
  apply (position_masking_is_idempotent_and_local Examples.masking_latitude);
    reflexivity.
Defined.

(** ** More on the egress adapters *)

Lemma returns_ret (P : value -> Prop) v : P v -> returns_only P (ret v).
Proof. intros Hv self r H. injection H as <-. exact Hv. Qed.

Lemma returns_bind {A : Type} (P : value -> Prop) (m : M A) (f : A -> M value) :
  (forall a, returns_only P (f a)) -> returns_only P (bindM m f).
Proof.
  intros Hf self r. unfold bindM.
  destruct (m self) as [[a|e] self']; [apply Hf | discriminate].
Qed.

(** Reduction of the goal [returns_only P m] along the structure of [m]. *)
Ltac returns :=
  repeat first
    [ apply returns_bind; intros ?
    | apply returns_ret; solve [auto]
    | match goal with
      | |- returns_only _ (if ?b then _ else _) => destruct b
      | |- returns_only _ (match ?x with _ => _ end) => destruct x
      end ].

(** An egress adapter never alters the packet: whenever it returns, it returns
    the packet it was given, or, for the two broker adapters, the dropped
    marker. *)
Theorem egress_adapters_return_the_packet
  (w : world) (s : stage) (packet : value) (self : plugin) (r : value) :
  In s [debugger; webhook; mqtt_plugin; owntracks_plugin; aprs_plugin;
        radio_message_plugin; nostr_plugin] ->
  fst (do_action w s packet self) = Ok r ->
  r = packet \/ (r = VNone /\ (s = mqtt_plugin \/ s = owntracks_plugin)).
Proof.
  intros Hs. revert self r.
  change (returns_only
            (fun r => r = packet \/ (r = VNone /\ (s = mqtt_plugin \/ s = owntracks_plugin)))
            (do_action w s packet)).
  simpl in Hs.
  destruct Hs as [<- | [<- | [<- | [<- | [<- | [<- | [<- | []]]]]]]]; simpl do_action.
  - intros self r H. injection H as <-. now left.
  - unfold WebhookPlugin.do_action. returns.
  - unfold MQTTPlugin.do_action. returns.
  - unfold OwntracksPlugin.do_action. returns.
  - unfold AprsPlugin.do_action. returns.
  - unfold RadioMessagePlugin.do_action. returns.
  - unfold NoStrPlugin.do_action. returns.
Qed.

Lemma egress_adapters_return_the_packet_witness :
  VNone = Examples.hello_packet \/
  (VNone = VNone /\ (mqtt_plugin = mqtt_plugin \/ mqtt_plugin = owntracks_plugin)).
Proof.
  apply (egress_adapters_return_the_packet Examples.example_world mqtt_plugin
           Examples.hello_packet Examples.broker_down VNone).
  - simpl. auto.
  - reflexivity.
Defined.

Lemma at_of_keeps {A : Type} c (m : M A) : keeps_config m -> keeps_config_at c m.
Proof. intros H self Hc. now rewrite H. Qed.

Lemma at_bind {A B : Type} c (m : M A) (f : A -> M B) :
  keeps_config_at c m -> (forall a, keeps_config_at c (f a)) ->
  keeps_config_at c (bindM m f).
Proof.
  intros Hm Hf self Hc. unfold bindM. specialize (Hm self Hc).
  destruct (m self) as [[a|e] self']; simpl in *; auto.
  now apply Hf.
Qed.

Lemma at_bind_lift {A B : Type} c (r : result A) (f : A -> M B) :
  (forall a, r = Ok a -> keeps_config_at c (f a)) -> keeps_config_at c (bindM (lift r) f).
Proof.
  intros Hf self Hc. unfold bindM, lift.
  destruct r as [a|e]; simpl; auto. now apply (Hf a).
Qed.

Lemma at_bind_get_config {B : Type} c (f : dict -> M B) :
  keeps_config_at c (f c) -> keeps_config_at c (bindM get_config f).
Proof. intros Hf self Hc. unfold bindM, get_config. rewrite Hc. now apply Hf. Qed.

Lemma at_for_each {A : Type} c (l : list A) (body : A -> M unit) :
  (forall a, In a l -> keeps_config_at c (body a)) -> keeps_config_at c (for_each l body).
Proof.
  induction l as [|a r IH]; intros Hb; simpl.
  - apply at_of_keeps, keeps_ret.
  - apply at_bind; [apply Hb; now left | intros _; apply IH].
    intros b Hin. apply Hb. now right.
Qed.

Lemma dict_get_in_nodup k v (h : dict) :
  NoDup (map fst h) -> In (k, v) h -> dict_get k h = Some v.
Proof.
  induction h as [|[k0 v0] r IH]; simpl; [intros _ []|].
  intros Hnd [Heq | Hin].
  - injection Heq as -> ->. now rewrite String.eqb_refl.
  - inversion Hnd as [|? ? Hnotin Hnd']; subst.
    destruct (String.eqb k k0) eqn:E.
    + apply String.eqb_eq in E. subst k0. exfalso. apply Hnotin.
      change k with (fst (k, v)). now apply in_map.
    + now apply IH.
Qed.

(** A text that holds no placeholder of the environment comes out of the
    substitution as it went in. *)
Lemma substitute_environ_without_placeholder env s :
  (forall ek ev, In (ek, ev) env -> str_contains ("{" ++ ek ++ "}") s = false) ->
  substitute_environ env (VStr s) = Ok (VStr s).
Proof.
  induction env as [|[ek ev] rest IH]; intros Hfree; simpl; [reflexivity|].
  pose proof (Hfree ek ev (or_introl eq_refl)) as Hek.
  simpl in Hek. rewrite Hek. simpl.
  apply IH. intros ek' ev' Hin. apply (Hfree ek' ev'). now right.
Qed.

Lemma set_header_fixed c h k v :
  dict_get "headers" c = Some (VDict h) ->
  dict_get k h = Some v ->
  keeps_config_at c (WebhookPlugin.set_header k v).
Proof.
  intros Hh Hk self Hc.
  unfold WebhookPlugin.set_header, bindM, get_config, lift, put_config.
  rewrite Hc. rewrite (getitem_dict_some _ _ _ Hh). cbn.
  rewrite (dict_set_same_value k v h Hk). now apply dict_set_same_value.
Qed.

(** The webhook stage rewrites its configuration only where a header holds a
    placeholder: when every configured header is a text in which no [{NAME}]
    of an environment variable occurs, the configuration is left as it was,
    whatever else the stage does. *)
Theorem webhook_without_placeholders_keeps_its_configuration
  (w : world) (packet : value) (self : plugin) :
  (forall headers, dict_get "headers" (config self) = Some headers ->
     exists h, headers = VDict h /\ NoDup (map fst h) /\
       forall k v, In (k, v) h ->
         exists s, v = VStr s /\
           forall ek ev, In (ek, ev) (environ w) ->
             str_contains ("{" ++ ek ++ "}") s = false) ->
  config (snd (WebhookPlugin.do_action w packet self)) = config self.
Proof.
  intros Hheaders.
  cut (keeps_config_at (config self) (WebhookPlugin.do_action w packet));
    [intros H; now apply H|].
  set (c := config self) in *. clearbody c.
  unfold WebhookPlugin.do_action.
  apply at_bind_get_config.
  apply at_bind_lift. intros inactive _.
  destruct inactive; [apply at_of_keeps, keeps_ret|].
  destruct (negb (dict_mem "body" c)); [apply at_of_keeps, keeps_ret|].
  repeat (apply at_bind_lift; intros ? ?).
  apply at_bind; [|intros _; apply at_of_keeps; keeps].
  apply at_for_each. intros [k v] Hin. cbn [fst snd].
  match goal with
  | Hitems : py_items ?hv = Ok ?items,
    Hhv : (if dict_mem "headers" c then _ else _) = Ok ?hv |- _ =>
      unfold dict_mem in Hhv;
      destruct (dict_get "headers" c) as [headers|] eqn:Eh;
      [ rewrite (getitem_dict_some _ _ _ Eh) in Hhv; injection Hhv as <-;
        destruct (Hheaders headers eq_refl) as (h & -> & Hnd & Hfree);
        cbn in Hitems; injection Hitems as <-
      | injection Hhv as <-; cbn in Hitems; injection Hitems as <-; destruct Hin ]
  end.
  destruct (Hfree k v Hin) as (s & -> & Hs).
  rewrite (substitute_environ_without_placeholder _ _ Hs).
  apply at_bind_lift. intros v' Hv'. injection Hv' as <-.
  apply (set_header_fixed c h); [exact Eh | now apply dict_get_in_nodup].
Qed.

Lemma webhook_without_placeholders_keeps_its_configuration_witness :
  config (snd (WebhookPlugin.do_action Examples.example_world Examples.hello_packet
                 (Examples.configured
                    [("url", VStr "https://example.org/hook"); ("body", VStr "{}");
                     ("headers", VDict [("Accept", VStr "application/json")])])))
  = [("url", VStr "https://example.org/hook"); ("body", VStr "{}");
     ("headers", VDict [("Accept", VStr "application/json")])].
Proof.
  apply (webhook_without_placeholders_keeps_its_configuration Examples.example_world
           Examples.hello_packet
           (Examples.configured
              [("url", VStr "https://example.org/hook"); ("body", VStr "{}");
               ("headers", VDict [("Accept", VStr "application/json")])])).
  intros headers Hh. injection Hh as <-.
  exists [("Accept", VStr "application/json")].
  split; [reflexivity|]. split.
  - constructor; [intros []|constructor].
  - intros k v [Hkv|[]]. injection Hkv as <- <-.
    exists "application/json". split; [reflexivity|].
    intros ek ev [He|[]]. injection He as <- <-. reflexivity.
Defined.

(** ** The calls on the collaborators *)

Lemma emits_nothing {A : Type} (P : call -> Prop) (m : M A) :
  (forall self, calls (snd (m self)) = calls self) -> emits P m.
Proof. intros H self. exists []. rewrite H, app_nil_r. now split. Qed.

Lemma emits_ret {A : Type} P (a : A) : emits P (ret a).
Proof. now apply emits_nothing. Qed.

Lemma emits_lift {A : Type} P (r : result A) : emits P (lift r).
Proof. now apply emits_nothing. Qed.

Lemma emits_reading {A : Type} P (f : plugin -> result A) : emits P (reading f).
Proof. now apply emits_nothing. Qed.

Lemma emits_get_self P : emits P get_self.
Proof. now apply emits_nothing. Qed.

Lemma emits_get_config P : emits P get_config.
Proof. now apply emits_nothing. Qed.

Lemma emits_put_config P c : emits P (put_config c).
Proof. now apply emits_nothing. Qed.

Lemma emits_put_telemetry_seq P n : emits P (put_telemetry_seq n).
Proof. now apply emits_nothing. Qed.

Lemma emits_perform (P : call -> Prop) w c : P c -> emits P (perform w c).
Proof. intros Hc self. exists [c]. split; [reflexivity | now constructor]. Qed.

Lemma emits_bind {A B : Type} P (m : M A) (f : A -> M B) :
  emits P m -> (forall a, emits P (f a)) -> emits P (bindM m f).
Proof.
  intros Hm Hf self. unfold bindM. destruct (Hm self) as (l1 & E1 & F1).
  destruct (m self) as [[a|e] self']; simpl in *.
  - destruct (Hf a self') as (l2 & E2 & F2). exists (l1 ++ l2).
    rewrite E2, E1, app_assoc. split; [reflexivity | now apply Forall_app].
  - now exists l1.
Qed.

Lemma emits_bind_lift {A B : Type} P (r : result A) (f : A -> M B) :
  (forall a, r = Ok a -> emits P (f a)) -> emits P (bindM (lift r) f).
Proof.
  intros Hf self. unfold bindM, lift. destruct r as [a|e].
  - now apply (Hf a).
  - exists []. simpl. rewrite app_nil_r. now split.
Qed.

Lemma emits_for_each {A : Type} P (l : list A) (body : A -> M unit) :
  (forall a, emits P (body a)) -> emits P (for_each l body).
Proof.
  intros Hb. induction l as [|a r IH]; simpl.
  - apply emits_ret.
  - apply emits_bind; [apply Hb | intros _; exact IH].
Qed.

Lemma emits_try {A : Type} P (m : M A) (e : exn) (handler : M A) :
  emits P m -> emits P handler -> emits P (try_exceptM m e handler).
Proof.
  intros Hm Hh self. unfold try_exceptM. destruct (Hm self) as (l1 & E1 & F1).
  destruct (m self) as [[a|e'] self']; simpl in *; [now exists l1|].
  destruct (exn_eqb e e'); [|now exists l1].
  destruct (Hh self') as (l2 & E2 & F2). exists (l1 ++ l2).
  rewrite E2, E1, app_assoc. split; [reflexivity | now apply Forall_app].
Qed.

(** Reduction of the goal [emits P m] along the structure of [m]. *)
Ltac emits :=
  repeat first
    [ apply emits_ret
    | apply emits_lift
    | apply emits_reading
    | apply emits_get_self
    | apply emits_get_config
    | apply emits_put_config
    | apply emits_put_telemetry_seq
    | apply emits_perform; exact I
    | apply emits_bind; [|intros ?]
    | apply emits_for_each; intros ?
    | apply emits_try
    | match goal with
      | |- emits _ (if ?b then _ else _) => destruct b
      | |- emits _ (match ?x with _ => _ end) => destruct x
      end ].

(** Every stage keeps the record of the calls made so far, and adds to it
    calls on its own collaborator only: the filters call nothing, the webhook
    stage posts requests, the two broker stages publish, the APRS stage sends
    frames, the re-transmitter sends on the radio and the relay-network stage
    opens, publishes and closes. *)
Theorem stages_call_only_their_collaborator
  (w : world) (s : stage) (packet : value) (self : plugin) :
  exists made,
    calls (snd (do_action w s packet self)) = (calls self ++ made)%list /\
    Forall (call_of s) made.
Proof.
  revert self. change (emits (call_of s) (do_action w s packet)).
  destruct s; simpl do_action; try apply emits_reading.
  - unfold WebhookPlugin.do_action, WebhookPlugin.set_header. emits.
  - unfold MQTTPlugin.do_action. emits.
  - unfold OwntracksPlugin.do_action. emits.
  - unfold AprsPlugin.do_action, AprsPlugin.report_self_position,
      AprsPlugin.report_position, AprsPlugin.encode_igate_telemetry. emits.
  - unfold RadioMessagePlugin.do_action. emits.
  - unfold NoStrPlugin.do_action, NoStrPlugin.use_environment_variable. emits.
Qed.

(** A text that came in from the radio is not sent out as a text: for a packet
    with a ["from"] entry the re-transmitter makes no [sendText] call,
    whatever the configuration. *)
Theorem radio_text_is_not_echoed
  (w : world) (packet : value) (self : plugin) :
  contains "from" packet = Ok true ->
  exists made,
    calls (snd (RadioMessagePlugin.do_action w packet self)) = (calls self ++ made)%list /\
    Forall (fun c => match c with SendText _ _ _ => False | _ => True end) made.
Proof.
  intros Hfrom. revert self.
  change (emits (fun c => match c with SendText _ _ _ => False | _ => True end)
            (RadioMessagePlugin.do_action w packet)).
  unfold RadioMessagePlugin.do_action.
  apply emits_bind; [apply emits_get_self | intros self].
  apply emits_bind; [apply emits_lift | intros device_name].
  apply emits_bind; [apply emits_lift | intros known].
  destruct (negb known); [apply emits_ret|].
  apply emits_bind; [apply emits_lift | intros destinationId].
  destruct (negb (truthy destinationId)); [apply emits_ret|].
  apply emits_bind; [apply emits_lift | intros device_name'].
  apply emits_bind; [apply emits_lift | intros _].
  apply emits_bind_lift. intros is_text His_text.
  assert (is_text = false) as ->.
  { rewrite Hfrom in His_text. unfold and_then in His_text. cbn [bind negb] in His_text.
    destruct (contains "decoded" packet) as [[|]|]; try discriminate;
      [|now injection His_text].
    destruct (bind (getitem packet "decoded") _) as [[|]|]; try discriminate;
      now injection His_text. }
  emits.
Qed.

Lemma radio_text_is_not_echoed_witness :
  exists made,
    calls (snd (RadioMessagePlugin.do_action Examples.example_world
                  (VDict [("from", VInt 2); ("to", VInt 3);
                          ("decoded", VDict [("text", VStr "hello")])])
                  {| config := [("device", VStr "local"); ("lat", VInt 52); ("lng", VInt 13)];
                     devices := [("local", Examples.radio)];
                     mqtt_servers := []; interface := None;
                     telemetry_seq := AprsPlugin.initial_telemetry_seq;
                     calls := [] |}))
    = ([] ++ made)%list /\
    Forall (fun c => match c with SendText _ _ _ => False | _ => True end) made.
Proof.
  apply (radio_text_is_not_echoed Examples.example_world
           (VDict [("from", VInt 2); ("to", VInt 3);
                   ("decoded", VDict [("text", VStr "hello")])])).
  reflexivity.
Defined.

(** ** Prerequisites and delivery of the adapters *)

(** Missing prerequisites of the other adapters.  An inactive webhook stage or
    one without a body, a relay-network stage without one of its keys, a
    re-transmitter whose device is not connected and a position publisher
    without one of its options or given a packet with no or an unlisted sender
    all return the packet as it is, make no call and leave the stage object as
    it was, whatever else is configured. *)
Theorem adapters_pass_without_prerequisites
  (w : world) (self : plugin) (packet : value) :
  (forall active, dict_get "active" (config self) = Some active -> truthy active = false ->
     WebhookPlugin.do_action w packet self = (Ok packet, self)) /\
  (dict_get "active" (config self) = None -> dict_get "body" (config self) = None ->
     WebhookPlugin.do_action w packet self = (Ok packet, self)) /\
  (missing_option ["private_key"; "public_key"] (config self) = true ->
     NoStrPlugin.do_action w packet self = (Ok packet, self)) /\
  (forall name : string,
     dict_get "device" (config self) = Some (VStr name) ->
     assoc name (devices self) = None ->
     RadioMessagePlugin.do_action w packet self = (Ok packet, self)) /\
  (missing_option ["tid_table"; "server_name"] (config self) = true ->
     OwntracksPlugin.do_action w packet self = (Ok packet, self)) /\
  (forall tid_table,
     dict_get "tid_table" (config self) = Some tid_table ->
     dict_mem "server_name" (config self) = true ->
     contains "from" packet = Ok false \/
     (exists from, getitem packet "from" = Ok from /\
                   contains "from" packet = Ok true /\
                   py_in (VStr (str_of w from)) tid_table = Ok false) ->
     OwntracksPlugin.do_action w packet self = (Ok packet, self)).
Proof.
  repeat split.
  - intros active Hactive Hfalse.
    unfold WebhookPlugin.do_action, bindM, get_config, lift, ret, contains. cbn [py_in].
    unfold dict_mem at 1. rewrite Hactive. unfold and_then. cbn [bind].
    rewrite (getitem_dict_some _ _ _ Hactive). cbn [bind]. now rewrite Hfalse.
  - intros Hactive Hbody.
    unfold WebhookPlugin.do_action, bindM, get_config, lift, ret, contains. cbn [py_in].
    unfold dict_mem. rewrite Hactive, Hbody. reflexivity.
  - intros Hmissing. unfold NoStrPlugin.do_action, bindM, get_config, ret.
    now rewrite Hmissing.
  - intros name Hname Hdevice.
    unfold RadioMessagePlugin.do_action, bindM, get_self, lift, ret.
    rewrite (getitem_dict_some _ _ _ Hname). unfold registry_has. now rewrite Hdevice.
  - intros Hmissing. unfold OwntracksPlugin.do_action, bindM, get_self, ret.
    now rewrite Hmissing.
  - intros tid_table Htable Hserver Hsender.
    unfold OwntracksPlugin.do_action, bindM, get_self, lift, ret, missing_option.
    cbn [existsb]. unfold dict_mem at 1. rewrite Htable, Hserver. cbn [negb orb].
    rewrite (getitem_dict_some _ _ _ Htable).
    destruct Hsender as [Hfrom | (from & Hget & Hfrom & Hin)]; rewrite Hfrom; cbn [negb].
    + reflexivity.
    + rewrite Hget, Hin. reflexivity.
Qed.

Lemma adapters_pass_without_prerequisites_witness :
  WebhookPlugin.do_action Examples.example_world Examples.hello_packet
    (Examples.configured [("active", VBool false)])
  = (Ok Examples.hello_packet, Examples.configured [("active", VBool false)]) /\
  RadioMessagePlugin.do_action Examples.example_world Examples.hello_packet
    (Examples.configured [("device", VStr "local")])
  = (Ok Examples.hello_packet, Examples.configured [("device", VStr "local")]) /\
  OwntracksPlugin.do_action Examples.example_world Examples.neighbour_position
    Examples.owntracks_down
  = (Ok Examples.neighbour_position, Examples.owntracks_down).
Proof.
  split; [|split].
  - apply (adapters_pass_without_prerequisites Examples.example_world
             (Examples.configured [("active", VBool false)]) Examples.hello_packet)
      with (active := VBool false); reflexivity.
  - apply (adapters_pass_without_prerequisites Examples.example_world
             (Examples.configured [("device", VStr "local")]) Examples.hello_packet)
      with (name := "local"); reflexivity.
  - apply (adapters_pass_without_prerequisites Examples.example_world
             Examples.owntracks_down Examples.neighbour_position)
      with (tid_table := VDict [("1234", VList [VStr "alice"; VStr "al"])]);
      try reflexivity.
    right. exists (VInt 2). repeat split; reflexivity.
Defined.

(** Delivery by the broker publisher.  With a name, a topic and a connected
    broker, the stage serializes the packet first: when [json.dumps] raises,
    the stage raises the same and publishes nothing, even where a message
    template makes the serialized packet unnecessary.  Otherwise it publishes
    on the configured topic and then waits for the publication, in this order;
    the message is the serialized packet or, with a template, the template with
    every [{MSG}] replaced by the text of the packet. *)
Theorem broker_publisher_delivers
  (w : world) (self : plugin) (packet : value)
  (name : string) (topic : value) (server : mqtt_client) :
  dict_get "name" (config self) = Some (VStr name) ->
  dict_get "topic" (config self) = Some topic ->
  assoc name (mqtt_servers self) = Some server ->
  is_connected server = true ->
  (forall e, json_dumps w packet = Raise e ->
     MQTTPlugin.do_action w packet self = (Raise e, self)) /\
  (forall serialized message,
     json_dumps w packet = Ok serialized ->
     (dict_get "message" (config self) = None /\ message = VStr serialized) \/
     (exists template decoded text,
        dict_get "message" (config self) = Some (VStr template) /\
        getitem packet "decoded" = Ok decoded /\
        getitem decoded "text" = Ok (VStr text) /\
        message = VStr (str_replace "{MSG}" text template)) ->
     is_ok (respond w (MqttPublish (VStr name) topic message)) = true ->
     is_ok (respond w (MqttWaitForPublish (VStr name))) = true ->
     MQTTPlugin.do_action w packet self
     = (Ok packet,
        with_call (MqttWaitForPublish (VStr name))
          (with_call (MqttPublish (VStr name) topic message) self))).
Proof.
  intros Hname Htopic Hserver Hconnected.
  assert (Hstart :
            MQTTPlugin.do_action w packet self
            = bindM (lift (json_dumps w packet))
                (fun packet_message =>
                   bindM (lift
                     (if dict_mem "message" (config self) then
                        bind (getitem (VDict (config self)) "message") (fun template =>
                          replace_method template "{MSG}"
                            (bind (getitem packet "decoded") (fun decoded =>
                               getitem decoded "text")))
                      else Ok (VStr packet_message)))
                     (fun message =>
                        bindM (lift (getitem (VDict (config self)) "topic")) (fun topic =>
                          bindM (perform w (MqttPublish (VStr name) topic message)) (fun _ =>
                            bindM (perform w (MqttWaitForPublish (VStr name))) (fun _ =>
                              ret packet))))) self).
  { unfold MQTTPlugin.do_action, missing_option. cbn [existsb]. unfold dict_mem at 1 2.
    unfold bindM at 1. unfold get_self at 1.
    rewrite Hname, Htopic. cbn [negb orb].
    unfold bindM at 1. unfold lift at 1. rewrite (getitem_dict_some _ _ _ Hname).
    unfold bindM at 1. unfold lift at 1. unfold registry_has. rewrite Hserver. cbn [negb].
    unfold bindM at 1. unfold lift at 1. unfold registry_get. rewrite Hserver, Hconnected.
    reflexivity. }
  rewrite Hstart. clear Hstart.
  split.
  - intros e He. unfold bindM, lift. now rewrite He.
  - intros serialized message Hjson Hmessage Hpublish Hwait.
    unfold bindM, lift, perform, ret. rewrite Hjson.
    rewrite (getitem_dict_some _ _ _ Htopic).
    destruct Hmessage as [[Hnone ->] | (template & decoded & text & Htpl & Hd & Ht & ->)].
    + unfold dict_mem. rewrite Hnone.
      destruct (respond w (MqttPublish (VStr name) topic (VStr serialized)));
        [|discriminate].
      destruct (respond w (MqttWaitForPublish (VStr name))); [reflexivity|discriminate].
    + unfold dict_mem. rewrite Htpl. rewrite (getitem_dict_some _ _ _ Htpl).
      cbn [bind replace_method]. rewrite Hd. cbn [bind]. rewrite Ht. cbn [bind].
      destruct (respond w (MqttPublish (VStr name) topic
                             (VStr (str_replace "{MSG}" text template))));
        [|discriminate].
      destruct (respond w (MqttWaitForPublish (VStr name))); [reflexivity|discriminate].
Qed.

Lemma broker_publisher_delivers_witness :
  MQTTPlugin.do_action Examples.example_world Examples.bytes_packet
    {| config := [("name", VStr "external"); ("topic", VStr "mesh/out");
                  ("message", VStr "text: {MSG}")];
       devices := []; mqtt_servers := [("external", {| is_connected := true |})];
       interface := None; telemetry_seq := AprsPlugin.initial_telemetry_seq; calls := [] |}
  = (Raise TypeError,
     {| config := [("name", VStr "external"); ("topic", VStr "mesh/out");
                   ("message", VStr "text: {MSG}")];
        devices := []; mqtt_servers := [("external", {| is_connected := true |})];
        interface := None; telemetry_seq := AprsPlugin.initial_telemetry_seq;
        calls := [] |}) /\
  MQTTPlugin.do_action Examples.example_world Examples.hello_packet
    {| config := [("name", VStr "external"); ("topic", VStr "mesh/out");
                  ("message", VStr "text: {MSG}")];
       devices := []; mqtt_servers := [("external", {| is_connected := true |})];
       interface := None; telemetry_seq := AprsPlugin.initial_telemetry_seq; calls := [] |}
  = (Ok Examples.hello_packet,
     {| config := [("name", VStr "external"); ("topic", VStr "mesh/out");
                   ("message", VStr "text: {MSG}")];
        devices := []; mqtt_servers := [("external", {| is_connected := true |})];
        interface := None; telemetry_seq := AprsPlugin.initial_telemetry_seq;
        calls := [MqttPublish (VStr "external") (VStr "mesh/out") (VStr "text: hello");
                  MqttWaitForPublish (VStr "external")] |}).
Proof.
  split.
  - apply (broker_publisher_delivers Examples.example_world _ Examples.bytes_packet
             "external" (VStr "mesh/out") {| is_connected := true |});
      reflexivity.
  - apply (broker_publisher_delivers Examples.example_world
             {| config := [("name", VStr "external"); ("topic", VStr "mesh/out");
                           ("message", VStr "text: {MSG}")];
                devices := []; mqtt_servers := [("external", {| is_connected := true |})];
                interface := None; telemetry_seq := AprsPlugin.initial_telemetry_seq;
                calls := [] |}
             Examples.hello_packet
             "external" (VStr "mesh/out") {| is_connected := true |}
             eq_refl eq_refl eq_refl eq_refl)
      with (serialized := Examples.hello_packet_json) (message := VStr "text: hello");
      try reflexivity.
    right. exists "text: {MSG}",
      (VDict [("portnum", VStr "TEXT_MESSAGE_APP"); ("text", VStr "hello")]), "hello".
    repeat split; reflexivity.
Defined.

(** ** More on the position publisher *)

Lemma from_radio_resolved pd dd posd lat :
  dict_get "decoded" pd = Some (VDict dd) ->
  dict_get "position" dd = Some (VDict posd) ->
  dict_get "latitude" posd = Some lat ->
  OwntracksPlugin.from_radio (VDict pd) = Ok (negb (py_eqb lat (VInt 0))).
Proof.
  intros Hd Hp Hl. unfold OwntracksPlugin.from_radio, and_then, contains. cbn [py_in].
  unfold dict_mem. rewrite Hd. cbn [bind].
  rewrite (getitem_dict_some _ _ _ Hd). cbn [bind py_in]. unfold dict_mem. rewrite Hp.
  rewrite (getitem_dict_some _ _ _ Hp). cbn [bind py_in]. unfold dict_mem. rewrite Hl.
  rewrite (getitem_dict_some _ _ _ Hl). reflexivity.
Qed.

(** Position reports that came from the radio, for a sender listed in the
    identifier table.  A report whose latitude equals 0 counts as no fix: unless
    it also has the shape of a broker message, the packet is passed on and
    nothing is published.  Any other report is published once, without waiting,
    on the topic of the listed user, as the serialized location record: its
    constant entries, the listed tracker identifier, the coordinates, the time
    of the fix, the time of reception and, when it is reported, the altitude. *)
Theorem position_publisher_reports_radio_fixes
  (w : world) (self : plugin) (pd dd posd : dict)
  (tid_table from entry lat : value) :
  dict_get "tid_table" (config self) = Some tid_table ->
  dict_get "from" pd = Some from ->
  py_in (VStr (str_of w from)) tid_table = Ok true ->
  getitem tid_table (str_of w from) = Ok entry ->
  dict_get "decoded" pd = Some (VDict dd) ->
  dict_get "position" dd = Some (VDict posd) ->
  dict_get "latitude" posd = Some lat ->
  (forall tid,
     dict_mem "server_name" (config self) = true ->
     py_index entry 1 = Ok tid ->
     py_eqb lat (VInt 0) = true ->
     dict_get "type" pd = None ->
     OwntracksPlugin.do_action w (VDict pd) self = (Ok (VDict pd), self)) /\
  (forall tid user lon tst created_at server_name server text,
     py_index entry 1 = Ok tid ->
     py_index entry 0 = Ok (VStr user) ->
     py_eqb lat (VInt 0) = false ->
     dict_get "longitude" posd = Some lon ->
     dict_get "time" posd = Some tst ->
     dict_get "rxTime" pd = Some created_at ->
     dict_get "server_name" (config self) = Some (VStr server_name) ->
     assoc server_name (mqtt_servers self) = Some server ->
     is_connected server = true ->
     json_dumps w
       (VDict ([("_type", VStr "location"); ("bs", VInt 0); ("tid", tid);
                ("lat", lat); ("lon", lon); ("tst", tst); ("created_at", created_at)]
               ++ match dict_get "altitude" posd with
                  | Some alt => [("alt", alt)]
                  | None => []
                  end)) = Ok text ->
     is_ok (respond w (MqttPublish (VStr server_name)
                         (VStr ("owntracks/user/" ++ user)) (VStr text))) = true ->
     OwntracksPlugin.do_action w (VDict pd) self
     = (Ok (VDict pd),
        with_call (MqttPublish (VStr server_name)
                     (VStr ("owntracks/user/" ++ user)) (VStr text)) self)).
Proof.
  intros Htable Hfrom Hin Hentry Hd Hp Hl.
  pose proof (from_radio_resolved _ _ _ _ Hd Hp Hl) as Hradio.
  split.
  - intros tid Hserver Htid Hzero Htype.
    unfold OwntracksPlugin.do_action, bindM, get_self, lift, ret, missing_option.
    cbn [existsb]. unfold dict_mem at 1. rewrite Htable, Hserver. cbn [negb orb].
    rewrite (getitem_dict_some _ _ _ Htable).
    unfold contains at 1. cbn [py_in]. unfold dict_mem at 1. rewrite Hfrom. cbn [negb].
    rewrite (getitem_dict_some _ _ _ Hfrom), Hin. cbn [negb].
    rewrite Hentry, Htid, Hradio, Hzero. cbn [negb].
    unfold OwntracksPlugin.from_mqtt, and_then, contains. cbn [py_in].
    unfold dict_mem. rewrite Htype. reflexivity.
  - intros tid user lon tst created_at server_name server text
      Htid Huser Hnonzero Hlon Htst Hrx Hname Hserver Hconnected Hjson Hpublish.
    unfold OwntracksPlugin.do_action, bindM, get_self, lift, ret, perform, missing_option.
    cbn [existsb]. unfold dict_mem at 1 2. rewrite Htable, Hname. cbn [negb orb].
    rewrite (getitem_dict_some _ _ _ Htable).
    unfold contains at 1. cbn [py_in]. unfold dict_mem at 1. rewrite Hfrom. cbn [negb].
    rewrite (getitem_dict_some _ _ _ Hfrom), Hin. cbn [negb].
    rewrite Hentry, Htid, Hradio, Hnonzero. cbn [negb andb].
    unfold OwntracksPlugin.radio_message.
    rewrite (getitem_dict_some _ _ _ Hd). cbn [bind].
    rewrite (getitem_dict_some _ _ _ Hp). cbn [bind].
    rewrite (getitem_dict_some _ _ _ Hl), (getitem_dict_some _ _ _ Hlon),
      (getitem_dict_some _ _ _ Htst), (getitem_dict_some _ _ _ Hrx). cbn [bind].
    unfold contains. cbn [py_in]. unfold dict_mem.
    rewrite (getitem_dict_some _ _ _ Hname).
    unfold registry_has, registry_get. rewrite Hserver, Hconnected. cbn [negb].
    rewrite Huser. cbn [str_add].
    destruct (dict_get "altitude" posd) as [alt|] eqn:Ealt; cbn [bind].
    + rewrite (getitem_dict_some _ _ _ Ealt). cbn [bind].
      match goal with
      | |- context [json_dumps w ?m] =>
          change m with
            (VDict ([("_type", VStr "location"); ("bs", VInt 0); ("tid", tid);
                     ("lat", lat); ("lon", lon); ("tst", tst);
                     ("created_at", created_at)] ++ [("alt", alt)]))
      end.
      rewrite Hjson.
      destruct (respond w _); [reflexivity | discriminate].
    + match goal with
      | |- context [json_dumps w ?m] =>
          change m with
            (VDict ([("_type", VStr "location"); ("bs", VInt 0); ("tid", tid);
                     ("lat", lat); ("lon", lon); ("tst", tst);
                     ("created_at", created_at)] ++ []))
      end.
      rewrite Hjson.
      destruct (respond w _); [reflexivity | discriminate].
Qed.

Lemma position_publisher_reports_radio_fixes_witness :
  OwntracksPlugin.do_action Scenarios.world_with_records Scenarios.no_fix_packet
    Scenarios.owntracks_up
  = (Ok Scenarios.no_fix_packet, Scenarios.owntracks_up) /\
  OwntracksPlugin.do_action Scenarios.world_with_records Examples.owntracks_packet
    Scenarios.owntracks_up
  = (Ok Examples.owntracks_packet,
     with_call (MqttPublish (VStr "external") (VStr "owntracks/user/alice")
                  (VStr Scenarios.location_record_json))
       Scenarios.owntracks_up).
Proof.
  split.
  - apply (position_publisher_reports_radio_fixes Scenarios.world_with_records
             Scenarios.owntracks_up
             [("from", VInt 1234);
              ("decoded", VDict [("portnum", VStr "POSITION_APP");
                                 ("position", VDict [("latitude", VInt 0)])])]
             [("portnum", VStr "POSITION_APP"); ("position", VDict [("latitude", VInt 0)])]
             [("latitude", VInt 0)]
             (VDict [("1234", VList [VStr "alice"; VStr "al"])])
             (VInt 1234) (VList [VStr "alice"; VStr "al"]) (VInt 0)
             eq_refl eq_refl eq_refl eq_refl eq_refl eq_refl eq_refl)
      with (tid := VStr "al"); reflexivity.
  - apply (position_publisher_reports_radio_fixes Scenarios.world_with_records
             Scenarios.owntracks_up
             [("from", VInt 1234); ("rxTime", VInt 1700000000);
              ("decoded", VDict [("portnum", VStr "POSITION_APP");
                                 ("position", VDict [("latitude", VInt 52);
                                                     ("longitude", VInt 13);
                                                     ("time", VInt 1700000000)])])]
             [("portnum", VStr "POSITION_APP");
              ("position", VDict [("latitude", VInt 52); ("longitude", VInt 13);
                                  ("time", VInt 1700000000)])]
             [("latitude", VInt 52); ("longitude", VInt 13); ("time", VInt 1700000000)]
             (VDict [("1234", VList [VStr "alice"; VStr "al"])])
             (VInt 1234) (VList [VStr "alice"; VStr "al"]) (VInt 52)
             eq_refl eq_refl eq_refl eq_refl eq_refl eq_refl eq_refl)
      with (tid := VStr "al") (lon := VInt 13) (tst := VInt 1700000000)
           (created_at := VInt 1700000000) (server := {| is_connected := true |});
      reflexivity.
Defined.

(** ** More on the APRS stage *)

Lemma online_count_bounds (w : world) (nodes : list value) (cnt : Z) :
  AprsPlugin.online_count w nodes = Ok cnt -> 0 <= cnt <= Z.of_nat (List.length nodes).
Proof.
  revert cnt. induction nodes as [|n rest IH]; intros cnt H.
  - injection H as <-. simpl. lia.
  - cbn [AprsPlugin.online_count] in H.
    apply bind_ok_inv in H as (lastHeard & _ & H).
    apply bind_ok_inv in H as (online & _ & H).
    apply bind_ok_inv in H as (cnt' & Hrest & H).
    injection H as <-. specialize (IH _ Hrest).
    cbn [List.length]. destruct online; lia.
Qed.

Lemma online_count_returns (w : world) (nodes : list value) :
  Forall (fun n => exists d, n = VDict d /\
                   forall t, dict_get "lastHeard" d = Some t -> num_of t <> None) nodes ->
  exists cnt, AprsPlugin.online_count w nodes = Ok cnt.
Proof.
  induction 1 as [|n rest (d & -> & Hnum) _ (cnt & IH)]; [now exists 0|].
  cbn [AprsPlugin.online_count bind]. rewrite IH.
  unfold py_gt.
  destruct (dict_get "lastHeard" d) as [t|] eqn:Et.
  - specialize (Hnum t eq_refl). destruct (num_of t) as [q|]; [|contradiction].
    cbn [num_of bind]. eauto.
  - cbn [num_of bind]. eauto.
Qed.

(** The telemetry of the gateway: when every node of the directory is a
    mapping whose [lastHeard], where present, is a number, the stage returns
    two counts, the nodes heard in the last two hours and all nodes, and the
    first lies between 0 and the second, which is the size of the directory
    with its unknown nodes. *)
Theorem igate_telemetry_counts (w : world) (iface : mesh_interface) :
  Forall (fun kv => exists d, snd kv = VDict d /\
                    forall t, dict_get "lastHeard" d = Some t -> num_of t <> None)
         (nodesByNum iface) ->
  exists online_cnt,
    AprsPlugin.get_igate_telemetry w iface
    = Ok [online_cnt; Z.of_nat (List.length (nodesByNum iface))] /\
    0 <= online_cnt <= Z.of_nat (List.length (nodesByNum iface)).
Proof.
  intros Hnodes. unfold AprsPlugin.get_igate_telemetry.
  destruct (online_count_returns w (map snd (nodesByNum iface))) as (cnt & Hcnt).
  { apply Forall_map. exact Hnodes. }
  exists cnt. rewrite Hcnt. cbn [bind]. rewrite length_map. split; [reflexivity|].
  apply online_count_bounds in Hcnt. now rewrite length_map in Hcnt.
Qed.

Lemma igate_telemetry_counts_witness :
  exists online_cnt,
    AprsPlugin.get_igate_telemetry Examples.example_world Examples.radio
    = Ok [online_cnt; Z.of_nat (List.length (nodesByNum Examples.radio))] /\
    0 <= online_cnt <= Z.of_nat (List.length (nodesByNum Examples.radio)).
Proof.
  apply (igate_telemetry_counts Examples.example_world Examples.radio).
  repeat constructor.
  - exists [("lastHeard", VInt 1700000001)]. split; [reflexivity|].
    intros t Ht. injection Ht as <-. discriminate.
  - exists [("user", VDict [("longName", VStr "Backpack")])]. split; [reflexivity|].
    intros t Ht. discriminate Ht.
Defined.

Lemma concat_empty_cons (s : string) (l : list string) :
  concat "" (s :: l) = (s ++ concat "" l)%string.
Proof.
  destruct l as [|x r]; [|reflexivity].
  simpl. induction s as [|a s IH]; [reflexivity|]. simpl. now rewrite <- IH.
Qed.

Lemma list_ascii_of_string_app (s t : string) :
  list_ascii_of_string (s ++ t) = (list_ascii_of_string s ++ list_ascii_of_string t)%list.
Proof. induction s as [|a s IH]; simpl; [reflexivity | now rewrite IH]. Qed.

Lemma encode_all_in_range (values : list Z) :
  Forall (fun v => 0 <= v <= 8280) values ->
  exists encoded,
    AprsPlugin.encode_all values = Ok encoded /\
    String.length (concat "" encoded) = (2 * List.length values)%nat /\
    Forall (fun a => 33 <= Z.of_N (N_of_ascii a) <= 123)
           (list_ascii_of_string (concat "" encoded)).
Proof.
  induction 1 as [|v rest Hv _ (encoded & Henc & Hlen & Hchars)].
  - exists []. repeat split. constructor.
  - eexists. cbn [AprsPlugin.encode_all]. rewrite (base91_encode_in_range v Hv), Henc.
    cbn [bind]. split; [reflexivity|].
    rewrite concat_empty_cons.
    assert (H1 : 0 <= v / 91 < 91).
    { split; [apply Z.div_pos; lia | apply Z.div_lt_upper_bound; lia]. }
    assert (H2 : 0 <= v mod 91 < 91) by (apply Z.mod_pos_bound; lia).
    split.
    + cbn [append String.length List.length]. rewrite Hlen. lia.
    + cbn [append list_ascii_of_string].
      constructor; [rewrite ord_chr_ascii; lia|].
      constructor; [rewrite ord_chr_ascii; lia|]. exact Hchars.
Qed.

(** The telemetry field is well delimited: for counts from 0 to 8280, and
    whatever the sequence counter holds, the stage returns the field as two
    delimiters around two characters for the counter and two for every count,
    each of them printable and none of them the delimiter. *)
Theorem telemetry_field_is_well_delimited (values : list Z) (self : plugin) :
  Forall (fun v => 0 <= v <= 8280) values ->
  exists body,
    fst (AprsPlugin.encode_igate_telemetry values self) = Ok ("|" ++ body ++ "|")%string /\
    String.length body = (2 * (List.length values + 1))%nat /\
    Forall (fun a => 33 <= Z.of_N (N_of_ascii a) <= 123) (list_ascii_of_string body) /\
    ~ In "|"%char (list_ascii_of_string body).
Proof.
  intros Hvalues.
  pose proof (Z.mod_pos_bound (telemetry_seq self + 1) 1000 ltac:(lia)) as Hseq.
  destruct (encode_all_in_range ((telemetry_seq self + 1) mod 1000 :: values))
    as (encoded & Henc & Hlen & Hchars).
  { constructor; [lia | exact Hvalues]. }
  exists (concat "" encoded).
  unfold AprsPlugin.encode_igate_telemetry, bindM, get_self, put_telemetry_seq, lift, ret.
  rewrite Henc. cbn [fst]. split; [reflexivity|].
  split; [rewrite Hlen; cbn [List.length]; lia|].
  split; [exact Hchars|].
  intros Hin. rewrite Forall_forall in Hchars. apply Hchars in Hin.
  vm_compute in Hin. destruct Hin as [_ Hle]. now apply Hle.
Qed.

Lemma telemetry_field_is_well_delimited_witness :
  exists body,
    fst (AprsPlugin.encode_igate_telemetry [1; 2] Examples.aprs_stage)
    = Ok ("|" ++ body ++ "|")%string /\
    String.length body = (2 * (List.length [1; 2] + 1))%nat /\
    Forall (fun a => 33 <= Z.of_N (N_of_ascii a) <= 123) (list_ascii_of_string body) /\
    ~ In "|"%char (list_ascii_of_string body).
Proof.
  apply (telemetry_field_is_well_delimited [1; 2] Examples.aprs_stage).
  repeat constructor; lia.
Defined.

(** The beacon of the gateway itself.  Whenever [report_self_position]
    returns, it has sent the position beacon of the gateway, under its
    callsign and with the telemetry field appended to the configured comment,
    and before it, when and only when the sequence counter still held its
    startup value, the announcement of the telemetry parameters; the counter
    has moved to its successor modulo 1000, which is never the startup value
    again, so that the announcement is sent once. *)
Theorem self_beacon_announces_once
  (w : world) (iface : mesh_interface) (position : value) (self : plugin) :
  fst (AprsPlugin.report_self_position w iface position self) = Ok tt ->
  exists callsign latitude longitude comment,
    getitem (VDict (config self)) "callsign" = Ok callsign /\
    getitem position "latitude" = Ok latitude /\
    getitem position "longitude" = Ok longitude /\
    calls (snd (AprsPlugin.report_self_position w iface position self))
    = (calls self
       ++ (if telemetry_seq self =? AprsPlugin.initial_telemetry_seq
           then [AprsSendall
                   (VDict [("fromcall", callsign); ("tocall", VStr "APLMB0");
                           ("body", VStr (":" ++ str_of w callsign
                                          ++ ":PARM.OnlineCnt,NodesCnt"))])]
           else [])
       ++ [AprsSendall
             (VDict [("fromcall", callsign); ("tocall", VStr "APLMB0");
                     ("symbol_table", VStr "L"); ("symbol", VStr "&");
                     ("latitude", latitude); ("longitude", longitude);
                     ("comment", comment)])])%list /\
    telemetry_seq (snd (AprsPlugin.report_self_position w iface position self))
    = (telemetry_seq self + 1) mod 1000 /\
    telemetry_seq (snd (AprsPlugin.report_self_position w iface position self))
    <> AprsPlugin.initial_telemetry_seq.
Proof.
  intros H.
  assert (Hnever : (telemetry_seq self + 1) mod 1000 <> AprsPlugin.initial_telemetry_seq).
  { pose proof (Z.mod_pos_bound (telemetry_seq self + 1) 1000 ltac:(lia)).
    unfold AprsPlugin.initial_telemetry_seq. lia. }
  revert H.
  unfold AprsPlugin.report_self_position, AprsPlugin.encode_igate_telemetry,
    AprsPlugin.initial_telemetry_seq.
  unfold bindM, get_self, lift, perform, ret, put_telemetry_seq.
  destruct (getitem (VDict (config self)) "callsign") as [callsign|e] eqn:Ecall;
    [|destruct (telemetry_seq self =? -1); cbn beta iota; try discriminate;
      destruct (AprsPlugin.get_igate_telemetry w iface); cbn beta iota; try discriminate;
      destruct (AprsPlugin.encode_all _); cbn beta iota; discriminate].
  destruct (telemetry_seq self =? -1) eqn:Eseq; cbn beta iota;
    try (destruct (respond w (AprsSendall _)); cbn beta iota; [|discriminate]);
    (destruct (AprsPlugin.get_igate_telemetry w iface); cbn beta iota; [|discriminate]);
    (destruct (AprsPlugin.encode_all _); cbn beta iota; [|discriminate]);
    (destruct (getitem position "latitude") as [latitude|]; cbn beta iota; [|discriminate]);
    (destruct (getitem position "longitude") as [longitude|]; cbn beta iota; [|discriminate]);
    (destruct (getitem (VDict (config self)) "igate") as [igate|]; cbn beta iota;
       [|discriminate]);
    (destruct (getitem igate "comment") as [comment0|]; cbn beta iota; [|discriminate]);
    (destruct (str_add comment0 _) as [comment|]; cbn beta iota; [|discriminate]);
    (destruct (respond w (AprsSendall _)); cbn beta iota; [|discriminate]);
    intros _; exists callsign, latitude, longitude, comment;
    repeat split; try reflexivity; try exact Hnever;
    cbn [snd calls with_call with_telemetry_seq]; now rewrite <- app_assoc.
Qed.

Lemma self_beacon_announces_once_witness :
  exists callsign latitude longitude comment,
    getitem (VDict (config Examples.aprs_stage)) "callsign" = Ok callsign /\
    getitem (VDict [("latitude", VInt 52); ("longitude", VInt 13)]) "latitude"
    = Ok latitude /\
    getitem (VDict [("latitude", VInt 52); ("longitude", VInt 13)]) "longitude"
    = Ok longitude /\
    calls (snd (AprsPlugin.report_self_position Examples.example_world Examples.radio
                  (VDict [("latitude", VInt 52); ("longitude", VInt 13)])
                  Examples.aprs_stage))
    = (calls Examples.aprs_stage
       ++ (if telemetry_seq Examples.aprs_stage =? AprsPlugin.initial_telemetry_seq
           then [AprsSendall
                   (VDict [("fromcall", callsign); ("tocall", VStr "APLMB0");
                           ("body", VStr (":" ++ str_of Examples.example_world callsign
                                          ++ ":PARM.OnlineCnt,NodesCnt"))])]
           else [])
       ++ [AprsSendall
             (VDict [("fromcall", callsign); ("tocall", VStr "APLMB0");
                     ("symbol_table", VStr "L"); ("symbol", VStr "&");
                     ("latitude", latitude); ("longitude", longitude);
                     ("comment", comment)])])%list /\
    telemetry_seq (snd (AprsPlugin.report_self_position Examples.example_world
                          Examples.radio
                          (VDict [("latitude", VInt 52); ("longitude", VInt 13)])
                          Examples.aprs_stage))
    = (telemetry_seq Examples.aprs_stage + 1) mod 1000 /\
    telemetry_seq (snd (AprsPlugin.report_self_position Examples.example_world
                          Examples.radio
                          (VDict [("latitude", VInt 52); ("longitude", VInt 13)])
                          Examples.aprs_stage))
    <> AprsPlugin.initial_telemetry_seq.
Proof.
  apply (self_beacon_announces_once Examples.example_world Examples.radio
           (VDict [("latitude", VInt 52); ("longitude", VInt 13)]) Examples.aprs_stage).
  reflexivity.
Defined.

(** The identity of a relayed node is read off its long name.  For a packet
    with a sender, [parse_aprs_data] raises [ValueError] when the sender is not
    in the directory, has no user record, has no long name or has one the name
    template does not match; when the template matches, it returns the groups
    of the match if they hold a callsign and a symbol, and raises [ValueError]
    otherwise.  The comment is not asked for. *)
Theorem name_template_decides_the_identity
  (w : world) (self : plugin) (iface : mesh_interface) (packet from : value) :
  getitem packet "from" = Ok from ->
  (node_get from (nodesByNum iface) = Raise KeyError ->
   AprsPlugin.parse_aprs_data w self iface packet = Raise ValueError) /\
  (forall nd, node_get from (nodesByNum iface) = Ok (VDict nd) ->
     (dict_get "user" nd = None ->
      AprsPlugin.parse_aprs_data w self iface packet = Raise ValueError) /\
     (forall ud, dict_get "user" nd = Some (VDict ud) ->
        (dict_get "longName" ud = None ->
         AprsPlugin.parse_aprs_data w self iface packet = Raise ValueError) /\
        (forall long_name groups,
           dict_get "longName" ud = Some long_name ->
           aprs_name_match w
             match dict_get "device_name_format" (config self) with
             | Some format => format
             | None => VStr "{CALLSIGN} +CBAPRS{SYMBOL}{COMMENT}"
             end long_name = Ok groups ->
           (groups = VNone ->
            AprsPlugin.parse_aprs_data w self iface packet = Raise ValueError) /\
           (forall g, groups = VDict g ->
              AprsPlugin.parse_aprs_data w self iface packet
              = if dict_mem "callsign" g && dict_mem "symbol" g
                then Ok (VDict g) else Raise ValueError)))).
Proof.
  intros Hfrom. unfold AprsPlugin.parse_aprs_data. rewrite Hfrom. cbn [bind].
  unfold AprsPlugin.node_known, or_else.
  split; [intros ->; reflexivity|].
  intros nd ->. cbn [bind negb contains py_in]. unfold dict_mem.
  split; [intros ->; reflexivity|].
  intros ud Huser. rewrite Huser. cbn [negb bind].
  rewrite (getitem_dict_some _ _ _ Huser). cbn [bind contains py_in]. unfold dict_mem.
  split; [intros ->; reflexivity|].
  intros long_name groups Hname Hmatch. rewrite Hname. cbn [negb bind].
  rewrite (getitem_dict_some _ _ _ Hname). cbn [bind]. rewrite Hmatch. cbn [bind].
  split; [intros ->; reflexivity|].
  intros g ->. cbn [is_none bind contains py_in]. unfold dict_mem.
  destruct (dict_get "callsign" g); cbn [negb andb bind]; [|reflexivity].
  destruct (dict_get "symbol" g); reflexivity.
Qed.

Lemma name_template_decides_the_identity_witness :
  AprsPlugin.parse_aprs_data Examples.example_world Examples.aprs_stage Examples.radio
    Examples.neighbour_position = Raise ValueError /\
  AprsPlugin.parse_aprs_data Scenarios.world_with_records Scenarios.aprs_with_tracker
    Scenarios.radio_with_tracker Examples.neighbour_position
  = Ok (VDict [("callsign", VStr "N0CALL"); ("symbol", VStr "/>"); ("comment", VStr "hi")]).
Proof.
  split.
  - destruct (name_template_decides_the_identity Examples.example_world
                Examples.aprs_stage Examples.radio Examples.neighbour_position (VInt 2)
                eq_refl) as [_ H].
    destruct (H [("user", VDict [("longName", VStr "Backpack")])] eq_refl) as [_ H1].
    destruct (H1 [("longName", VStr "Backpack")] eq_refl) as [_ H2].
    destruct (H2 (VStr "Backpack") VNone eq_refl eq_refl) as [H3 _].
    exact (H3 eq_refl).
  - destruct (name_template_decides_the_identity Scenarios.world_with_records
                Scenarios.aprs_with_tracker Scenarios.radio_with_tracker
                Examples.neighbour_position (VInt 2) eq_refl) as [_ H].
    destruct (H [("user", VDict [("longName", VStr "N0CALL +CBAPRS/>hi")])] eq_refl)
      as [_ H1].
    destruct (H1 [("longName", VStr "N0CALL +CBAPRS/>hi")] eq_refl) as [_ H2].
    destruct (H2 (VStr "N0CALL +CBAPRS/>hi")
                (VDict [("callsign", VStr "N0CALL"); ("symbol", VStr "/>");
                        ("comment", VStr "hi")]) eq_refl eq_refl) as [_ H3].
    exact (H3 _ eq_refl).
Defined.

(** The beacon of a relayed node.  For the position report of another node
    whose long name gives a callsign and a two-character symbol, the stage
    sends one beacon: from the callsign of the node, by way of the callsign of
    the gateway, with the table and the code of the symbol, the reported
    coordinates and the comment of the name.  When the name template has no
    comment group, the stage does not skip the node: it raises [KeyError] and
    sends nothing. *)
Theorem neighbours_are_relayed_under_their_callsign
  (w : world) (self : plugin) (iface : mesh_interface) (packet : value)
  (groups : dict) (decoded position fromcall symbol symbol_table symbol_code
   callsign latitude longitude : value) :
  interface self = Some iface ->
  AprsPlugin.is_position_packet packet = Ok true ->
  (from <- getitem packet "from" ;;
   num <- getitem (getMyNodeInfo iface) "num" ;; Ok (py_eqb from num)) = Ok false ->
  AprsPlugin.parse_aprs_data w self iface packet = Ok (VDict groups) ->
  getitem packet "decoded" = Ok decoded ->
  getitem decoded "position" = Ok position ->
  getitem position "latitude" = Ok latitude ->
  getitem position "longitude" = Ok longitude ->
  getitem (VDict (config self)) "callsign" = Ok callsign ->
  dict_get "callsign" groups = Some fromcall ->
  dict_get "symbol" groups = Some symbol ->
  py_index symbol 0 = Ok symbol_table ->
  py_index symbol 1 = Ok symbol_code ->
  (dict_get "comment" groups = None ->
   AprsPlugin.do_action w packet self = (Raise KeyError, self)) /\
  (forall comment,
     dict_get "comment" groups = Some comment ->
     is_ok (respond w (AprsSendall
       (VDict [("fromcall", fromcall); ("tocall", VStr "APLMB0");
               ("path", VList [VStr "WIDE1-1"; VStr "qAR"; callsign]);
               ("symbol_table", symbol_table); ("symbol", symbol_code);
               ("latitude", latitude); ("longitude", longitude);
               ("comment", comment)]))) = true ->
     AprsPlugin.do_action w packet self
     = (Ok packet,
        with_call (AprsSendall
          (VDict [("fromcall", fromcall); ("tocall", VStr "APLMB0");
                  ("path", VList [VStr "WIDE1-1"; VStr "qAR"; callsign]);
                  ("symbol_table", symbol_table); ("symbol", symbol_code);
                  ("latitude", latitude); ("longitude", longitude);
                  ("comment", comment)])) self)).
Proof.
  intros Hi Hpos Hother Hparse Hd Hp Hlat Hlon Hcall Hfromcall Hsymbol Htable Hcode.
  unfold AprsPlugin.do_action, bindM, get_self, lift, ret, try_exceptM, and_then.
  rewrite Hi, Hpos. cbn [bind]. rewrite Hother, Hparse, Hd, Hp.
  unfold AprsPlugin.report_position, bindM, try_exceptM, get_self, lift, perform, ret.
  rewrite (getitem_dict_some _ _ _ Hfromcall), Hcall, (getitem_dict_some _ _ _ Hsymbol),
    Htable, Hcode, Hlat, Hlon.
  split.
  - intros Hcomment. unfold getitem. rewrite Hcomment. reflexivity.
  - intros comment Hcomment Hsend. rewrite (getitem_dict_some _ _ _ Hcomment).
    destruct (respond w _); [reflexivity | discriminate].
Qed.

Lemma neighbours_are_relayed_under_their_callsign_witness :
  AprsPlugin.do_action Scenarios.world_with_records Examples.neighbour_position
    Scenarios.aprs_with_tracker
  = (Ok Examples.neighbour_position,
     with_call (AprsSendall
       (VDict [("fromcall", VStr "N0CALL"); ("tocall", VStr "APLMB0");
               ("path", VList [VStr "WIDE1-1"; VStr "qAR"; VStr "GW0CALL"]);
               ("symbol_table", VStr "/"); ("symbol", VStr ">");
               ("latitude", VInt 52); ("longitude", VInt 13);
               ("comment", VStr "hi")])) Scenarios.aprs_with_tracker).
Proof.
  apply (neighbours_are_relayed_under_their_callsign Scenarios.world_with_records
           Scenarios.aprs_with_tracker Scenarios.radio_with_tracker
           Examples.neighbour_position
           [("callsign", VStr "N0CALL"); ("symbol", VStr "/>"); ("comment", VStr "hi")]
           (VDict [("portnum", VStr "POSITION_APP");
                   ("position", VDict [("latitude", VInt 52); ("longitude", VInt 13)])])
           (VDict [("latitude", VInt 52); ("longitude", VInt 13)])
           (VStr "N0CALL") (VStr "/>") (VStr "/") (VStr ">") (VStr "GW0CALL")
           (VInt 52) (VInt 13));
    reflexivity.
Defined.

(** ** More on the re-transmitter and the envelope stages *)

(** The destination of a re-transmission.  On a connected device, a
    destination in the configuration wins over the packet's: ["to"] first,
    then ["toId"]; with neither and no node mapping, the packet's ["to"] is
    used, then its ["toId"].  A destination that is empty or zero counts as
    missing, also when it comes from the configuration and the packet names
    one: the packet is passed on and nothing is sent.  Otherwise a text that
    did not come from the radio is sent once, to that destination. *)
Theorem retransmitter_destination
  (w : world) (self : plugin) (packet : value) (name : string) (dev : mesh_interface) :
  dict_get "device" (config self) = Some (VStr name) ->
  assoc name (devices self) = Some dev ->
  (forall d, dict_get "to" (config self) = Some d ->
     RadioMessagePlugin.destination self packet = Ok d) /\
  (forall d, dict_get "to" (config self) = None ->
     dict_get "toId" (config self) = Some d ->
     RadioMessagePlugin.destination self packet = Ok d) /\
  (forall pd, packet = VDict pd ->
     dict_get "to" (config self) = None ->
     dict_get "toId" (config self) = None ->
     dict_get "node_mapping" (config self) = None ->
     RadioMessagePlugin.destination self packet
     = Ok match dict_get "to" pd, dict_get "toId" pd with
          | Some d, _ => d
          | None, Some d => d
          | None, None => VNone
          end) /\
  (forall dest, RadioMessagePlugin.destination self packet = Ok dest ->
     truthy dest = false ->
     RadioMessagePlugin.do_action w packet self = (Ok packet, self)) /\
  (forall dest pd dd text,
     RadioMessagePlugin.destination self packet = Ok dest ->
     truthy dest = true ->
     packet = VDict pd ->
     dict_get "decoded" pd = Some (VDict dd) ->
     dict_get "text" dd = Some text ->
     dict_get "from" pd = None ->
     is_ok (respond w (SendText (VStr name) text dest)) = true ->
     RadioMessagePlugin.do_action w packet self
     = (Ok packet, with_call (SendText (VStr name) text dest) self)).
Proof.
  intros Hname Hdev.
  repeat split.
  - intros d Hto. unfold RadioMessagePlugin.destination, dict_mem. rewrite Hto.
    apply (getitem_dict_some _ _ _ Hto).
  - intros d Hto HtoId. unfold RadioMessagePlugin.destination, dict_mem.
    rewrite Hto, HtoId. apply (getitem_dict_some _ _ _ HtoId).
  - intros pd -> Hto HtoId Hmap.
    unfold RadioMessagePlugin.destination, dict_mem, and_then, contains.
    rewrite Hto, HtoId, Hmap. cbn [bind py_in]. unfold dict_mem.
    destruct (dict_get "to" pd) as [d|] eqn:Ed; cbn [bind].
    + apply (getitem_dict_some _ _ _ Ed).
    + destruct (dict_get "toId" pd) as [d|] eqn:Ei; [|reflexivity].
      apply (getitem_dict_some _ _ _ Ei).
  - intros dest Hdest Hfalsy.
    unfold RadioMessagePlugin.do_action, bindM, get_self, lift, ret.
    rewrite (getitem_dict_some _ _ _ Hname). unfold registry_has. rewrite Hdev.
    cbn [negb]. rewrite Hdest, Hfalsy. reflexivity.
  - intros dest pd dd text Hdest Htruthy -> Hd Ht Hfrom Hsend.
    unfold RadioMessagePlugin.do_action, bindM, get_self, lift, ret, perform.
    rewrite (getitem_dict_some _ _ _ Hname). unfold registry_has, registry_get.
    rewrite Hdev. cbn [negb]. rewrite Hdest, Htruthy. cbn [negb].
    unfold and_then, contains. cbn [py_in bind]. unfold dict_mem. rewrite Hd.
    rewrite (getitem_dict_some _ _ _ Hd). cbn [bind py_in]. unfold dict_mem.
    rewrite Ht, Hfrom. cbn [negb]. rewrite (getitem_dict_some _ _ _ Ht).
    destruct (respond w _); [reflexivity | discriminate].
Qed.

Lemma retransmitter_destination_witness :
  RadioMessagePlugin.do_action Examples.example_world Examples.hello_packet
    {| config := [("device", VStr "local"); ("to", VStr "")];
       devices := [("local", Examples.radio)]; mqtt_servers := []; interface := None;
       telemetry_seq := AprsPlugin.initial_telemetry_seq; calls := [] |}
  = (Ok Examples.hello_packet,
     {| config := [("device", VStr "local"); ("to", VStr "")];
        devices := [("local", Examples.radio)]; mqtt_servers := []; interface := None;
        telemetry_seq := AprsPlugin.initial_telemetry_seq; calls := [] |}) /\
  RadioMessagePlugin.do_action Examples.example_world Examples.hello_packet
    {| config := [("device", VStr "local"); ("toId", VStr "!c")];
       devices := [("local", Examples.radio)]; mqtt_servers := []; interface := None;
       telemetry_seq := AprsPlugin.initial_telemetry_seq; calls := [] |}
  = (Ok Examples.hello_packet,
     {| config := [("device", VStr "local"); ("toId", VStr "!c")];
        devices := [("local", Examples.radio)]; mqtt_servers := []; interface := None;
        telemetry_seq := AprsPlugin.initial_telemetry_seq;
        calls := [SendText (VStr "local") (VStr "hello") (VStr "!c")] |}).
Proof.
  split.
  - apply (retransmitter_destination Examples.example_world
             {| config := [("device", VStr "local"); ("to", VStr "")];
                devices := [("local", Examples.radio)]; mqtt_servers := [];
                interface := None;
                telemetry_seq := AprsPlugin.initial_telemetry_seq; calls := [] |}
             Examples.hello_packet "local" Examples.radio eq_refl eq_refl)
      with (dest := VStr ""); reflexivity.
  - apply (retransmitter_destination Examples.example_world
             {| config := [("device", VStr "local"); ("toId", VStr "!c")];
                devices := [("local", Examples.radio)]; mqtt_servers := [];
                interface := None;
                telemetry_seq := AprsPlugin.initial_telemetry_seq; calls := [] |}
             Examples.hello_packet "local" Examples.radio eq_refl eq_refl)
      with (dest := VStr "!c")
           (pd := [("fromId", VStr "!a"); ("toId", VStr "!b");
                   ("decoded", VDict [("portnum", VStr "TEXT_MESSAGE_APP");
                                      ("text", VStr "hello")])])
           (dd := [("portnum", VStr "TEXT_MESSAGE_APP"); ("text", VStr "hello")]);
      reflexivity.
Defined.

(** What the envelope stages return.  Whenever the Encrypt stage returns, it
    returns the dropped marker, having no key, or else a text, and then its
    input has an ["id"] entry and a serialization: a packet without identifier
    is never sealed.  Whenever the Decrypt stage returns, it returns its input
    as it is or else the object in an envelope it opened, and this object has
    an ["id"] entry: an envelope is never returned half opened. *)
Theorem envelope_stages_return_whole_results
  (w : world) (self : plugin) (packet out : value) :
  (EncryptFilter.do_action w self packet = Ok out ->
   (dict_mem "key" (config self) = false /\ out = VNone) \/
   (exists serialized id message,
      out = VStr serialized /\
      getitem packet "id" = Ok id /\
      json_dumps w packet = Ok message)) /\
  (DecryptFilter.do_action w self packet = Ok out ->
   out = packet \/
   (exists text path private_key payload id,
      packet = VStr text /\
      dict_get "key" (config self) = Some path /\
      jwk_from_pem_file w path = Ok private_key /\
      jwe_decrypt w text private_key = Ok payload /\
      json_loads w (VBytes payload) = Ok out /\
      getitem out "id" = Ok id)).
Proof.
  split.
  - unfold EncryptFilter.do_action. intros H.
    destruct (dict_mem "key" (config self)) eqn:Ekey; cbn [negb] in H.
    + right. repeat (apply bind_ok_inv in H as (? & ? & H)).
      injection H as <-. eauto 10.
    + left. injection H as <-. auto.
  - unfold DecryptFilter.do_action. intros H.
    destruct (negb (dict_mem "key" (config self))); [left; now injection H|].
    destruct packet as [| | | |text| | |]; try (left; now injection H).
    right. apply bind_ok_inv in H as (path & Hpath & H).
    apply bind_ok_inv in H as (private_key & Hkey & H).
    apply bind_ok_inv in H as (payload & Hpayload & H).
    apply bind_ok_inv in H as (opened & Hopened & H).
    apply bind_ok_inv in H as (id & Hid & H).
    injection H as <-.
    exists text, path, private_key, payload, id. repeat split; auto.
    unfold getitem in Hpath. destruct (dict_get "key" (config self)); [|discriminate].
    now injection Hpath as ->.
Qed.
